(** * Context server: a shallow embedding of [context-server/index.js]

    The development follows the JavaScript source function by function:
    JSON values and the handful of JavaScript coercions the server relies on,
    Node's [path.join], a small file system, the [ContextStorage] class, the
    Express route handlers and the router in front of them, the fan-out to
    regional servers, the synchronisation of a replica with the central
    server, the stream routes, the client and the Tailscale integration.

    Conventions.
    - Numbers are the safe integers of JavaScript, as [Z]: [JNum n] stands
      for a number only when [Js.safe_integer n] holds, and a [json] for a
      JavaScript value only when [Js.json_value] holds.  Fractions and larger
      numbers are not covered.
    - A character of a [string] stands for one UTF-16 code unit.
    - [undefined] is [None] at type [option json]; [null] is [JNull].
    - [async] functions are run to completion one after the other: a state is
      passed in and the state after the last [await] is returned. *)

From Stdlib Require Import ZArith String Ascii List Lia Bool.
From stdpp Require Import base option list gmap strings pretty.

Set Warnings "-register-all".
Local Open Scope string_scope.
Local Open Scope Z_scope.

(** ** JSON values and JavaScript coercions *)

Module Js.

Inductive json : Type :=
| JNull
| JBool (b : bool)
| JNum (n : Z)
| JStr (s : string)
| JArr (items : list json)
| JObj (fields : list (string * json)).

(** [ToBoolean]: [false], [0], [null], [""] (and [undefined]) are falsy. *)
Definition truthy (v : json) : bool :=
  match v with
  | JNull => false
  | JBool b => b
  | JNum n => negb (n =? 0)
  | JStr s => negb (String.eqb s "")
  | JArr _ | JObj _ => true
  end.

Definition truthy_opt (o : option json) : bool :=
  match o with Some v => truthy v | None => false end.

Fixpoint join_with (sep : string) (l : list string) : string :=
  match l with
  | [] => ""
  | [x] => x
  | x :: rest => x ++ sep ++ join_with sep rest
  end.

(** [ToString]; inside [Array.prototype.join] a [null] element prints as
    the empty string. *)
Fixpoint to_string (v : json) : string :=
  match v with
  | JNull => "null"
  | JBool true => "true"
  | JBool false => "false"
  | JNum n => pretty n
  | JStr s => s
  | JArr items =>
      join_with ","
        (List.map (fun x => match x with JNull => "" | _ => to_string x end) items)
  | JObj _ => "[object Object]"
  end.

(** Property read [o.k] on an object given as its list of fields. *)
Fixpoint obj_get (k : string) (fs : list (string * json)) : option json :=
  match fs with
  | [] => None
  | (k', v) :: rest => if String.eqb k' k then Some v else obj_get k rest
  end.

(** Property write [o.k = v]: an existing key keeps its position. *)
Fixpoint obj_set (k : string) (v : json) (fs : list (string * json))
  : list (string * json) :=
  match fs with
  | [] => [(k, v)]
  | (k', v') :: rest =>
      if String.eqb k' k then (k, v) :: rest else (k', v') :: obj_set k v rest
  end.

(** [v.k] for a name [k] that is not an own property of strings or arrays
    (such as ["version"], ["context"], ["metadata"]).  The outer [None] is
    the [TypeError] of reading a property of [null]. *)
Definition get_prop (v : json) (k : string) : option (option json) :=
  match v with
  | JNull => None
  | JObj fs => Some (obj_get k fs)
  | _ => Some None
  end.

Fixpoint index_from (i : nat) (l : list json) : list (string * json) :=
  match l with
  | [] => []
  | x :: rest => (pretty i, x) :: index_from (S i) rest
  end.

Fixpoint chars (s : string) : list json :=
  match s with
  | EmptyString => []
  | String a rest => JStr (String a EmptyString) :: chars rest
  end.

(** Own enumerable properties copied by an object spread [{...v}]. *)
Definition spread (v : json) : list (string * json) :=
  match v with
  | JObj fs => fs
  | JArr items => index_from 0 items
  | JStr s => index_from 0 (chars s)
  | _ => []
  end.

(** [(x || 0)] *)
Definition or_zero (o : option json) : json :=
  match o with
  | Some v => if truthy v then v else JNum 0
  | None => JNum 0
  end.

(** [x + 1]: numeric addition, or concatenation when [x] is (or converts
    to) a string.  The sum is exact for the numbers of the model (the safe
    integers, see [safe_integer] below); from [2^53] on JavaScript rounds
    it. *)
Definition plus_one (v : json) : json :=
  match v with
  | JNull => JNum 1
  | JBool b => JNum ((if b then 1 else 0) + 1)
  | JNum n => JNum (n + 1)
  | JStr s => JStr (s ++ "1")
  | JArr _ | JObj _ => JStr (to_string v ++ "1")
  end.

Inductive prim := PNum (n : Z) | PStr (s : string) | PNaN.

Definition to_prim (o : option json) : prim :=
  match o with
  | None => PNaN
  | Some JNull => PNum 0
  | Some (JBool b) => PNum (if b then 1 else 0)
  | Some (JNum n) => PNum n
  | Some (JStr s) => PStr s
  | Some v => PStr (to_string v)
  end.

(** [a < b].  A string compared with a number would first be parsed as a
    numeric literal; that conversion is not part of the model and is
    reported as [None]. *)
Definition lt (a b : option json) : option bool :=
  match to_prim a, to_prim b with
  | PNum m, PNum n => Some (m <? n)
  | PStr s, PStr t => Some (String.ltb s t)
  | PNaN, _ | _, PNaN => Some false
  | PStr _, PNum _ | PNum _, PStr _ => None
  end.

(** *** [JSON.stringify] (used for the [size] field) *)

Definition hex_digit (n : N) : ascii :=
  match n with
  | 0%N => "0" | 1%N => "1" | 2%N => "2" | 3%N => "3" | 4%N => "4"
  | 5%N => "5" | 6%N => "6" | 7%N => "7" | 8%N => "8" | 9%N => "9"
  | 10%N => "a" | 11%N => "b" | 12%N => "c" | 13%N => "d" | 14%N => "e"
  | _ => "f"
  end%char.

(** The one-character string holding a double quote (code unit 34). *)
Definition dquote : string := String (ascii_of_N 34) "".

Definition escape_char (a : ascii) : string :=
  let n := N_of_ascii a in
  if (n =? 34)%N then String "\" dquote
  else if (n =? 92)%N then "\\"
  else if (n =? 8)%N then "\b"
  else if (n =? 12)%N then "\f"
  else if (n =? 10)%N then "\n"
  else if (n =? 13)%N then "\r"
  else if (n =? 9)%N then "\t"
  else if (n <? 32)%N then
    "\u00" ++ String (hex_digit (n / 16)) (String (hex_digit (n mod 16)) "")
  else String a "".

Fixpoint escape (s : string) : string :=
  match s with
  | EmptyString => ""
  | String a rest => escape_char a ++ escape rest
  end.

Definition quote (s : string) : string := dquote ++ escape s ++ dquote.

Fixpoint stringify (v : json) : string :=
  match v with
  | JNull => "null"
  | JBool true => "true"
  | JBool false => "false"
  | JNum n => pretty n
  | JStr s => quote s
  | JArr items => "[" ++ join_with "," (List.map stringify items) ++ "]"
  | JObj fs =>
      "{" ++ join_with ","
               (List.map (fun kv => quote (fst kv) ++ ":" ++ stringify (snd kv)) fs)
          ++ "}"
  end.

(** *** The values that [JSON.parse] returns

    [Number.isSafeInteger]: below [2^53] in magnitude every integer is a
    number of its own, [n + 1] is exact and [JSON.stringify] prints all the
    digits.  Beyond, [JSON.parse] rounds ([9007199254740993] is read as
    [...992], [1e400] as [Infinity], which is printed as [null]); such
    numbers, and fractions, have no counterpart in [json]. *)
Definition safe_integer (n : Z) : bool :=
  (-9007199254740992 <? n) && (n <? 9007199254740992).



End Js.

(** ** Node's [path] module (POSIX flavour)

    [path.join] and [path.basename] are library functions; they are modelled
    on path segments, following the documented behaviour of Node's
    [normalizeString]: empty and ["."] segments vanish, [".."] removes the
    segment before it (or stays, in a relative path, when there is none). *)

Module Path.

Definition slash : ascii := "/"%char.

Fixpoint split (s : string) : list string :=
  match s with
  | EmptyString => [EmptyString]
  | String a rest =>
      if Ascii.eqb a slash then EmptyString :: split rest
      else match split rest with
           | seg :: segs => String a seg :: segs
           | [] => [String a EmptyString]
           end
  end.

(** One segment against the stack of kept segments (top first). *)
Definition step (allow_above : bool) (kept : list string) (seg : string)
  : list string :=
  if String.eqb seg "" || String.eqb seg "." then kept
  else if String.eqb seg ".." then
    match kept with
    | top :: below =>
        if String.eqb top ".."
        then (if allow_above then ".." :: kept else kept)
        else below
    | [] => if allow_above then [".."] else []
    end
  else seg :: kept.

Definition normalize_segments (allow_above : bool) (segs : list string)
  : list string :=
  rev (fold_left (step allow_above) segs []).

Definition is_absolute (s : string) : bool :=
  match s with String a _ => Ascii.eqb a slash | EmptyString => false end.

Fixpoint ends_in_slash (s : string) : bool :=
  match s with
  | EmptyString => false
  | String a EmptyString => Ascii.eqb a slash
  | String _ rest => ends_in_slash rest
  end.

Definition normalize (p : string) : string :=
  if String.eqb p "" then "."
  else
    let abs := is_absolute p in
    let res := Js.join_with "/" (normalize_segments (negb abs) (split p)) in
    if String.eqb res "" then
      (if abs then "/" else if ends_in_slash p then "./" else ".")
    else
      let res := if ends_in_slash p then res ++ "/" else res in
      if abs then "/" ++ res else res.

(** [path.join(a, b)] *)
Definition join (a b : string) : string :=
  match String.eqb a "", String.eqb b "" with
  | true, true => "."
  | true, false => normalize b
  | false, true => normalize a
  | false, false => normalize (a ++ "/" ++ b)
  end.

(** [s.endsWith(ext)] *)
Fixpoint ends_with (ext s : string) : bool :=
  String.eqb s ext ||
  match s with
  | String _ rest => ends_with ext rest
  | EmptyString => false
  end.

(** [s.includes(sub)] *)
Fixpoint includes (sub s : string) : bool :=
  String.prefix sub s ||
  match s with
  | String _ rest => includes sub rest
  | EmptyString => false
  end.

(** [path.basename(file, ext)] for a directory entry name [file] (no
    separator in it): the extension is cut off when the name ends with it. *)
Fixpoint basename (file ext : string) : string :=
  if String.eqb file ext then ""
  else match file with
       | String a rest => String a (basename rest ext)
       | EmptyString => ""
       end.

End Path.

(** ** The file system

    Files are addressed by the resolved form of a path string: whether it is
    absolute, and its normalised segments.  The text of a file is kept as the
    JSON value it denotes ([JSON.parse (JSON.stringify v)] is [v] for the
    values of the model); [Junk] is any text that [JSON.parse] rejects.  A
    location listed in [broken] fails every operation with [EIO]. *)

Module Fs.

Inductive text := JsonText (v : Js.json) | Junk.

Inductive entry := File (t : text) | Dir.

Inductive errno := ENOENT | EISDIR | EIO | EINVAL.

(** The fixed, leading part of [err.message]: Node goes on with the system
    call and the path ([", open 'data/c1.json'"]) and, for a path with a NUL,
    with the types it accepts and the path it received. *)
Definition message (e : errno) : string :=
  match e with
  | ENOENT => "ENOENT: no such file or directory"
  | EISDIR => "EISDIR: illegal operation on a directory"
  | EIO => "EIO: i/o error"
  | EINVAL => "The argument 'path' must be a string"
  end.

Definition key : Type := bool * list string.

Record t := mk {
  entries : gmap (bool * list string) entry;
  broken : gset (bool * list string);
}.

Definition resolve (p : string) : key :=
  let abs := Path.is_absolute p in
  (abs, Path.normalize_segments (negb abs) (Path.split p)).

Fixpoint has_nul (s : string) : bool :=
  match s with
  | EmptyString => false
  | String a rest => (N_of_ascii a =? 0)%N || has_nul rest
  end.

Definition parent (k : key) : key := (fst k, removelast (snd k)).

(** The working directory, the root and their ancestors always exist. *)
Definition dir_exists (fs : t) (k : key) : bool :=
  match entries fs !! k with
  | Some Dir => true
  | Some (File _) => false
  | None => forallb (String.eqb "..") (snd k)
  end.

Definition guard (fs : t) (p : string) : option errno :=
  if has_nul p then Some EINVAL
  else if bool_decide (resolve p ∈ broken fs) then Some EIO
  else None.

Definition readFile (p : string) (fs : t) : errno + text :=
  match guard fs p with
  | Some e => inl e
  | None =>
      match entries fs !! resolve p with
      | Some (File txt) => inr txt
      | Some Dir => inl EISDIR
      | None => inl ENOENT
      end
  end.

Definition writeFile (p : string) (txt : text) (fs : t) : errno + t :=
  match guard fs p with
  | Some e => inl e
  | None =>
      match entries fs !! resolve p with
      | Some Dir => inl EISDIR
      | _ =>
          if dir_exists fs (parent (resolve p))
          then inr (mk (<[resolve p := File txt]> (entries fs)) (broken fs))
          else inl ENOENT
      end
  end.

Definition unlink (p : string) (fs : t) : errno + t :=
  match guard fs p with
  | Some e => inl e
  | None =>
      match entries fs !! resolve p with
      | Some (File _) => inr (mk (delete (resolve p) (entries fs)) (broken fs))
      | Some Dir => inl EISDIR
      | None => inl ENOENT
      end
  end.

Definition child_name (d k : key) : option string :=
  if bool_decide (fst k = fst d ∧ snd k ≠ [] ∧ removelast (snd k) = snd d)
  then last (snd k) else None.

Definition readdir (p : string) (fs : t) : errno + list string :=
  match guard fs p with
  | Some e => inl e
  | None =>
      if dir_exists fs (resolve p)
      then inr (omap (fun kv => child_name (resolve p) (fst kv))
                     (map_to_list (entries fs)))
      else inl ENOENT
  end.

(** [JSON.parse] of a file's text; [None] is the [SyntaxError]. *)
Definition JSON_parse (txt : text) : option Js.json :=
  match txt with JsonText v => Some v | Junk => None end.

End Fs.

(** ** Server state *)

Import Js.

Inductive level := Info | Warn | Error.

(** One call of [console.log], [console.warn] or [console.error]: the message
    and the values passed after it. *)
Record log_line := Log { lvl : level; msg : string; args : list json }.

(** The events given to [contextEvents.emit]. *)
Inductive bus_event :=
| contextUpdated (contextId : string) (metadata : json)
| contextDeleted (contextId : string).

(** An outbound [axios] request. *)
Record request := Request {
  method : string;
  url : string;
  payload : option json;
  timeout : Z;
}.

Record config := Config {
  serverType : string;
  dataDir : string;
  port : Z;
  centralAuthority : string;
  syncInterval : Z;
  cacheTTL : Z;
  nodeId : string;
  regionId : string;
}.

(** The mutable state of one server process: its disk, the two module-level
    [Map]s, what was emitted on [contextEvents], the console, the requests it
    sent, and the clock ([clock n] is what the [n]-th reading of
    [new Date().toISOString()] gives). *)
Record node := Node {
  disk : Fs.t;
  contextCache : gmap string json;
  metadataCache : gmap string json;
  emitted : list bus_event;
  console : list log_line;
  sent : list request;
  clock : nat -> string;
  ticks : nat;
}.

Definition set_disk (d : Fs.t) (st : node) : node :=
  Node d (contextCache st) (metadataCache st) (emitted st) (console st)
       (sent st) (clock st) (ticks st).

Definition set_contextCache (c : gmap string json) (st : node) : node :=
  Node (disk st) c (metadataCache st) (emitted st) (console st)
       (sent st) (clock st) (ticks st).

Definition set_metadataCache (c : gmap string json) (st : node) : node :=
  Node (disk st) (contextCache st) c (emitted st) (console st)
       (sent st) (clock st) (ticks st).

Definition emit (e : bus_event) (st : node) : node :=
  Node (disk st) (contextCache st) (metadataCache st) (app (emitted st) [e])
       (console st) (sent st) (clock st) (ticks st).

Definition write_log (l : log_line) (st : node) : node :=
  Node (disk st) (contextCache st) (metadataCache st) (emitted st)
       (app (console st) [l]) (sent st) (clock st) (ticks st).

Definition send (r : request) (st : node) : node :=
  Node (disk st) (contextCache st) (metadataCache st) (emitted st)
       (console st) (app (sent st) [r]) (clock st) (ticks st).

(** [new Date().toISOString()] *)
Definition read_clock (st : node) : string * node :=
  (clock st (ticks st),
   Node (disk st) (contextCache st) (metadataCache st) (emitted st)
        (console st) (sent st) (clock st) (S (ticks st))).

Definition console_log (m : string) (a : list json) : node -> node :=
  write_log (Log Info m a).
Definition console_warn (m : string) (a : list json) : node -> node :=
  write_log (Log Warn m a).
Definition console_error (m : string) (a : list json) : node -> node :=
  write_log (Log Error m a).

(** What a rejected promise carries. *)
Inductive exn :=
| TypeError (m : string)
| FsError (e : Fs.errno)
| SyntaxError
| HttpError (m : string).

Definition exn_message (e : exn) : string :=
  match e with
  | TypeError m => m
  | FsError e => Fs.message e
  | SyntaxError => "Unexpected token in JSON"
  | HttpError m => m
  end.

(** ** [class ContextStorage]

    [baseDir] is [config.dataDir], as set by [startServer]. *)

Definition getContextPath (baseDir contextId : string) : string :=
  Path.join baseDir (contextId ++ ".json").

Definition getMetadataPath (baseDir contextId : string) : string :=
  Path.join baseDir (contextId ++ ".meta.json").

Definition exists_ (baseDir contextId : string) (st : node) : bool :=
  match Fs.readFile (getContextPath baseDir contextId) (disk st) with
  | inr _ => true
  | inl _ => false
  end.

(** Read a file and [JSON.parse] it, as the two first lines of both [try]
    blocks do. *)
Definition read_json (p : string) (st : node) : exn + json :=
  match Fs.readFile p (disk st) with
  | inl e => inl (FsError e)
  | inr txt =>
      match Fs.JSON_parse txt with
      | Some v => inr v
      | None => inl SyntaxError
      end
  end.

(** [getMetadata]: the result [JNull] is JavaScript's [null]. *)
Definition getMetadata (baseDir contextId : string) (st : node) : json * node :=
  match metadataCache st !! contextId with
  | Some m => (m, st)
  | None =>
      match read_json (getMetadataPath baseDir contextId) st with
      | inr metadata =>
          (metadata, set_metadataCache (<[contextId := metadata]> (metadataCache st)) st)
      | inl err =>
          (JNull,
           console_error ("Failed to read metadata for " ++ contextId ++ ": "
                          ++ exn_message err) [] st)
      end
  end.

Definition getContext (baseDir contextId : string) (st : node) : json * node :=
  match contextCache st !! contextId with
  | Some c => (c, st)
  | None =>
      match read_json (getContextPath baseDir contextId) st with
      | inr context =>
          (context, set_contextCache (<[contextId := context]> (contextCache st)) st)
      | inl err =>
          (JNull,
           console_error ("Failed to read context " ++ contextId ++ ": "
                          ++ exn_message err) [] st)
      end
  end.

(** The object literal [{...metadata, lastModified, size, version}]; [None]
    when [metadata] is [null] and reading [metadata.version] throws. *)
Definition updated_metadata (now : string) (context metadata : json) : option json :=
  match get_prop metadata "version" with
  | None => None
  | Some version =>
      Some (JObj
        (obj_set "version" (plus_one (or_zero version))
          (obj_set "size" (JNum (Z.of_nat (String.length (stringify context))))
            (obj_set "lastModified" (JStr now) (spread metadata)))))
  end.

(** [saveContext(contextId, context, metadata = {})]: [inl] is the rejection
    of the returned promise. *)
Definition saveContext (baseDir contextId : string) (context : json)
    (metadata : option json) (st : node) : (exn + json) * node :=
  let metadata := default (JObj []) metadata in
  let '(now, st) := read_clock st in
  let contextPath := getContextPath baseDir contextId in
  let metadataPath := getMetadataPath baseDir contextId in
  match updated_metadata now context metadata with
  | None =>
      (inl (TypeError "Cannot read properties of null (reading 'version')"), st)
  | Some updatedMetadata =>
      let failed (e : Fs.errno) (st : node) :=
        (inl (FsError e),
         console_error ("Failed to save context " ++ contextId ++ ": "
                        ++ Fs.message e) [] st) in
      match Fs.writeFile contextPath (Fs.JsonText context) (disk st) with
      | inl e => failed e st
      | inr d1 =>
          match Fs.writeFile metadataPath (Fs.JsonText updatedMetadata) d1 with
          | inl e => failed e (set_disk d1 st)
          | inr d2 =>
              let st := set_disk d2 st in
              let st := set_contextCache (<[contextId := context]> (contextCache st)) st in
              let st := set_metadataCache
                          (<[contextId := updatedMetadata]> (metadataCache st)) st in
              let st := emit (contextUpdated contextId updatedMetadata) st in
              (inr updatedMetadata, st)
          end
      end
  end.

Definition listContexts (baseDir : string) (st : node) : list string * node :=
  match Fs.readdir baseDir (disk st) with
  | inr files =>
      let contextFiles :=
        List.filter (fun file => negb (Path.includes ".meta." file)
                                 && Path.ends_with ".json" file) files in
      (List.map (fun file => Path.basename file ".json") contextFiles, st)
  | inl e =>
      ([], console_error ("Failed to list contexts: " ++ Fs.message e) [] st)
  end.

Definition deleteContext (baseDir contextId : string) (st : node) : bool * node :=
  let failed (e : Fs.errno) (st : node) :=
    (false,
     console_error ("Failed to delete context " ++ contextId ++ ": "
                    ++ Fs.message e) [] st) in
  match Fs.unlink (getContextPath baseDir contextId) (disk st) with
  | inl e => failed e st
  | inr d1 =>
      match Fs.unlink (getMetadataPath baseDir contextId) d1 with
      | inl e => failed e (set_disk d1 st)
      | inr d2 =>
          let st := set_disk d2 st in
          let st := set_contextCache (delete contextId (contextCache st)) st in
          let st := set_metadataCache (delete contextId (metadataCache st)) st in
          let st := emit (contextDeleted contextId) st in
          (true, st)
      end
  end.

(** ** Express routes

    The request body is the JSON object produced by [body-parser] (the empty
    object when the request has none), given as its list of fields. *)

Record response := Response { status : Z; body : json }.

Definition error_body (m : string) : json := JObj [("error", JStr m)].

(** The Tailscale integration object: whether it runs, and what
    [getPeers()] resolves to ([inl] is the message of its rejection).  When
    the command behind it runs is the matter of [getPeers_run]. *)
Record peer := Peer {
  name : option string;
  ip : option string;
  online : bool;
  tags : list string;
}.

Record tailscale := Tailscale {
  isRunning : bool;
  getPeers : string + list peer;
}.

(** The network as seen by [axios]: a request either fails with a message
    (refused, timed out, status outside 2xx) or resolves with a status and
    the response data. *)
Definition network : Type := request -> string + (Z * json).

Definition has_tag (t : string) (p : peer) : bool :=
  existsb (String.eqb t) (tags p).

Definition discoverRegionalServers (ts : option tailscale) (st : node)
  : list peer * node :=
  match ts with
  | Some t =>
      if isRunning t then
        match getPeers t with
        | inr peers =>
            let regionalServers :=
              List.filter (fun p => online p
                                    && (has_tag "tag:regional" p || has_tag "type:regional" p))
                          peers in
            (regionalServers,
             console_log ("Discovered " ++ pretty (length regionalServers)
                          ++ " regional servers via Tailscale") [] st)
        | inl m =>
            ([], console_error "Failed to discover regional servers:" [JStr m] st)
        end
      else ([], console_warn "Tailscale integration not available for peer discovery" [] st)
  | None => ([], console_warn "Tailscale integration not available for peer discovery" [] st)
  end.

Definition ip_value (p : peer) : json :=
  match ip p with Some i => JStr i | None => JNull end.

(** [server.name || server.ip] *)
Definition name_or_ip (p : peer) : json :=
  match name p with
  | Some n => if String.eqb n "" then ip_value p else JStr n
  | None => ip_value p
  end.

Definition server_url (cfg : config) (p : peer) : string :=
  "http://" ++ to_string (ip_value p) ++ ":" ++ pretty (port cfg).

(** The body of the [for] loop of [propagateToRegionals]. *)
Definition propagate_one (net : network) (cfg : config) (contextId : string)
    (context metadata : json) (acc : list json * node) (server : peer)
  : list json * node :=
  let '(propagationResults, st) := acc in
  let serverUrl := server_url cfg server in
  let st := console_log ("Propagating context " ++ contextId
                         ++ " to regional server at " ++ serverUrl) [] st in
  let req := Request "PUT" (serverUrl ++ "/contexts/" ++ contextId)
                     (Some (JObj [("context", context); ("metadata", metadata)]))
                     10000 in
  let st := send req st in
  match net req with
  | inr (code, data) =>
      (app propagationResults
         [JObj [("server", name_or_ip server); ("success", JBool true);
                ("statusCode", JNum code); ("data", data)]],
       st)
  | inl m =>
      (app propagationResults
         [JObj [("server", name_or_ip server); ("success", JBool false);
                ("error", JStr m)]],
       console_error ("Failed to propagate context to "
                      ++ to_string (name_or_ip server) ++ ":") [JStr m] st)
  end.

Definition propagateToRegionals (net : network) (ts : option tailscale)
    (cfg : config) (contextId : string) (context metadata : json) (st : node)
  : list json * node :=
  let '(regionalServers, st) := discoverRegionalServers ts st in
  fold_left (propagate_one net cfg contextId context metadata) regionalServers ([], st).

Definition propagate_deletion_one (net : network) (cfg : config)
    (contextId : string) (acc : list json * node) (server : peer)
  : list json * node :=
  let '(propagationResults, st) := acc in
  let serverUrl := server_url cfg server in
  let st := console_log ("Propagating deletion of context " ++ contextId
                         ++ " to regional server at " ++ serverUrl) [] st in
  let req := Request "DELETE" (serverUrl ++ "/contexts/" ++ contextId) None 10000 in
  let st := send req st in
  match net req with
  | inr (code, data) =>
      (app propagationResults
         [JObj [("server", name_or_ip server); ("success", JBool true);
                ("statusCode", JNum code); ("data", data)]],
       st)
  | inl m =>
      (app propagationResults
         [JObj [("server", name_or_ip server); ("success", JBool false);
                ("error", JStr m)]],
       console_error ("Failed to propagate deletion to "
                      ++ to_string (name_or_ip server) ++ ":") [JStr m] st)
  end.

Definition propagateDeletionToRegionals (net : network) (ts : option tailscale)
    (cfg : config) (contextId : string) (st : node) : list json * node :=
  let '(regionalServers, st) := discoverRegionalServers ts st in
  fold_left (propagate_deletion_one net cfg contextId) regionalServers ([], st).

(** [GET /contexts/:contextId] *)
Definition get_context_route (cfg : config) (contextId : string) (st : node)
  : response * node :=
  let '(context, st) := getContext (dataDir cfg) contextId st in
  if negb (truthy context) then
    if String.eqb (serverType cfg) "cache" || String.eqb (serverType cfg) "regional"
    then (Response 404
            (error_body "Context not found and central fetch not implemented yet"), st)
    else (Response 404 (error_body "Context not found"), st)
  else (Response 200 context, st).

(** [GET /contexts/:contextId/metadata] *)
Definition get_metadata_route (cfg : config) (contextId : string) (st : node)
  : response * node :=
  let '(metadata, st) := getMetadata (dataDir cfg) contextId st in
  if negb (truthy metadata)
  then (Response 404 (error_body "Context metadata not found"), st)
  else (Response 200 metadata, st).

(** [PUT /contexts/:contextId].  The fan-out is started without [await]; its
    callbacks only write to the console, after the response is fixed.  The
    state returned is the one after the fan-out has run to its end; the order
    in which the answer and the fan-out happen is [put_context_moments]. *)
Definition put_context_route (net : network) (ts : option tailscale)
    (cfg : config) (contextId : string) (reqBody : list (string * json))
    (st : node) : response * node :=
  let context := obj_get "context" reqBody in
  let metadata := default (JObj []) (obj_get "metadata" reqBody) in
  match context with
  | Some context =>
      if truthy context then
        match saveContext (dataDir cfg) contextId context (Some metadata) st with
        | (inr updatedMetadata, st) =>
            let st :=
              if String.eqb (serverType cfg) "central" && bool_decide (is_Some ts) then
                let '(results, st) :=
                  propagateToRegionals net ts cfg contextId context updatedMetadata st in
                console_log ("Propagation results for context " ++ contextId ++ ":")
                            [JArr results] st
              else st in
            (Response 200
               (JObj [("success", JBool true); ("contextId", JStr contextId);
                      ("metadata", updatedMetadata)]), st)
        | (inl err, st) =>
            (Response 500 (error_body ("Failed to save context: " ++ exn_message err)), st)
        end
      else (Response 400 (error_body "Context data is required"), st)
  | None => (Response 400 (error_body "Context data is required"), st)
  end.

(** [DELETE /contexts/:contextId] *)
Definition delete_context_route (net : network) (ts : option tailscale)
    (cfg : config) (contextId : string) (st : node) : response * node :=
  let '(success, st) := deleteContext (dataDir cfg) contextId st in
  if negb success then (Response 500 (error_body "Failed to delete context"), st)
  else
    let st :=
      if String.eqb (serverType cfg) "central" && bool_decide (is_Some ts) then
        let '(results, st) := propagateDeletionToRegionals net ts cfg contextId st in
        console_log ("Deletion propagation results for context " ++ contextId ++ ":")
                    [JArr results] st
      else st in
    (Response 200 (JObj [("success", JBool true)]), st).

(** [GET /contexts], with or without [?includeMetadata=true] *)
Definition list_contexts_route (cfg : config) (includeMetadata : bool) (st : node)
  : response * node :=
  let '(contextIds, st) := listContexts (dataDir cfg) st in
  if includeMetadata then
    let '(contextsWithMetadata, st) :=
      fold_left
        (fun (acc : list json * node) id =>
           let '(metadata, st) := getMetadata (dataDir cfg) id (snd acc) in
           (app (fst acc) [JObj [("id", JStr id); ("metadata", metadata)]], st))
        contextIds ([], st) in
    (Response 200 (JArr contextsWithMetadata), st)
  else (Response 200 (JArr (List.map JStr contextIds)), st).

(** [GET /health] *)
Definition health_route (cfg : config) : response :=
  Response 200
    (JObj [("status", JStr "ok"); ("serverType", JStr (serverType cfg));
           ("nodeId", JStr (nodeId cfg)); ("regionId", JStr (regionId cfg))]).

(** ** The router

    [initializeRoutes] registers eight routes on [app]; Express tries them in
    the order of registration and the first one whose method and path match
    handles the request (no handler calls [next]).  A route path is matched
    against the pathname of the request without regard to case, one trailing
    slash is overlooked, and [:contextId] stands for one non-empty run of
    characters other than the slash. *)

Inductive http_method := GET | PUT | DELETE.

Inductive piece := Lit (word : string) | Param.

Inductive handler :=
| Health
| GetContext
| GetMetadata
| PutContext
| DeleteContext
| ListContexts
| ContextStream
| AllStream.

Definition routes : list (http_method * list piece * handler) :=
  [ (GET,    [Lit "health"],                          Health);
    (GET,    [Lit "contexts"; Param],                 GetContext);
    (GET,    [Lit "contexts"; Param; Lit "metadata"], GetMetadata);
    (PUT,    [Lit "contexts"; Param],                 PutContext);
    (DELETE, [Lit "contexts"; Param],                 DeleteContext);
    (GET,    [Lit "contexts"],                        ListContexts);
    (GET,    [Lit "contexts"; Param; Lit "stream"],   ContextStream);
    (GET,    [Lit "contexts"; Lit "stream"],          AllStream) ].

Definition method_eqb (a b : http_method) : bool :=
  match a, b with
  | GET, GET | PUT, PUT | DELETE, DELETE => true
  | _, _ => false
  end.

Definition lower (a : ascii) : ascii :=
  let n := N_of_ascii a in
  if (65 <=? n)%N && (n <=? 90)%N then ascii_of_N (n + 32) else a.

Fixpoint lowercase (s : string) : string :=
  match s with
  | EmptyString => EmptyString
  | String a rest => String (lower a) (lowercase rest)
  end.

(** The segments of a pathname: what stands between its slashes, after the
    leading one and without the empty segment that a trailing slash leaves.
    [None]: the pathname does not start with a slash. *)
Definition segments (pathname : string) : option (list string) :=
  match Path.split pathname with
  | EmptyString :: segs =>
      Some (match rev segs with
            | EmptyString :: front => rev front
            | _ => segs
            end)
  | _ => None
  end.

(** The pieces of a route path against the segments; the result is the text
    matched by each parameter. *)
Fixpoint match_pieces (pieces : list piece) (segs : list string)
  : option (list string) :=
  match pieces, segs with
  | [], [] => Some []
  | Lit word :: pieces, seg :: segs =>
      if String.eqb (lowercase seg) word then match_pieces pieces segs else None
  | Param :: pieces, seg :: segs =>
      if String.eqb seg "" then None
      else option_map (cons seg) (match_pieces pieces segs)
  | _, _ => None
  end.

Definition handles (m : http_method) (segs : list string)
    (r : http_method * list piece * handler) : option (handler * list string) :=
  let '(m', pieces, h) := r in
  if method_eqb m m' then option_map (pair h) (match_pieces pieces segs) else None.

Fixpoint first_match {A B : Type} (f : A -> option B) (l : list A) : option B :=
  match l with
  | [] => None
  | x :: rest => match f x with Some y => Some y | None => first_match f rest end
  end.

(** The handler that receives a request and the text of its parameters;
    [None] when no route matches, and Express answers 404 with a page of its
    own. *)
Definition dispatch (m : http_method) (pathname : string)
  : option (handler * list string) :=
  match segments pathname with
  | Some segs => first_match (handles m segs) routes
  | None => None
  end.

(** The handler of [/contexts/:contextId] for each method. *)
Definition handler_of (m : http_method) : handler :=
  match m with GET => GetContext | PUT => PutContext | DELETE => DeleteContext end.

(** [req.params.contextId] is [decodeURIComponent] of the text matched, which
    is that text itself when it holds no percent sign.  [None]: a percent
    escape, which this development does not decode. *)
Definition decode_param (raw : string) : option string :=
  if Path.includes "%" raw then None else Some raw.

(** *** From the caller of [axios] to the router

    [axios] and Node's [http] turn the URL they are given into the request
    line.  A path made of unreserved characters (letters, digits, [-], [.],
    [_], [~]) and slashes, without a dot segment, is sent as it is, and is the
    pathname the router sees.  Any other path is split ([?], [#]), escaped or
    normalised on the way; [None] marks it as not covered. *)
Definition unreserved (a : ascii) : bool :=
  let n := N_of_ascii a in
  ((48 <=? n)%N && (n <=? 57)%N) || ((65 <=? n)%N && (n <=? 90)%N)
  || ((97 <=? n)%N && (n <=? 122)%N)
  || (n =? 45)%N || (n =? 46)%N || (n =? 95)%N || (n =? 126)%N.

Fixpoint all_unreserved (s : string) : bool :=
  match s with
  | EmptyString => true
  | String a rest => unreserved a && all_unreserved rest
  end.

Definition plain_segment (s : string) : bool :=
  all_unreserved s && negb (String.eqb s ".") && negb (String.eqb s "..").

Definition request_target (path : string) : option string :=
  if forallb plain_segment (Path.split path) then Some path else None.

(** An identifier that a URL carries unchanged, as one segment. *)
Definition url_safe (contextId : string) : bool :=
  plain_segment contextId && negb (String.eqb contextId "").

(** What comes back to the caller: the answer of a handler, or the 404 page
    of the router. *)
Inductive reply := Json (r : response) | NotRouted.

(** [req.body] as the handlers see it: the members of the object sent, and
    no member when nothing, or an array, was sent.  [None]: a body that is
    neither, which [body-parser] refuses. *)
Definition body_fields (data : option json) : option (list (string * json)) :=
  match data with
  | Some (JObj fs) => Some fs
  | Some (JArr _) | None => Some []
  | Some _ => None
  end.

(** [http.get(path)], [http.put(path, data)] and [http.delete(path)] of an
    [axios] instance whose base URL is the origin of the server [st].  [None]:
    a path that is not covered, or a request that opens an event stream and
    does not complete. *)
Definition http_get (cfg : config) (path : string) (st : node)
  : option (reply * node) :=
  match request_target path with
  | None => None
  | Some pathname =>
      match dispatch GET pathname with
      | None => Some (NotRouted, st)
      | Some (Health, []) => Some (Json (health_route cfg), st)
      | Some (GetContext, [raw]) =>
          match decode_param raw with
          | Some contextId =>
              let '(r, st) := get_context_route cfg contextId st in Some (Json r, st)
          | None => None
          end
      | Some (GetMetadata, [raw]) =>
          match decode_param raw with
          | Some contextId =>
              let '(r, st) := get_metadata_route cfg contextId st in Some (Json r, st)
          | None => None
          end
      | Some (ListContexts, []) =>
          let '(r, st) := list_contexts_route cfg false st in Some (Json r, st)
      | Some _ => None
      end
  end.

Definition http_put (net : network) (ts : option tailscale) (cfg : config)
    (path : string) (data : option json) (st : node) : option (reply * node) :=
  match request_target path with
  | None => None
  | Some pathname =>
      match dispatch PUT pathname with
      | None => Some (NotRouted, st)
      | Some (PutContext, [raw]) =>
          match decode_param raw, body_fields data with
          | Some contextId, Some reqBody =>
              let '(r, st) := put_context_route net ts cfg contextId reqBody st in
              Some (Json r, st)
          | _, _ => None
          end
      | Some _ => None
      end
  end.

Definition http_delete (net : network) (ts : option tailscale) (cfg : config)
    (path : string) (st : node) : option (reply * node) :=
  match request_target path with
  | None => None
  | Some pathname =>
      match dispatch DELETE pathname with
      | None => Some (NotRouted, st)
      | Some (DeleteContext, [raw]) =>
          match decode_param raw with
          | Some contextId =>
              let '(r, st) := delete_context_route net ts cfg contextId st in
              Some (Json r, st)
          | None => None
          end
      | Some _ => None
      end
  end.

(** The path of an absolute [http] URL: what follows its authority. *)
Fixpoint from_slash (s : string) : string :=
  match s with
  | EmptyString => "/"
  | String a rest => if Ascii.eqb a Path.slash then s else from_slash rest
  end.

Definition url_path (u : string) : option string :=
  if String.prefix "http://" u
  then Some (from_slash (String.substring 7 (String.length u - 7) u))
  else None.

(** A server receives a request that another server sent with [axios]. *)
Definition receive (net : network) (ts : option tailscale) (cfg : config)
    (r : request) (st : node) : option (reply * node) :=
  match url_path (url r) with
  | None => None
  | Some path =>
      if String.eqb (method r) "PUT" then http_put net ts cfg path (payload r) st
      else if String.eqb (method r) "DELETE" then http_delete net ts cfg path st
      else if String.eqb (method r) "GET" then http_get cfg path st
      else None
  end.

(** ** [setupSyncWithCentral]

    The server found at [centralUrl] is a second [node], with its own
    configuration; a request of [centralClient] runs the matching route of
    that node, and [axios] rejects every answer whose status is not 2xx.
    [Unmodelled] marks the inputs this embedding does not cover: a compared
    pair that needs a string-to-number conversion, and identifiers that are
    not strings. *)

Inductive outcome := Completed | Rejected (e : exn) | Unmodelled.

(** A value inside a template literal. *)
Definition show (o : option json) : string :=
  match o with Some v => to_string v | None => "undefined" end.

(** [centralClient.get(`/contexts/${contextId}`)] then [.data] *)
Definition central_get (ccfg : config) (contextId : string) (central : node)
  : (exn + json) * node :=
  let '(resp, central) := get_context_route ccfg contextId central in
  if status resp =? 200 then (inr (body resp), central)
  else (inl (HttpError ("Request failed with status code " ++ pretty (status resp))),
        central).

Definition null_version : exn :=
  TypeError "Cannot read properties of null (reading 'version')".

(** [centralMetadata.version], with the [TypeError] for [null]/[undefined]. *)
Definition version_of (metadata : option json) : option (option json) :=
  match metadata with
  | Some m => get_prop m "version"
  | None => None
  end.

(** [!localMetadata || localMetadata.version < centralMetadata.version] *)
Definition needs_sync (localMetadata : json) (centralVersion : option json)
  : option bool :=
  if negb (truthy localMetadata) then Some true
  else lt (default None (get_prop localMetadata "version")) centralVersion.

(** One turn of the loop [for (const contextInfo of contexts)]; a rejection
    leaves the loop. *)
Definition sync_entry (cfg ccfg : config) (acc : outcome * (node * node))
    (contextInfo : json) : outcome * (node * node) :=
  match acc with
  | (Completed, (local, central)) =>
      match contextInfo with
      | JObj fs =>
          match obj_get "id" fs with
          | Some (JStr contextId) =>
              let centralMetadata := obj_get "metadata" fs in
              let '(localMetadata, local) :=
                getMetadata (dataDir cfg) contextId local in
              match version_of centralMetadata with
              | None => (Rejected null_version, (local, central))
              | Some centralVersion =>
                  match needs_sync localMetadata centralVersion with
                  | None => (Unmodelled, (local, central))
                  | Some true =>
                      let local :=
                        console_log
                          ("Syncing context " ++ contextId ++ " (local version: "
                           ++ (if truthy localMetadata
                               then show (default None (get_prop localMetadata "version"))
                               else "none")
                           ++ ", central version: " ++ show centralVersion ++ ")")
                          [] local in
                      match central_get ccfg contextId central with
                      | (inl e, central) => (Rejected e, (local, central))
                      | (inr context, central) =>
                          match saveContext (dataDir cfg) contextId context
                                            centralMetadata local with
                          | (inl e, local) => (Rejected e, (local, central))
                          | (inr _, local) => (Completed, (local, central))
                          end
                      end
                  | Some false =>
                      (Completed,
                       (console_log
                          ("Context " ++ contextId ++ " is up to date (version: "
                           ++ show (default None (get_prop localMetadata "version"))
                           ++ ")") [] local,
                        central))
                  end
              end
          | _ => (Unmodelled, (local, central))
          end
      | _ => (Unmodelled, (local, central))
      end
  | _ => acc
  end.

(** The catch-up part of [setupSyncWithCentral]: list the contexts of the
    central server with their metadata and walk through them. *)
Definition catch_up (cfg ccfg : config) (local central : node)
  : outcome * (node * node) :=
  let local := console_log "Syncing existing contexts from central server..." [] local in
  let '(resp, central) := list_contexts_route ccfg true central in
  match body resp with
  | JArr contexts =>
      let local :=
        console_log ("Found " ++ pretty (length contexts)
                     ++ " contexts on central server") [] local in
      fold_left (sync_entry cfg ccfg) contexts (Completed, (local, central))
  | _ => (Unmodelled, (local, central))
  end.

Inductive sync_result := NotNeeded | Streaming | WillRetry | OutsideModel.

Definition setupSyncWithCentral (cfg ccfg : config) (local central : node)
  : sync_result * (node * node) :=
  if String.eqb (serverType cfg) "central" then
    (NotNeeded,
     (console_log "This is a central server, no need to sync with central" [] local,
      central))
  else
    match catch_up cfg ccfg local central with
    | (Completed, (local, central)) =>
        (Streaming,
         (console_log "Setting up streaming connection for real-time updates..." []
                      local, central))
    | (Rejected e, (local, central)) =>
        let local :=
          console_error "Failed to set up sync with central server:"
                        [JStr (exn_message e)] local in
        let local :=
          console_log ("Will retry in " ++ pretty (syncInterval cfg / 1000)
                       ++ " seconds") [] local in
        (WillRetry, (local, central))
    | (Unmodelled, s) => (OutsideModel, s)
    end.

(** The listener for ['update'] events; [data] is [JSON.parse(event.data)].
    Every error is caught and logged.  [None]: outside the model. *)
Definition on_update (cfg ccfg : config) (data : json) (local central : node)
  : option (node * node) :=
  match data with
  | JObj fs =>
      match obj_get "contextId" fs with
      | Some (JStr contextId) =>
          let metadata := obj_get "metadata" fs in
          let failed (e : exn) (local : node) :=
            console_error "Error processing context update:"
                          [JStr (exn_message e)] local in
          match version_of metadata with
          | None => Some (failed null_version local, central)
          | Some version =>
              let local :=
                console_log ("Received update for context " ++ contextId
                             ++ " (version: " ++ show version ++ ")") [] local in
              match central_get ccfg contextId central with
              | (inl e, central) => Some (failed e local, central)
              | (inr context, central) =>
                  match saveContext (dataDir cfg) contextId context metadata local with
                  | (inl e, local) => Some (failed e local, central)
                  | (inr _, local) => Some (local, central)
                  end
              end
          end
      | _ => None
      end
  | _ => None
  end.

(** The listener for ['delete'] events. *)
Definition on_delete (cfg : config) (data : json) (local : node) : option node :=
  match data with
  | JObj fs =>
      match obj_get "contextId" fs with
      | Some (JStr contextId) =>
          let local :=
            console_log ("Received deletion for context " ++ contextId) [] local in
          Some (snd (deleteContext (dataDir cfg) contextId local))
      | _ => None
      end
  | _ => None
  end.

(** ** Sample configurations and states *)

Definition central_config : config :=
  Config "central" "./data" 3000 "http://central-authority.tailnet.ts.net:3000"
         60000 3600000 "node-central" "default".

Definition regional_config : config :=
  Config "regional" "./data" 3000 "http://central-authority.tailnet.ts.net:3000"
         60000 3600000 "node-regional" "default".

Definition sample_clock (n : nat) : string := "2024-01-01T00:00:" ++ pretty n ++ "Z".

(** A disk holding nothing but the (empty) data directory, as left by
    [ensureDataDir]. *)
Definition empty_disk : Fs.t :=
  Fs.mk {[ Fs.resolve "./data" := Fs.Dir ]} ∅.

Definition fresh_node : node :=
  Node empty_disk ∅ ∅ [] [] [] sample_clock 0.

Definition silent : network := fun _ => inl "connect ECONNREFUSED".

(** The [version] stored in a metadata value ([None] when there is none). *)
Definition version_field (metadata : json) : option json :=
  default None (get_prop metadata "version").

(** The [metadata] member of the body of a [PUT] answer. *)
Definition answered_metadata (r : response) : option json :=
  default None (get_prop (body r) "metadata").

(** Scenario S1 of the specification, on a central server without peers:
    two [PUT]s of the same identifier, none of them carrying metadata. *)
Definition s1_first : response * node :=
  put_context_route silent None central_config "c1"
    [("context", JObj [("x", JNum 1)])] fresh_node.

Definition s1_second : response * node :=
  put_context_route silent None central_config "c1"
    [("context", JObj [("x", JNum 2)])] (snd s1_first).

(** A [PUT] whose metadata carries a [version] of the caller's choosing. *)
Definition s1_chosen : response * node :=
  put_context_route silent None central_config "c1"
    [("context", JObj [("x", JNum 3)]);
     ("metadata", JObj [("version", JNum 41)])] (snd s1_second).

(** The parts of a node that make up its store (everything but the console
    and the list of requests sent). *)
Definition same_store (a b : node) : Prop :=
  disk a = disk b ∧ contextCache a = contextCache b
  ∧ metadataCache a = metadataCache b ∧ emitted a = emitted b
  ∧ clock a = clock b ∧ ticks a = ticks b.

(** The data of an ['update'] and of a ['delete'] event, as the stream routes
    write them. *)
Definition update_event (contextId : string) (metadata : json) : json :=
  JObj [("event", JStr "update"); ("contextId", JStr contextId);
        ("metadata", metadata); ("timestamp", JStr "2024-01-01T00:01:00Z")].

Definition delete_event (contextId : string) : json :=
  JObj [("event", JStr "delete"); ("contextId", JStr contextId);
        ("timestamp", JStr "2024-01-01T00:02:00Z")].

(** A fresh regional server catches up with the central server of S1. *)
Definition s2_catch_up : outcome * (node * node) :=
  catch_up regional_config central_config fresh_node (snd s1_second).

(** A fresh regional server receives the ['update'] event announcing what the
    central server of S1 stored. *)
Definition s2_update : option (node * node) :=
  on_update regional_config central_config
    (update_event "c1" (fst (getMetadata "./data" "c1" (snd s1_second))))
    fresh_node (snd s1_second).

(** The caught-up regional server receives the ['delete'] event. *)
Definition s2_delete : option node :=
  on_delete regional_config (delete_event "c1") (fst (snd s2_catch_up)).

(** A central server whose context [c1] is at version 5 (the client sent
    [version: 4]), and a regional server that has caught up with it. *)
Definition s3_central : node :=
  snd (put_context_route silent None central_config "c1"
         [("context", JObj [("x", JNum 1)]);
          ("metadata", JObj [("version", JNum 4)])] fresh_node).

Definition s3_regional : node :=
  fst (snd (catch_up regional_config central_config fresh_node s3_central)).

Definition stored_metadata (cfg : config) (contextId : string) (st : node) : json :=
  fst (getMetadata (dataDir cfg) contextId st).

(** Scenario S4: three [PUT]s of [c3] on the central server, then a regional
    server with an empty data directory catches up. *)
Definition s4_central : node :=
  let put x st :=
    snd (put_context_route silent None central_config "c3"
           [("context", JObj [("x", JNum x)])] st) in
  put 3 (put 2 (put 1 fresh_node)).

Definition s4_synced : outcome * (node * node) :=
  catch_up regional_config central_config fresh_node s4_central.

(** Scenario S2: delete [c1] on the central server of S1, read it, and save
    it again, without and with a [version] chosen by the caller. *)
Definition s5_deleted : response * node :=
  delete_context_route silent None central_config "c1" (snd s1_second).

Definition s5_recreated : response * node :=
  put_context_route silent None central_config "c1"
    [("context", JObj [("x", JNum 3)])] (snd s5_deleted).

Definition s5_recreated_chosen : response * node :=
  put_context_route silent None central_config "c1"
    [("context", JObj [("x", JNum 3)]);
     ("metadata", JObj [("version", JNum 7)])] (snd s5_deleted).

(** The central server of S1 after a restart (both caches empty), with a disk
    that fails to read the payload file of [c1]. *)
Definition s6_failing_disk : node :=
  Node (Fs.mk (Fs.entries (disk (snd s1_second)))
              {[ Fs.resolve (getContextPath "./data" "c1") ]})
       ∅ ∅ [] [] [] sample_clock 2.

(** A [PUT] whose payload is the JSON value [v], without metadata. *)
Definition put_value (contextId : string) (v : json) (st : node) : response * node :=
  put_context_route silent None central_config contextId [("context", v)] st.

(** What the fan-out adds to a node: requests, all with a timeout of 10000 ms,
    and console lines, among them an error line for each failed request. *)
Definition fan_out_trace (net : network) (before after : node) : Prop :=
  ∃ reqs lines,
    sent after = app (sent before) reqs
    ∧ console after = app (console before) lines
    ∧ Forall (fun r => timeout r = 10000) reqs
    ∧ ∀ r m, r ∈ reqs → net r = inl m →
        ∃ l, l ∈ lines ∧ lvl l = Error ∧ args l = [JStr m].

(** A save under an identifier that contains [".meta."]. *)
Definition s10_saved : (exn + json) * node :=
  saveContext "./data" "a.meta.x" (JObj [("x", JNum 1)]) None fresh_node.

(** A segment that holds no separator, and a segment that names an entry
    (neither empty nor a dot segment). *)
Fixpoint slash_free (s : string) : bool :=
  match s with
  | EmptyString => true
  | String a rest => negb (Ascii.eqb a Path.slash) && slash_free rest
  end.

Definition entry_name (s : string) : Prop := s ≠ "" ∧ s ≠ "." ∧ s ≠ "..".

(** The location of the entry [name] of the directory [d]. *)
Definition child (d : string) (name : string) : Fs.key :=
  (fst (Fs.resolve d), app (snd (Fs.resolve d)) [name]).

(** A [PUT] under an identifier that climbs out of the data directory. *)
Definition s7_escaped : response * node :=
  put_value "../x" (JObj [("x", JNum 1)]) fresh_node.

(** An identifier that holds a NUL character, and a [PUT] under it. *)
Definition nul_id : string := String (ascii_of_N 0) "a".

Definition s7_nul : response * node :=
  put_value nul_id (JObj [("x", JNum 1)]) fresh_node.

(** The shape of the kept segments (top first): entry names above a run of
    [".."], and no [".."] at all unless the path is relative. *)
Definition kept_shape (r : bool) (kept : list string) : Prop :=
  ∃ names n,
    kept = app names (repeat ".." n)
    ∧ Forall entry_name names
    ∧ (r = false → n = O).

(** The proof of one turn of either fan-out loop: the request [?req] is sent
    after the line [?line] is written, and a failure adds an error line. *)
Ltac fan_out_turn Hnet Hs Hc Ht Hf :=
  lazymatch goal with
  | req := Request _ _ _ _, line := Log Info _ _ |- fan_out_trace _ _ _ =>
      lazymatch type of Hs with
      | _ = app _ ?reqs =>
          lazymatch type of Hc with
          | _ = app _ ?lines =>
              lazymatch type of Hnet with
              | _ = inl ?m => eexists (app reqs [req]), (app lines [line; _])
              | _ = inr _ => exists (app reqs [req]), (app lines [line])
              end
          end
      end;
      cbn; rewrite Hs, Hc, <- !app_assoc; cbn;
      split; [reflexivity|]; split; [reflexivity|]; split;
      [ apply Forall_app; split; [exact Ht | by constructor]
      | let r := fresh "r" in
        let m' := fresh "m" in
        let Hr := fresh "Hr" in
        let Hn := fresh "Hn" in
        intros r m' Hr Hn; apply elem_of_app in Hr as [Hr|Hr];
        [ destruct (Hf r m' Hr Hn) as (?l & ?Hl & ?); eexists; split;
          [apply elem_of_app; left; eassumption | done]
        | apply list_elem_of_singleton in Hr; subst r;
          rewrite Hnet in Hn;
          first
            [ discriminate
            | injection Hn as <-; eexists; split;
              [ apply elem_of_app; right; apply elem_of_cons; right;
                by apply list_elem_of_singleton
              | by split ] ] ] ]
  end.

(** ** The stream routes

    [GET /contexts/:contextId/stream] and [GET /contexts/stream] keep a
    response open and write one frame per event.  What reaches an open stream
    is a sequence of stimuli, each with the reading of the clock at that
    moment: an event emitted on [contextEvents], a tick of the 30 s ping
    timer, or the close of the client's connection.  A frame is kept as the
    object given to [JSON.stringify]; [sse_chunk] is the text written. *)

Inductive stimulus :=
| Emitted (e : bus_event)
| PingTimer
| ClientClosed.

(** An open response: the frames written so far, whether the listeners and
    the ping timer are still registered, whether [res.end()] was called, and
    the console lines of the route. *)
Record stream := Stream {
  written : list json;
  listening : bool;
  ended : bool;
  stream_console : list log_line;
}.

Definition newline : string := String (ascii_of_N 10) "".

Definition sse_chunk (frame : json) : string :=
  "data: " ++ stringify frame ++ newline ++ newline.

Definition ping_frame (now : string) : json :=
  JObj [("event", JStr "ping"); ("timestamp", JStr now)].

Definition update_frame (contextId : string) (metadata : json) (now : string) : json :=
  JObj [("event", JStr "update"); ("contextId", JStr contextId);
        ("metadata", metadata); ("timestamp", JStr now)].

Definition delete_frame (contextId : string) (now : string) : json :=
  JObj [("event", JStr "delete"); ("contextId", JStr contextId);
        ("timestamp", JStr now)].

Definition res_write (frame : json) (s : stream) : stream :=
  Stream (app (written s) [frame]) (listening s) (ended s) (stream_console s).

(** [cleanup]: the timer is cleared and both listeners are removed. *)
Definition cleanup (s : stream) : stream :=
  Stream (written s) false (ended s) (stream_console s).

Definition res_end (s : stream) : stream :=
  Stream (written s) (listening s) true (stream_console s).

(** [GET /contexts/:contextId/stream]: the state right after the route
    handler returns. *)
Definition context_stream_open (contextId now : string) : stream :=
  Stream [JObj [("event", JStr "connected"); ("contextId", JStr contextId);
                ("timestamp", JStr now)]]
         true false [].

(** [updateHandler], [deleteHandler], the ping callback and [req.on('close')]
    of the per-context stream. *)
Definition context_stream_step (contextId : string) (s : stream)
    (x : stimulus * string) : stream :=
  let '(what, now) := x in
  if listening s then
    match what with
    | Emitted (contextUpdated updatedContextId metadata) =>
        if String.eqb updatedContextId contextId
        then res_write (update_frame contextId metadata now) s
        else s
    | Emitted (contextDeleted deletedContextId) =>
        if String.eqb deletedContextId contextId
        then cleanup (res_end (res_write (delete_frame contextId now) s))
        else s
    | PingTimer => res_write (ping_frame now) s
    | ClientClosed => cleanup s
    end
  else s.

Definition context_stream (contextId now : string) (xs : list (stimulus * string))
  : stream :=
  fold_left (context_stream_step contextId) xs (context_stream_open contextId now).

(** [req.query.serverType || 'unknown'] *)
Definition or_unknown (q : option string) : string :=
  match q with
  | Some v => if String.eqb v "" then "unknown" else v
  | None => "unknown"
  end.

(** The handler of [GET /contexts/stream].  (It is registered after
    [/contexts/:contextId]; see [dispatch] for what that means.) *)
Definition all_stream_open (cfg : config) (serverTypeQuery nodeIdQuery : option string)
    (now : string) : stream :=
  Stream [JObj [("event", JStr "connected"); ("timestamp", JStr now);
                ("server", JObj [("type", JStr (serverType cfg));
                                 ("nodeId", JStr (nodeId cfg));
                                 ("regionId", JStr (regionId cfg))])]]
         true false
         [Log Info ("New streaming connection from " ++ or_unknown serverTypeQuery
                    ++ " server (ID: " ++ or_unknown nodeIdQuery ++ ")") []].

Definition all_stream_step (serverTypeQuery nodeIdQuery : option string)
    (s : stream) (x : stimulus * string) : stream :=
  let '(what, now) := x in
  if listening s then
    match what with
    | Emitted (contextUpdated contextId metadata) =>
        res_write (update_frame contextId metadata now) s
    | Emitted (contextDeleted contextId) =>
        res_write (delete_frame contextId now) s
    | PingTimer => res_write (ping_frame now) s
    | ClientClosed =>
        Stream (written s) false (ended s)
               (app (stream_console s)
                  [Log Info ("Closing streaming connection from "
                             ++ or_unknown serverTypeQuery ++ " server (ID: "
                             ++ or_unknown nodeIdQuery ++ ")") []])
    end
  else s.

Definition all_stream (cfg : config) (serverTypeQuery nodeIdQuery : option string)
    (now : string) (xs : list (stimulus * string)) : stream :=
  fold_left (all_stream_step serverTypeQuery nodeIdQuery) xs
            (all_stream_open cfg serverTypeQuery nodeIdQuery now).



(** ** [class ContextClient] ([context-client/index.js])

    [this.cache] is a JavaScript [Map]: its entries in insertion order, keys
    without repetition.  The server behind [baseUrl] (an origin, without a
    path) is a [node]; the client pastes the identifier into the path of the
    URL as it is, and the router of that node decides which handler answers.
    [axios] rejects every answer outside 2xx with
    ["Request failed with status code N"].  The subscriptions
    ([EventSource]) are left out. *)

Record client := Client {
  enableCache : bool;
  cacheMaxSize : Z;
  cache : list (string * json);
}.

(** The constructor: [enableCache = options.enableCache !== false] and
    [cacheMaxSize = options.cacheMaxSize || 100]. *)
Definition new_client (enableCacheOption : option bool)
    (cacheMaxSizeOption : option Z) : client :=
  Client (default true enableCacheOption)
         (match cacheMaxSizeOption with
          | Some n => if n =? 0 then 100 else n
          | None => 100
          end)
         [].

(** [Map.prototype.delete] *)
Definition map_delete (k : string) (m : list (string * json)) : list (string * json) :=
  List.filter (fun kv => negb (String.eqb (fst kv) k)) m.

Definition map_has (k : string) (m : list (string * json)) : bool :=
  match obj_get k m with Some _ => true | None => false end.

(** [updateCache]: when the cache is full its first entry is deleted, then
    the entry is set. *)
Definition updateCache (contextId : string) (context : json)
    (m : list (string * json)) (max : Z) : list (string * json) :=
  let m :=
    if Z.of_nat (length m) >=? max then
      match m with
      | (oldestKey, _) :: _ => map_delete oldestKey m
      | [] => m
      end
    else m in
  obj_set contextId context m.

Definition set_cache (m : list (string * json)) (c : client) : client :=
  Client (enableCache c) (cacheMaxSize c) m.

Definition axios_failure (code : Z) : string :=
  "Request failed with status code " ++ pretty code.

(** [getContext(contextId, { forceRefresh })]; [inl] is the message of the
    [Error] thrown, and [None] a request that [http_get] does not cover. *)
Definition client_getContext (cfg : config) (contextId : string)
    (forceRefresh : bool) (c : client) (server : node)
  : option ((string + json) * (client * node)) :=
  match (if enableCache c && negb forceRefresh then obj_get contextId (cache c)
         else None) with
  | Some cached => Some (inr cached, (c, server))
  | None =>
      match http_get cfg ("/contexts/" ++ contextId) server with
      | None => None
      | Some (Json resp, server) =>
          if status resp =? 200 then
            let context := body resp in
            let c := if enableCache c
                     then set_cache (updateCache contextId context (cache c)
                                                 (cacheMaxSize c)) c
                     else c in
            Some (inr context, (c, server))
          else if status resp =? 404 then
            Some (inl ("Context '" ++ contextId ++ "' not found"), (c, server))
          else
            Some (inl ("Failed to get context: " ++ axios_failure (status resp)),
                  (c, server))
      | Some (NotRouted, server) =>
          Some (inl ("Context '" ++ contextId ++ "' not found"), (c, server))
      end
  end.

(** [getContextMetadata(contextId)] *)
Definition client_getContextMetadata (cfg : config) (contextId : string)
    (c : client) (server : node) : option ((string + json) * (client * node)) :=
  match http_get cfg ("/contexts/" ++ contextId ++ "/metadata") server with
  | None => None
  | Some (Json resp, server) =>
      if status resp =? 200 then Some (inr (body resp), (c, server))
      else if status resp =? 404 then
        Some (inl ("Context metadata for '" ++ contextId ++ "' not found"), (c, server))
      else
        Some (inl ("Failed to get context metadata: " ++ axios_failure (status resp)),
              (c, server))
  | Some (NotRouted, server) =>
      Some (inl ("Context metadata for '" ++ contextId ++ "' not found"), (c, server))
  end.

(** [saveContext(contextId, context, metadata = {})] *)
Definition client_saveContext (net : network) (ts : option tailscale)
    (cfg : config) (contextId : string) (context : json) (metadata : option json)
    (c : client) (server : node) : option ((string + json) * (client * node)) :=
  let metadata := default (JObj []) metadata in
  match http_put net ts cfg ("/contexts/" ++ contextId)
                 (Some (JObj [("context", context); ("metadata", metadata)]))
                 server with
  | None => None
  | Some (Json resp, server) =>
      if status resp =? 200 then
        let c := if enableCache c
                 then set_cache (updateCache contextId context (cache c)
                                             (cacheMaxSize c)) c
                 else c in
        Some (inr (body resp), (c, server))
      else
        Some (inl ("Failed to save context: " ++ axios_failure (status resp)),
              (c, server))
  | Some (NotRouted, server) =>
      Some (inl ("Failed to save context: " ++ axios_failure 404), (c, server))
  end.

(** [deleteContext(contextId)] *)
Definition client_deleteContext (net : network) (ts : option tailscale)
    (cfg : config) (contextId : string) (c : client) (server : node)
  : option ((string + bool) * (client * node)) :=
  match http_delete net ts cfg ("/contexts/" ++ contextId) server with
  | None => None
  | Some (Json resp, server) =>
      if status resp =? 200 then
        let c := if enableCache c then set_cache (map_delete contextId (cache c)) c
                 else c in
        Some (inr true, (c, server))
      else
        Some (inl ("Failed to delete context: " ++ axios_failure (status resp)),
              (c, server))
  | Some (NotRouted, server) =>
      Some (inl ("Failed to delete context: " ++ axios_failure 404), (c, server))
  end.

(** [listContexts({ includeMetadata })] *)
Definition client_listContexts (cfg : config) (includeMetadata : bool)
    (c : client) (server : node) : (string + json) * (client * node) :=
  let '(resp, server) := list_contexts_route cfg includeMetadata server in
  if status resp =? 200 then (inr (body resp), (c, server))
  else (inl ("Failed to list contexts: " ++ axios_failure (status resp)), (c, server)).

Definition clearCache (c : client) : client := set_cache [] c.

(** ** [class TailscaleIntegration] and the start-up of [server.js] *)

(** An entry of [status.Peer], as [tailscale status --json] prints it. *)
Record raw_peer := RawPeer {
  HostName : option string;
  TailscaleIPs : option (list string);
  Online : bool;
  Tags : option (list string);
}.

(** The mapping inside [getPeers]. *)
Definition to_peer (r : raw_peer) : peer :=
  Peer (HostName r)
       (match TailscaleIPs r with
        | Some (first :: _) => Some first
        | _ => None
        end)
       (Online r)
       (default [] (Tags r)).

(** [getPeers], from what [getStatus] gives: the message of its failure, or
    the values of [status.Peer] ([None] when the member is missing). *)
Definition getPeers_from (status : string + option (list raw_peer))
  : string + list peer :=
  match status with
  | inl m => inl ("Failed to get peer list: " ++ m)
  | inr peers => inr (List.map to_peer (default [] peers))
  end.

Definition peer_matches (nameOrTag : string) (p : peer) : bool :=
  match name p with
  | Some n => String.eqb n nameOrTag
  | None => false
  end
  || existsb (String.eqb nameOrTag) (tags p).

(** [findPeer(nameOrTag)], on the peers [getPeers] resolved to. *)
Definition findPeer (nameOrTag : string) (peers : list peer) : option peer :=
  List.find (peer_matches nameOrTag) peers.

(** The tags [server.js] gives to its Tailscale integration. *)
Definition advertised_tags (serverTypeEnv regionIdEnv : string) : list string :=
  ["context-server"; "type:" ++ serverTypeEnv; "region:" ++ regionIdEnv].

(** [start()] of [server.js]: the central authority after the
    auto-discovery ([centralAuthorityEnv] is [process.env.CENTRAL_AUTHORITY]). *)
Definition discovered_authority (cfg : config) (centralAuthorityEnv : option string)
    (peers : list peer) : string :=
  if negb (String.eqb (serverType cfg) "central")
     && negb (truthy_opt (JStr <$> centralAuthorityEnv)) then
    match findPeer "central" peers with
    | Some centralPeer =>
        match ip centralPeer with
        | Some i =>
            if String.eqb i "" then centralAuthority cfg
            else "http://" ++ i ++ ":" ++ pretty (port cfg)
        | None => centralAuthority cfg
        end
    | None => centralAuthority cfg
    end
  else centralAuthority cfg.

Definition is_central (p : peer) : bool :=
  online p && (has_tag "tag:central" p || has_tag "type:central" p).

(** The first lines of [setupSyncWithCentral]: where the central server is
    looked for; [inl] when [getPeers] rejects. *)
Definition central_url (ts : option tailscale) (cfg : config) : string + string :=
  let configured := inr (centralAuthority cfg) in
  match ts with
  | Some t =>
      if isRunning t then
        match getPeers t with
        | inr peers =>
            match List.find is_central peers with
            | Some centralServer =>
                inr ("http://" ++ to_string (ip_value centralServer) ++ ":"
                     ++ pretty (port cfg))
            | None => configured
            end
        | inl m => inl m
        end
      else configured
  | None => configured
  end.

(** The regional servers [discoverRegionalServers] resolves to. *)
Definition regional_servers (ts : option tailscale) : list peer :=
  match ts with
  | Some t =>
      if isRunning t then
        match getPeers t with
        | inr peers =>
            List.filter (fun p => online p
                                  && (has_tag "tag:regional" p || has_tag "type:regional" p))
                        peers
        | inl _ => []
        end
      else []
  | None => []
  end.

(** The request [propagateToRegionals] sends to one server, and the one
    [propagateDeletionToRegionals] sends. *)
Definition put_request (cfg : config) (contextId : string) (context metadata : json)
    (server : peer) : request :=
  Request "PUT" (server_url cfg server ++ "/contexts/" ++ contextId)
          (Some (JObj [("context", context); ("metadata", metadata)])) 10000.

Definition delete_request (cfg : config) (contextId : string) (server : peer)
  : request :=
  Request "DELETE" (server_url cfg server ++ "/contexts/" ++ contextId) None 10000.

(** ** The order of events inside [PUT] and [DELETE]

    The call of an [async] function runs inside its caller up to the first
    [await] of the function; what comes after an [await] runs once the
    caller's own run is over.  [execSync] does not return before the command
    has ended: nothing else happens in the process meanwhile.  A moment is
    one of the three things that matter here: a command run with [execSync],
    the answer given with [res.json], an [axios] request started. *)

Inductive moment :=
| Exec (command : string)
| Answer (r : response)
| Http (r : request).

(** What the call of an [async] function does at once, inside its caller,
    and what it does afterwards. *)
Record run := Run { at_once : list moment; afterwards : list moment }.

(** A body without [await]. *)
Definition straight (ms : list moment) : run := Run ms [].

(** A body [const x = await f(...); rest]: the call of [f] is made at once,
    and [rest] follows what [f] does afterwards. *)
Definition await_then (f : run) (rest : list moment) : run :=
  Run (at_once f) (app (afterwards f) rest).

(** A handler that calls [f] without [await] and then answers. *)
Definition call_then_answer (f : run) (answer : response) : list moment :=
  app (at_once f) (Answer answer :: afterwards f).

(** [getStatus()]: [execSync], then [JSON.parse]. *)
Definition getStatus_run : run := straight [Exec "tailscale status --json"].

(** [getPeers()]: [await this.getStatus()], then the mapping of the peers. *)
Definition getPeers_run : run := await_then getStatus_run [].

(** [discoverRegionalServers(tailscale)]: the guard returns at once; past
    it, [await tailscale.getPeers()], then the filter. *)
Definition discoverRegionalServers_run (ts : option tailscale) : run :=
  match ts with
  | Some t => if isRunning t then await_then getPeers_run [] else straight []
  | None => straight []
  end.

(** [propagateToRegionals(...)]: [await discoverRegionalServers(tailscale)],
    then the loop, one request per server. *)
Definition propagateToRegionals_run (ts : option tailscale) (cfg : config)
    (contextId : string) (context metadata : json) : run :=
  await_then (discoverRegionalServers_run ts)
    (List.map (fun server => Http (put_request cfg contextId context metadata server))
              (regional_servers ts)).

Definition propagateDeletionToRegionals_run (ts : option tailscale) (cfg : config)
    (contextId : string) : run :=
  await_then (discoverRegionalServers_run ts)
    (List.map (fun server => Http (delete_request cfg contextId server))
              (regional_servers ts)).

(** The [PUT] handler, from the end of [await storage.saveContext(...)]: the
    fan-out is called, not awaited, and then the answer is given. *)
Definition put_context_moments (ts : option tailscale) (cfg : config)
    (contextId : string) (reqBody : list (string * json)) (st : node)
  : list moment :=
  let context := obj_get "context" reqBody in
  let metadata := default (JObj []) (obj_get "metadata" reqBody) in
  let refused := [Answer (Response 400 (error_body "Context data is required"))] in
  match context with
  | Some context =>
      if truthy context then
        match saveContext (dataDir cfg) contextId context (Some metadata) st with
        | (inr updatedMetadata, _) =>
            let answer :=
              Response 200
                (JObj [("success", JBool true); ("contextId", JStr contextId);
                       ("metadata", updatedMetadata)]) in
            if String.eqb (serverType cfg) "central" && bool_decide (is_Some ts) then
              call_then_answer
                (propagateToRegionals_run ts cfg contextId context updatedMetadata)
                answer
            else [Answer answer]
        | (inl err, _) =>
            [Answer (Response 500
                       (error_body ("Failed to save context: " ++ exn_message err)))]
        end
      else refused
  | None => refused
  end.

(** The [DELETE] handler, from the end of [await storage.deleteContext(...)]. *)
Definition delete_context_moments (ts : option tailscale) (cfg : config)
    (contextId : string) (st : node) : list moment :=
  let '(success, _) := deleteContext (dataDir cfg) contextId st in
  if negb success then [Answer (Response 500 (error_body "Failed to delete context"))]
  else
    let answer := Response 200 (JObj [("success", JBool true)]) in
    if String.eqb (serverType cfg) "central" && bool_decide (is_Some ts) then
      call_then_answer (propagateDeletionToRegionals_run ts cfg contextId) answer
    else [Answer answer].

(** A regional server as the Tailscale integration of the central server
    reports it, and a network on which every request is answered 200. *)
Definition regional_peer : peer :=
  Peer (Some "regional-1") (Some "100.64.0.2") true ["tag:regional"].

Definition sees_regional : tailscale := Tailscale true (inr [regional_peer]).

Definition accepting : network :=
  fun _ => inr (200, JObj [("success", JBool true)]).

(** The central server handles two [PUT]s of [c1]: first the payload
    [{x:0}] with [metadata.version = 1], then [{x:1}] with
    [metadata.version = 4].  Each is pushed to the regional server. *)
Definition s3_first_put : response * node :=
  put_context_route accepting (Some sees_regional) central_config "c1"
    [("context", JObj [("x", JNum 0)]);
     ("metadata", JObj [("version", JNum 1)])] fresh_node.

Definition s3_second_put : response * node :=
  put_context_route accepting (Some sees_regional) central_config "c1"
    [("context", JObj [("x", JNum 1)]);
     ("metadata", JObj [("version", JNum 4)])] (snd s3_first_put).

(** The two requests the central server sent, in the order of sending. *)
Definition s3_first_push : option request := sent (snd s3_second_put) !! 0%nat.

Definition s3_second_push : option request := sent (snd s3_second_put) !! 1%nat.

(** The regional server receives a request of the central server. *)
Definition deliver (r : option request) (st : node) : option node :=
  match r with
  | Some r => option_map snd (receive silent None regional_config r st)
  | None => None
  end.

(** The second push reaches a fresh regional server, once and then once
    more; and the first push reaches it after the second. *)
Definition s3_once : option node := deliver s3_second_push fresh_node.

Definition s3_twice : option node :=
  match s3_once with Some st => deliver s3_second_push st | None => None end.

Definition s3_late : option node :=
  match s3_once with Some st => deliver s3_first_push st | None => None end.

Definition stored_payload (cfg : config) (contextId : string) (st : node) : json :=
  fst (getContext (dataDir cfg) contextId st).

(** A [PUT] and then a [DELETE] of [c1] on that central server: what the
    handler answers and leaves, and the order of the moments. *)
Definition s8_route : response * node :=
  put_context_route accepting (Some sees_regional) central_config "c1"
    [("context", JObj [("x", JNum 1)])] fresh_node.

Definition s8_put : list moment :=
  put_context_moments (Some sees_regional) central_config "c1"
    [("context", JObj [("x", JNum 1)])] fresh_node.

Definition s8_delete : list moment :=
  delete_context_moments (Some sees_regional) central_config "c1" (snd s8_route).


Definition sample_payload : json := JObj [("x", JNum 1)].

(** A first save of [c1] on a fresh server. *)
Definition s_saved : (exn + json) * node :=
  saveContext "./data" "c1" sample_payload None fresh_node.

(** A client that caches at most two contexts, and a server whose data
    directory does not exist. *)
Definition small_client : client := new_client None (Some 2).

Definition s_no_directory : node :=
  Node (Fs.mk ∅ ∅) ∅ ∅ [] [] [] sample_clock 0.

(** * Properties *)

(** ** The library models on small inputs *)

Example join_in_data_dir : Path.join "./data" "c1.json" = "data/c1.json".
Proof. reflexivity. Qed.

Example join_climbs_out : Path.join "./data" "../x.json" = "x.json".
Proof. reflexivity. Qed.

Example join_absolute :
  Path.join "/var/data/" "a/../../b.meta.json" = "/var/b.meta.json".
Proof. reflexivity. Qed.

Example basename_cuts_extension : Path.basename "a.meta.x.json" ".json" = "a.meta.x".
Proof. reflexivity. Qed.

Example version_of_nothing : plus_one (or_zero None) = JNum 1.
Proof. reflexivity. Qed.

Example version_of_a_string : plus_one (or_zero (Some (JStr "7"))) = JStr "71".
Proof. reflexivity. Qed.

Example stringify_payload :
  stringify (JObj [("x", JNum 1); ("y", JArr [JNull; JBool true; JStr "q"])])
  = "{" ++ dquote ++ "x" ++ dquote ++ ":1," ++ dquote ++ "y" ++ dquote
    ++ ":[null,true," ++ dquote ++ "q" ++ dquote ++ "]}".
Proof. vm_compute. reflexivity. Qed.

Example write_needs_the_directory :
  Fs.writeFile "./data/a/b.json" Fs.Junk empty_disk = inl Fs.ENOENT.
Proof. vm_compute. reflexivity. Qed.

(** ** JavaScript objects *)

Lemma obj_get_set_eq k v fs : obj_get k (obj_set k v fs) = Some v.
Proof.
  induction fs as [|[k' v'] fs IH]; simpl.
  - by rewrite String.eqb_refl.
  - destruct (String.eqb k' k) eqn:E; simpl.
    + by rewrite String.eqb_refl.
    + by rewrite E.
Qed.

Lemma obj_get_set_ne k k' v fs :
  k ≠ k' → obj_get k' (obj_set k v fs) = obj_get k' fs.
Proof.
  intros Hne. induction fs as [|[k0 v0] fs IH]; simpl.
  - destruct (String.eqb k k') eqn:E; [|done].
    apply String.eqb_eq in E. contradiction.
  - destruct (String.eqb k0 k) eqn:E; simpl.
    + apply String.eqb_eq in E. subst k0.
      destruct (String.eqb k k') eqn:E'; [|done].
      apply String.eqb_eq in E'. contradiction.
    + by rewrite IH.
Qed.

(** ** [saveContext] *)

(** The version written by [saveContext] is computed from the [metadata]
    argument alone. *)
Lemma updated_metadata_version now context metadata updated :
  updated_metadata now context metadata = Some updated →
  version_field updated = Some (plus_one (or_zero (version_field metadata))).
Proof.
  unfold updated_metadata, version_field.
  destruct (get_prop metadata "version") as [v|] eqn:E; [|done].
  intros [= <-]. simpl. by rewrite obj_get_set_eq.
Qed.

(** Everything a successful [saveContext] does. *)
Lemma saveContext_success baseDir contextId context metadata st updated st' :
  saveContext baseDir contextId context metadata st = (inr updated, st') →
  updated_metadata (clock st (ticks st)) context (default (JObj []) metadata)
    = Some updated
  ∧ contextCache st' = <[contextId := context]> (contextCache st)
  ∧ metadataCache st' = <[contextId := updated]> (metadataCache st)
  ∧ emitted st' = app (emitted st) [contextUpdated contextId updated]
  ∧ console st' = console st
  ∧ ∃ d1,
      Fs.writeFile (getContextPath baseDir contextId) (Fs.JsonText context) (disk st)
        = inr d1
      ∧ Fs.writeFile (getMetadataPath baseDir contextId) (Fs.JsonText updated) d1
        = inr (disk st').
Proof.
  unfold saveContext. cbn [read_clock].
  destruct (updated_metadata _ _ _) as [u|]; [|done].
  cbn [disk].
  destruct (Fs.writeFile (getContextPath _ _) _ _) as [e|d1] eqn:W1; [done|].
  cbn [set_disk disk].
  destruct (Fs.writeFile (getMetadataPath _ _) _ _) as [e|d2] eqn:W2; [done|].
  intros [= <- <-]. cbn. eauto 10.
Qed.

Lemma saveContext_version baseDir contextId context metadata st updated st' :
  saveContext baseDir contextId context metadata st = (inr updated, st') →
  version_field updated
  = Some (plus_one (or_zero (version_field (default (JObj []) metadata)))).
Proof.
  intros H. apply saveContext_success in H as [H _].
  by apply updated_metadata_version in H.
Qed.

(** After a successful save both reads are served from the caches. *)
Lemma saveContext_then_getContext baseDir contextId context metadata st updated st' :
  saveContext baseDir contextId context metadata st = (inr updated, st') →
  getContext baseDir contextId st' = (context, st').
Proof.
  intros H. apply saveContext_success in H as (_ & Hc & _).
  unfold getContext. by rewrite Hc, lookup_insert_eq.
Qed.

Lemma saveContext_then_getMetadata baseDir contextId context metadata st updated st' :
  saveContext baseDir contextId context metadata st = (inr updated, st') →
  getMetadata baseDir contextId st' = (updated, st').
Proof.
  intros H. apply saveContext_success in H as (_ & _ & Hm & _).
  unfold getMetadata. by rewrite Hm, lookup_insert_eq.
Qed.

(** A successful [PUT] that sends no [version] answers version 1, whatever the
    server has stored under the identifier. *)
Lemma put_without_version_answers_1 net ts cfg contextId reqBody st :
  version_field (default (JObj []) (obj_get "metadata" reqBody)) = None →
  status (fst (put_context_route net ts cfg contextId reqBody st)) = 200 →
  version_field
    (default JNull
       (answered_metadata (fst (put_context_route net ts cfg contextId reqBody st))))
  = Some (JNum 1).
Proof.
  intros Hv. unfold put_context_route.
  destruct (obj_get "context" reqBody) as [v|]; [|done].
  destruct (truthy v); [|done].
  destruct (saveContext _ _ _ _ _) as [[e|u] st1] eqn:Hs; [done|].
  intros _. cbn. apply saveContext_version in Hs. cbn in Hs.
  by rewrite Hs, Hv.
Qed.

(** C1 (the code departs from the specification).  In scenario S1 both [PUT]s
    succeed, yet the second one answers, and stores, [version = 1] again
    instead of 2: the stored version is never read.  A [version] sent by the
    caller is not ignored either: sending 41 yields 42. *)
Theorem C1_version_comes_from_the_caller :
  status (fst s1_first) = 200
  ∧ version_field (default JNull (answered_metadata (fst s1_first))) = Some (JNum 1)
  ∧ status (fst s1_second) = 200
  ∧ version_field (default JNull (answered_metadata (fst s1_second))) = Some (JNum 1)
  ∧ version_field (fst (getMetadata "./data" "c1" (snd s1_second))) = Some (JNum 1)
  ∧ status (fst s1_chosen) = 200
  ∧ version_field (default JNull (answered_metadata (fst s1_chosen))) = Some (JNum 42).
Proof. vm_compute. repeat split; reflexivity. Qed.

(** Applying metadata that carries the number [n] as its version stores
    [n + 1]. *)
Lemma saveContext_numeric_version baseDir contextId context metadata n st updated st' :
  safe_integer n = true →
  version_field metadata = Some (JNum n) →
  saveContext baseDir contextId context (Some metadata) st = (inr updated, st') →
  version_field updated = Some (JNum (n + 1)).
Proof.
  intros _ Hv H. apply saveContext_version in H. rewrite H. simpl. rewrite Hv.
  simpl. destruct (n =? 0) eqn:E; simpl; [|done].
  apply Z.eqb_eq in E. by subst n.
Qed.

(** C2 (the code departs from the specification).  A write applied from
    upstream goes through the ordinary [saveContext] and a delete through the
    ordinary [deleteContext]: after the catch-up, after an ['update'] event
    and after a ['delete'] event the regional server has emitted on its own
    event bus. *)
Theorem C2_upstream_writes_are_published :
  fst s2_catch_up = Completed
  ∧ emitted (fst (snd s2_catch_up))
    = [contextUpdated "c1" (stored_metadata regional_config "c1" (fst (snd s2_catch_up)))]
  ∧ (emitted ∘ fst <$> s2_update)
    = Some [contextUpdated "c1" (stored_metadata regional_config "c1" (fst (snd s2_catch_up)))]
  ∧ (last ∘ emitted <$> s2_delete) = Some (Some (contextDeleted "c1")).
Proof. vm_compute. repeat split; reflexivity. Qed.

(** C3 (the code departs from the specification).  The central server
    pushes every save to the regional servers with a [PUT], and the regional
    server saves what it receives without comparing versions.  The push that
    announces version 5, delivered twice, rewrites the stored metadata (its
    [lastModified] changes) and is published twice; the push that announces
    version 2, arriving late at a replica that stores version 6, replaces
    the payload and brings the stored version down to 3. *)
Theorem C3_pushed_update_is_saved_without_version_guard :
  s3_first_push
  = Some (put_request central_config "c1" (JObj [("x", JNum 0)])
            (JObj [("version", JNum 2);
                   ("lastModified", JStr "2024-01-01T00:00:0Z"); ("size", JNum 7)])
            regional_peer)
  ∧ s3_second_push
    = Some (put_request central_config "c1" (JObj [("x", JNum 1)])
              (JObj [("version", JNum 5);
                     ("lastModified", JStr "2024-01-01T00:00:1Z"); ("size", JNum 7)])
              regional_peer)
  ∧ (stored_metadata regional_config "c1" <$> s3_once)
    = Some (JObj [("version", JNum 6);
                  ("lastModified", JStr "2024-01-01T00:00:0Z"); ("size", JNum 7)])
  ∧ (stored_metadata regional_config "c1" <$> s3_twice)
    = Some (JObj [("version", JNum 6);
                  ("lastModified", JStr "2024-01-01T00:00:1Z"); ("size", JNum 7)])
  ∧ (length ∘ emitted <$> s3_twice) = Some 2%nat
  ∧ (stored_payload regional_config "c1" <$> s3_once) = Some (JObj [("x", JNum 1)])
  ∧ (stored_payload regional_config "c1" <$> s3_late) = Some (JObj [("x", JNum 0)])
  ∧ (version_field ∘ stored_metadata regional_config "c1" <$> s3_late)
    = Some (Some (JNum 3)).
Proof. vm_compute. repeat split; reflexivity. Qed.

(** C4 (the code departs from the specification).  In scenario S4 the central
    server holds [c3] at version 1 after its three saves, and the regional
    server that caught up reports version 2: one more than the central
    server, and not 3. *)
Theorem C4_replica_is_one_version_ahead :
  version_field (stored_metadata central_config "c3" s4_central) = Some (JNum 1)
  ∧ fst s4_synced = Completed
  ∧ fst (get_metadata_route regional_config "c3" (fst (snd s4_synced)))
    = Response 200
        (JObj [("lastModified", JStr "2024-01-01T00:00:0Z"); ("size", JNum 7);
               ("version", JNum 2)])
  ∧ fst (get_context_route regional_config "c3" (fst (snd s4_synced)))
    = Response 200 (JObj [("x", JNum 3)]).
Proof. vm_compute. repeat split; reflexivity. Qed.

(** ** [deleteContext] *)

Lemma unlink_success p fs fs' :
  Fs.unlink p fs = inr fs' →
  Fs.entries fs' = delete (Fs.resolve p) (Fs.entries fs) ∧ Fs.broken fs' = Fs.broken fs.
Proof.
  unfold Fs.unlink. destruct (Fs.guard fs p); [done|].
  destruct (Fs.entries fs !! Fs.resolve p) as [[t|]|]; try done.
  by intros [= <-].
Qed.

Lemma readFile_absent p fs :
  Fs.entries fs !! Fs.resolve p = None → ∃ e, Fs.readFile p fs = inl e.
Proof.
  intros H. unfold Fs.readFile. destruct (Fs.guard fs p); [by eauto|].
  rewrite H. by eauto.
Qed.

(** Everything a successful [deleteContext] does: both files are gone, both
    cache entries are evicted and [contextDeleted] is emitted. *)
Lemma deleteContext_success baseDir contextId st st' :
  deleteContext baseDir contextId st = (true, st') →
  Fs.entries (disk st') !! Fs.resolve (getContextPath baseDir contextId) = None
  ∧ Fs.entries (disk st') !! Fs.resolve (getMetadataPath baseDir contextId) = None
  ∧ contextCache st' = delete contextId (contextCache st)
  ∧ metadataCache st' = delete contextId (metadataCache st)
  ∧ emitted st' = app (emitted st) [contextDeleted contextId].
Proof.
  unfold deleteContext.
  destruct (Fs.unlink (getContextPath _ _) _) as [e|d1] eqn:U1; [done|].
  cbn [set_disk disk].
  destruct (Fs.unlink (getMetadataPath _ _) _) as [e|d2] eqn:U2; [done|].
  intros [= <-]. cbn.
  apply unlink_success in U1 as [E1 _]. apply unlink_success in U2 as [E2 _].
  rewrite E2, E1. repeat split.
  - destruct (decide (Fs.resolve (getMetadataPath baseDir contextId)
                      = Fs.resolve (getContextPath baseDir contextId))) as [->|Hne].
    + apply lookup_delete_eq.
    + rewrite lookup_delete_ne by done. apply lookup_delete_eq.
  - apply lookup_delete_eq.
Qed.

(** After a successful delete, both reads answer 404. *)
Lemma deleteContext_then_not_found cfg contextId st st' :
  deleteContext (dataDir cfg) contextId st = (true, st') →
  status (fst (get_context_route cfg contextId st')) = 404
  ∧ status (fst (get_metadata_route cfg contextId st')) = 404.
Proof.
  intros H. apply deleteContext_success in H as (Hc & Hm & Cc & Cm & _).
  split.
  - unfold get_context_route, getContext. rewrite Cc, lookup_delete_eq.
    unfold read_json. destruct (readFile_absent _ _ Hc) as [e ->]. simpl.
    by destruct (_ || _).
  - unfold get_metadata_route, getMetadata. rewrite Cm, lookup_delete_eq.
    unfold read_json. by destruct (readFile_absent _ _ Hm) as [e ->].
Qed.

(** C5 (the code departs from the specification).  In scenario S2 the delete
    succeeds, both reads answer 404 and a [PUT] without metadata recreates
    [c1] at version 1; but a [PUT] whose metadata carries [version: 7]
    recreates it at version 8, not 1. *)
Theorem C5_recreated_version_comes_from_the_caller :
  fst s5_deleted = Response 200 (JObj [("success", JBool true)])
  ∧ status (fst (get_context_route central_config "c1" (snd s5_deleted))) = 404
  ∧ status (fst (get_metadata_route central_config "c1" (snd s5_deleted))) = 404
  ∧ version_field (default JNull (answered_metadata (fst s5_recreated))) = Some (JNum 1)
  ∧ status (fst s5_recreated_chosen) = 200
  ∧ version_field (default JNull (answered_metadata (fst s5_recreated_chosen)))
    = Some (JNum 8).
Proof. vm_compute. repeat split; reflexivity. Qed.

(** ** Reading *)

(** [GET /contexts/:contextId] answers 200 or 404, never anything else. *)
Lemma get_context_route_status cfg contextId st :
  status (fst (get_context_route cfg contextId st)) = 200
  ∨ status (fst (get_context_route cfg contextId st)) = 404.
Proof.
  unfold get_context_route. destruct (getContext _ _ _) as [c st1].
  destruct (negb (truthy c)); [|by left].
  destruct (_ || _); by right.
Qed.

(** C6 (as amended).  A read of the payload file that fails, whatever the
    reason (the file is absent, or the disk reports an error), is logged with
    the contextId and answered with 404; [GET] never answers 500. *)
Theorem C6_failed_read_is_answered_404 cfg contextId st e :
  contextCache st !! contextId = None →
  Fs.readFile (getContextPath (dataDir cfg) contextId) (disk st) = inl e →
  status (fst (get_context_route cfg contextId st)) = 404
  ∧ status (fst (get_context_route cfg contextId st)) ≠ 500
  ∧ console (snd (get_context_route cfg contextId st))
    = app (console st)
        [Log Error ("Failed to read context " ++ contextId ++ ": " ++ Fs.message e) []].
Proof.
  intros Hc Hr. unfold get_context_route, getContext, read_json.
  rewrite Hc, Hr. cbn [negb truthy exn_message].
  destruct (_ || _); cbn; repeat split; done.
Qed.

Lemma C6_failed_read_is_answered_404_witness :
  Fs.readFile (getContextPath "./data" "c1") (disk s6_failing_disk) = inl Fs.EIO
  ∧ status (fst (get_context_route central_config "c1" s6_failing_disk)) = 404
  ∧ Fs.readFile (getContextPath "./data" "zz") (disk fresh_node) = inl Fs.ENOENT
  ∧ status (fst (get_context_route central_config "zz" fresh_node)) = 404.
Proof.
  split; [vm_compute; reflexivity|]. split.
  - apply (C6_failed_read_is_answered_404 central_config "c1" s6_failing_disk Fs.EIO);
      vm_compute; reflexivity.
  - split; [vm_compute; reflexivity|].
    apply (C6_failed_read_is_answered_404 central_config "zz" fresh_node Fs.ENOENT);
      vm_compute; reflexivity.
Defined.

(** C6, counterexample.  The payload file of [c1] exists but the disk fails to
    read it ([EIO]); the client is told 404, the answer for an absent
    context, and not 500. *)
Lemma C6_disk_failure_reported_as_not_found :
  Fs.entries (disk s6_failing_disk) !! Fs.resolve (getContextPath "./data" "c1")
    = Some (Fs.File (Fs.JsonText (JObj [("x", JNum 2)])))
  ∧ Fs.readFile (getContextPath "./data" "c1") (disk s6_failing_disk) = inl Fs.EIO
  ∧ fst (get_context_route central_config "c1" s6_failing_disk)
    = Response 404 (error_body "Context not found").
Proof. vm_compute. repeat split; reflexivity. Qed.

(** ** Fan-out to the regional servers *)

Lemma same_store_refl st : same_store st st.
Proof. by repeat split. Qed.

Lemma same_store_trans a b c : same_store a b → same_store b c → same_store a c.
Proof.
  unfold same_store. intros (?&?&?&?&?&?) (?&?&?&?&?&?).
  repeat split; congruence.
Qed.

Lemma same_store_sym a b : same_store a b → same_store b a.
Proof. unfold same_store. intros (?&?&?&?&?&?). by repeat split. Qed.

Lemma write_log_store l st : same_store (write_log l st) st.
Proof. by repeat split. Qed.

Lemma send_store r st : same_store (send r st) st.
Proof. by repeat split. Qed.

Lemma fan_out_trace_refl net st : fan_out_trace net st st.
Proof.
  exists [], []. rewrite !app_nil_r. repeat split; [by constructor|].
  intros r m Hr. by apply elem_of_nil in Hr.
Qed.

(** Writing one more console line keeps a trace a trace. *)
Lemma fan_out_trace_log net st0 st l :
  fan_out_trace net st0 st → fan_out_trace net st0 (write_log l st).
Proof.
  intros (reqs & lines & Hs & Hc & Ht & Hf).
  exists reqs, (app lines [l]). cbn. rewrite Hc, app_assoc.
  repeat split; [done..|].
  intros r m Hr Hn. destruct (Hf r m Hr Hn) as (l' & Hl' & ?).
  exists l'. split; [|done]. apply elem_of_app. by left.
Qed.

(** A trace may start from any node with the same console and requests. *)
Lemma fan_out_trace_from net a b st :
  sent a = sent b → console a = console b →
  fan_out_trace net a st → fan_out_trace net b st.
Proof.
  intros Es Ec (reqs & lines & Hs & Hc & Ht & Hf).
  exists reqs, lines. rewrite <- Es, <- Ec. by repeat split.
Qed.

Lemma discoverRegionalServers_effect net ts st :
  same_store (snd (discoverRegionalServers ts st)) st
  ∧ fan_out_trace net st (snd (discoverRegionalServers ts st)).
Proof.
  unfold discoverRegionalServers.
  destruct ts as [t|]; [destruct (isRunning t); [destruct (getPeers t)|]|];
    cbn [snd]; (split; [apply write_log_store
                       | apply fan_out_trace_log, fan_out_trace_refl]).
Qed.

(** One turn of the loop sends one request with the 10 s timeout, logs a
    failure, and leaves the store alone. *)
Lemma propagate_one_effect net cfg contextId context metadata st0 acc server :
  same_store (snd acc) st0 ∧ fan_out_trace net st0 (snd acc) →
  same_store (snd (propagate_one net cfg contextId context metadata acc server)) st0
  ∧ fan_out_trace net st0
      (snd (propagate_one net cfg contextId context metadata acc server)).
Proof.
  destruct acc as [results st]. cbn [snd].
  intros [Hst (reqs & lines & Hs & Hc & Ht & Hf)].
  unfold propagate_one, console_log, console_error.
  set (req := Request "PUT" _ _ 10000).
  set (line := Log Info _ _).
  destruct (net req) as [m|[code data]] eqn:Hnet; cbn [snd]; split;
    try (by destruct Hst as (?&?&?&?&?&?)); fan_out_turn Hnet Hs Hc Ht Hf.
Qed.

Lemma propagate_deletion_one_effect net cfg contextId st0 acc server :
  same_store (snd acc) st0 ∧ fan_out_trace net st0 (snd acc) →
  same_store (snd (propagate_deletion_one net cfg contextId acc server)) st0
  ∧ fan_out_trace net st0 (snd (propagate_deletion_one net cfg contextId acc server)).
Proof.
  destruct acc as [results st]. cbn [snd].
  intros [Hst (reqs & lines & Hs & Hc & Ht & Hf)].
  unfold propagate_deletion_one, console_log, console_error.
  set (req := Request "DELETE" _ _ 10000).
  set (line := Log Info _ _).
  destruct (net req) as [m|[code data]] eqn:Hnet; cbn [snd]; split;
    try (by destruct Hst as (?&?&?&?&?&?)); fan_out_turn Hnet Hs Hc Ht Hf.
Qed.

(** An invariant of a loop body is an invariant of the loop. *)
Lemma fold_left_invariant {A B} (P : A → Prop) (f : A → B → A) (l : list B) (a : A) :
  (∀ a b, P a → P (f a b)) → P a → P (fold_left f l a).
Proof.
  intros Hf. revert a. induction l as [|b l IH]; intros a Ha; simpl; [done|].
  apply IH. by apply Hf.
Qed.

Lemma propagateToRegionals_effect net ts cfg contextId context metadata st :
  same_store (snd (propagateToRegionals net ts cfg contextId context metadata st)) st
  ∧ fan_out_trace net st
      (snd (propagateToRegionals net ts cfg contextId context metadata st)).
Proof.
  unfold propagateToRegionals.
  pose proof (discoverRegionalServers_effect net ts st) as Hd.
  destruct (discoverRegionalServers ts st) as [servers st1]. cbn [snd] in Hd.
  apply (fold_left_invariant
           (fun acc => same_store (snd acc) st ∧ fan_out_trace net st (snd acc)));
    [|done].
  intros acc server. apply propagate_one_effect.
Qed.

Lemma propagateDeletionToRegionals_effect net ts cfg contextId st :
  same_store (snd (propagateDeletionToRegionals net ts cfg contextId st)) st
  ∧ fan_out_trace net st (snd (propagateDeletionToRegionals net ts cfg contextId st)).
Proof.
  unfold propagateDeletionToRegionals.
  pose proof (discoverRegionalServers_effect net ts st) as Hd.
  destruct (discoverRegionalServers ts st) as [servers st1]. cbn [snd] in Hd.
  apply (fold_left_invariant
           (fun acc => same_store (snd acc) st ∧ fan_out_trace net st (snd acc)));
    [|done].
  intros acc server. apply propagate_deletion_one_effect.
Qed.

Lemma fan_out_trace_trans net a b c :
  fan_out_trace net a b → fan_out_trace net b c → fan_out_trace net a c.
Proof.
  intros (r1 & l1 & Hs1 & Hc1 & Ht1 & Hf1) (r2 & l2 & Hs2 & Hc2 & Ht2 & Hf2).
  exists (app r1 r2), (app l1 l2).
  rewrite Hs2, Hs1, Hc2, Hc1, <- !app_assoc. repeat split.
  - apply Forall_app. by split.
  - intros r m Hr Hn. apply elem_of_app in Hr as [Hr|Hr].
    + destruct (Hf1 r m Hr Hn) as (l & Hl & ?). exists l.
      split; [|done]. apply elem_of_app. by left.
    + destruct (Hf2 r m Hr Hn) as (l & Hl & ?). exists l.
      split; [|done]. apply elem_of_app. by right.
Qed.

(** [saveContext] sends nothing and writes at most its own error line. *)
Lemma saveContext_trace net baseDir contextId context metadata st :
  fan_out_trace net st (snd (saveContext baseDir contextId context metadata st)).
Proof.
  unfold saveContext. cbn [read_clock].
  destruct (updated_metadata _ _ _) as [u|]; cbn [disk snd].
  - destruct (Fs.writeFile (getContextPath _ _) _ _) as [e|d1]; cbn [set_disk disk snd].
    + apply fan_out_trace_log.
      eapply fan_out_trace_from; [| |apply fan_out_trace_refl]; reflexivity.
    + destruct (Fs.writeFile (getMetadataPath _ _) _ _) as [e|d2]; cbn [snd].
      * apply fan_out_trace_log.
        eapply fan_out_trace_from; [| |apply fan_out_trace_refl]; reflexivity.
      * eapply fan_out_trace_from; [| |apply fan_out_trace_refl]; reflexivity.
  - eapply fan_out_trace_from; [| |apply fan_out_trace_refl]; reflexivity.
Qed.

Lemma deleteContext_trace net baseDir contextId st :
  fan_out_trace net st (snd (deleteContext baseDir contextId st)).
Proof.
  unfold deleteContext.
  destruct (Fs.unlink (getContextPath _ _) _) as [e|d1]; cbn [set_disk disk snd].
  - apply fan_out_trace_log, fan_out_trace_refl.
  - destruct (Fs.unlink (getMetadataPath _ _) _) as [e|d2]; cbn [snd].
    + apply fan_out_trace_log.
      eapply fan_out_trace_from; [| |apply fan_out_trace_refl]; reflexivity.
    + eapply fan_out_trace_from; [| |apply fan_out_trace_refl]; reflexivity.
Qed.

Lemma no_tailscale_no_fan_out s :
  String.eqb s "central" && bool_decide (is_Some (@None tailscale)) = false.
Proof.
  rewrite bool_decide_eq_false_2; [apply andb_false_r|]. by intros [? ?].
Qed.

(** The answer of [PUT] and the store it leaves are those of a server that
    has no Tailscale instance, hence no fan-out at all. *)
Lemma put_context_route_local net ts cfg contextId reqBody st :
  fst (put_context_route net ts cfg contextId reqBody st)
  = fst (put_context_route silent None cfg contextId reqBody st)
  ∧ same_store (snd (put_context_route net ts cfg contextId reqBody st))
               (snd (put_context_route silent None cfg contextId reqBody st))
  ∧ fan_out_trace net st (snd (put_context_route net ts cfg contextId reqBody st)).
Proof.
  unfold put_context_route. rewrite no_tailscale_no_fan_out.
  destruct (obj_get "context" reqBody) as [v|];
    [|cbn; auto using same_store_refl, fan_out_trace_refl].
  destruct (truthy v); [|cbn; auto using same_store_refl, fan_out_trace_refl].
  pose proof (saveContext_trace net (dataDir cfg) contextId v
                (Some (default (JObj []) (obj_get "metadata" reqBody))) st) as Htr.
  destruct (saveContext _ _ _ _ _) as [[e|u] st1]; cbn [snd] in Htr;
    [cbn; auto using same_store_refl|].
  destruct (String.eqb (serverType cfg) "central" && bool_decide (is_Some ts));
    [|cbn; auto using same_store_refl].
  pose proof (propagateToRegionals_effect net ts cfg contextId v u st1) as [Hst Hp].
  destruct (propagateToRegionals _ _ _ _ _ _ _) as [results st2].
  cbn [fst snd] in *. split; [done|]. split.
  - eapply same_store_trans; [apply write_log_store|done].
  - apply fan_out_trace_log. by eapply fan_out_trace_trans.
Qed.

Lemma delete_context_route_local net ts cfg contextId st :
  fst (delete_context_route net ts cfg contextId st)
  = fst (delete_context_route silent None cfg contextId st)
  ∧ same_store (snd (delete_context_route net ts cfg contextId st))
               (snd (delete_context_route silent None cfg contextId st))
  ∧ fan_out_trace net st (snd (delete_context_route net ts cfg contextId st)).
Proof.
  unfold delete_context_route. rewrite no_tailscale_no_fan_out.
  pose proof (deleteContext_trace net (dataDir cfg) contextId st) as Htr.
  destruct (deleteContext _ _ _) as [[|] st1]; cbn [snd negb] in *;
    [|cbn; auto using same_store_refl].
  destruct (String.eqb (serverType cfg) "central" && bool_decide (is_Some ts));
    [|cbn; auto using same_store_refl].
  pose proof (propagateDeletionToRegionals_effect net ts cfg contextId st1) as [Hst Hp].
  destruct (propagateDeletionToRegionals _ _ _ _ _) as [results st2].
  cbn [fst snd] in *. split; [done|]. split.
  - eapply same_store_trans; [apply write_log_store|done].
  - apply fan_out_trace_log. by eapply fan_out_trace_trans.
Qed.

(** On every server, central or not, and whatever the peers and the network
    do, [PUT] and [DELETE] answer exactly as they would without any fan-out,
    and leave the same store: the answer is decided by the local operation
    alone.  The fan-out only adds requests, each with a timeout of 10000 ms,
    and console lines; every request that fails has its error line. *)
Lemma fan_out_never_changes_the_answer
    (net : network) ts cfg contextId reqBody st :
  fst (put_context_route net ts cfg contextId reqBody st)
  = fst (put_context_route silent None cfg contextId reqBody st)
  ∧ same_store (snd (put_context_route net ts cfg contextId reqBody st))
               (snd (put_context_route silent None cfg contextId reqBody st))
  ∧ fan_out_trace net st (snd (put_context_route net ts cfg contextId reqBody st))
  ∧ fst (delete_context_route net ts cfg contextId st)
    = fst (delete_context_route silent None cfg contextId st)
  ∧ same_store (snd (delete_context_route net ts cfg contextId st))
               (snd (delete_context_route silent None cfg contextId st))
  ∧ fan_out_trace net st (snd (delete_context_route net ts cfg contextId st)).
Proof.
  destruct (put_context_route_local net ts cfg contextId reqBody st) as (?&?&?).
  destruct (delete_context_route_local net ts cfg contextId st) as (?&?&?).
  repeat (split; [assumption|]). assumption.
Qed.

(** C8 (the code departs from the specification).  On a central server whose
    Tailscale integration runs, a [PUT] and a [DELETE] that succeed run
    [tailscale status --json] with [execSync] before they answer: the peers
    are looked up inside the call of the fan-out, which the handler makes
    before [res.json].  The requests to the peers do come after the
    answer. *)
Theorem C8_peer_discovery_blocks_the_answer :
  s8_put
  = [Exec "tailscale status --json";
     Answer (fst s8_route);
     Http (put_request central_config "c1" (JObj [("x", JNum 1)])
             (JObj [("lastModified", JStr "2024-01-01T00:00:0Z");
                    ("size", JNum 7); ("version", JNum 1)])
             regional_peer)]
  ∧ status (fst s8_route) = 200
  ∧ sent (snd s8_route)
    = [put_request central_config "c1" (JObj [("x", JNum 1)])
         (JObj [("lastModified", JStr "2024-01-01T00:00:0Z");
                ("size", JNum 7); ("version", JNum 1)])
         regional_peer]
  ∧ s8_delete
    = [Exec "tailscale status --json";
       Answer (Response 200 (JObj [("success", JBool true)]));
       Http (delete_request central_config "c1" regional_peer)].
Proof. vm_compute. repeat split; reflexivity. Qed.

(** ** Payloads *)

Lemma get_context_route_cached cfg contextId st v :
  contextCache st !! contextId = Some v → truthy v = true →
  get_context_route cfg contextId st = (Response 200 v, st).
Proof.
  intros Hc Ht. unfold get_context_route, getContext. by rewrite Hc, Ht.
Qed.

(** A missing or falsy payload is refused with 400 and nothing happens. *)
Lemma put_context_route_falsy net ts cfg contextId reqBody st :
  truthy_opt (obj_get "context" reqBody) = false →
  put_context_route net ts cfg contextId reqBody st
  = (Response 400 (error_body "Context data is required"), st).
Proof.
  unfold put_context_route, truthy_opt.
  destruct (obj_get "context" reqBody) as [v|]; [|done]. by intros ->.
Qed.

(** [PUT] answers 400 exactly when the payload is missing or falsy, whatever
    the identifier. *)
Lemma put_context_route_400 net ts cfg contextId reqBody st :
  status (fst (put_context_route net ts cfg contextId reqBody st)) = 400
  ↔ truthy_opt (obj_get "context" reqBody) = false.
Proof.
  split; [|by intros H; rewrite put_context_route_falsy].
  unfold put_context_route, truthy_opt.
  destruct (obj_get "context" reqBody) as [v|]; [|done].
  destruct (truthy v); [|done].
  destruct (saveContext _ _ _ _ _) as [[e|u] st1]; cbn; done.
Qed.




(** ** Listing *)

Lemma prefix_app_l sub s t :
  String.prefix sub s = true → String.prefix sub (s ++ t) = true.
Proof.
  revert sub. induction s as [|b s IH]; intros [|a sub]; simpl; try done.
  - intros _. by destruct t.
  - destruct (ascii_dec a b); [apply IH|done].
Qed.

Lemma prefix_empty sub : String.prefix sub "" = true → sub = "".
Proof. by destruct sub. Qed.

Lemma includes_empty t : Path.includes "" t = true.
Proof. by destruct t. Qed.

Lemma includes_app_l sub s t :
  Path.includes sub s = true → Path.includes sub (s ++ t) = true.
Proof.
  induction s as [|a s IH]; simpl.
  - rewrite orb_false_r. intros H%prefix_empty. subst sub. apply includes_empty.
  - intros [H|H]%orb_true_iff; apply orb_true_iff.
    + left. by apply (prefix_app_l sub (String a s) t).
    + right. by apply IH.
Qed.

Lemma ends_with_basename ext file :
  Path.ends_with ext file = true → file = Path.basename file ext ++ ext.
Proof.
  induction file as [|a file IH]; cbn [Path.ends_with Path.basename].
  - rewrite orb_false_r. intros H. rewrite H.
    apply String.eqb_eq in H. by subst ext.
  - destruct (String.eqb (String a file) ext) eqn:E.
    + intros _. by apply String.eqb_eq in E.
    + cbn [orb]. intros H%IH. by rewrite H at 1.
Qed.

(** [listContexts] never yields an identifier that contains [".meta."]. *)
Lemma listContexts_omits_meta baseDir contextId st :
  Path.includes ".meta." contextId = true →
  contextId ∉ fst (listContexts baseDir st).
Proof.
  intros Hm. unfold listContexts.
  destruct (Fs.readdir baseDir (disk st)) as [e|files]; cbn [fst].
  - apply not_elem_of_nil.
  - intros Hin%list_elem_of_In. apply in_map_iff in Hin as (file & Hb & Hf).
    apply filter_In in Hf as [_ [Hno He]%andb_true_iff].
    apply ends_with_basename in He. rewrite Hb in He.
    apply negb_true_iff in Hno. rewrite He in Hno.
    by rewrite (includes_app_l _ _ _ Hm) in Hno.
Qed.

(** C10.  For every identifier that contains [".meta."], such as
    ["a.meta.x"]: after a successful [saveContext], [getContext] returns the
    payload, yet [listContexts] does not list the identifier. *)
Theorem C10_meta_identifiers_are_saved_but_not_listed
    baseDir contextId context metadata st updated st' :
  Path.includes ".meta." contextId = true →
  saveContext baseDir contextId context metadata st = (inr updated, st') →
  fst (getContext baseDir contextId st') = context
  ∧ contextId ∉ fst (listContexts baseDir st').
Proof.
  intros Hm Hs. split.
  - by rewrite (saveContext_then_getContext _ _ _ _ _ _ _ Hs).
  - by apply listContexts_omits_meta.
Qed.

Lemma C10_meta_identifiers_are_saved_but_not_listed_witness :
  Path.includes ".meta." "a.meta.x" = true
  ∧ fst s10_saved
    = inr (JObj [("lastModified", JStr "2024-01-01T00:00:0Z"); ("size", JNum 7);
                 ("version", JNum 1)])
  ∧ fst (getContext "./data" "a.meta.x" (snd s10_saved)) = JObj [("x", JNum 1)]
  ∧ "a.meta.x" ∉ fst (listContexts "./data" (snd s10_saved)).
Proof.
  split; [reflexivity|].
  assert (fst s10_saved
          = inr (JObj [("lastModified", JStr "2024-01-01T00:00:0Z");
                       ("size", JNum 7); ("version", JNum 1)])) as Hsaved
    by (vm_compute; reflexivity).
  split; [exact Hsaved|].
  apply (C10_meta_identifiers_are_saved_but_not_listed
           "./data" "a.meta.x" (JObj [("x", JNum 1)]) None fresh_node
           (JObj [("lastModified", JStr "2024-01-01T00:00:0Z"); ("size", JNum 7);
                  ("version", JNum 1)])
           (snd s10_saved)); [reflexivity|].
  rewrite <- Hsaved. apply surjective_pairing.
Defined.

(** ** Paths *)

Lemma split_nonempty s : Path.split s ≠ [].
Proof.
  destruct s as [|a s]; simpl; [done|].
  destruct (Ascii.eqb a Path.slash); [done|]. by destruct (Path.split s).
Qed.

Lemma split_app_slash a b :
  Path.split (a ++ "/" ++ b) = app (Path.split a) (Path.split b).
Proof.
  induction a as [|c a IH]; [done|].
  change (String c a ++ "/" ++ b) with (String c (a ++ "/" ++ b)).
  cbn [Path.split].
  destruct (Ascii.eqb c Path.slash).
  - by rewrite IH.
  - rewrite IH. pose proof (split_nonempty a) as Hne.
    by destruct (Path.split a).
Qed.

Lemma split_slash_free s : slash_free s = true → Path.split s = [s].
Proof.
  induction s as [|a s IH]; [done|]. cbn [slash_free Path.split].
  intros [Ha Hs]%andb_true_iff. apply negb_true_iff in Ha.
  by rewrite Ha, (IH Hs).
Qed.

Lemma split_segments_slash_free s :
  Forall (fun seg => slash_free seg = true) (Path.split s).
Proof.
  induction s as [|a s IH]; cbn [Path.split]; [by repeat constructor|].
  destruct (Ascii.eqb a Path.slash) eqn:Ha; [by constructor|].
  destruct (Path.split s) as [|seg segs]; [by repeat constructor; cbn; rewrite Ha|].
  apply Forall_cons in IH as [Hseg Hsegs].
  constructor; [|done]. cbn. by rewrite Ha, Hseg.
Qed.

Lemma includes_slash_free s : Path.includes "/" s = false → slash_free s = true.
Proof.
  induction s as [|a s IH]; [done|]. cbn [Path.includes slash_free].
  intros [Hp Hi]%orb_false_iff. rewrite (IH Hi), andb_true_r.
  apply negb_true_iff. destruct (Ascii.eqb a Path.slash) eqn:Ha; [|done].
  apply Ascii.eqb_eq in Ha. subst a. cbn in Hp. by destruct s.
Qed.

Lemma slash_free_app a b :
  slash_free a = true → slash_free b = true → slash_free (a ++ b) = true.
Proof.
  intros Ha Hb. induction a as [|c a IH]; [done|].
  change (String c a ++ b) with (String c (a ++ b)). cbn [slash_free] in *.
  apply andb_true_iff in Ha as [Hc Ha]. by rewrite Hc, IH.
Qed.

(** *** Normalised segments *)

(** A segment that names an entry is pushed. *)
Lemma step_entry_name r kept seg :
  entry_name seg → Path.step r kept seg = seg :: kept.
Proof.
  intros (H1 & H2 & H3). unfold Path.step.
  apply String.eqb_neq in H1, H2, H3. by rewrite H1, H2, H3.
Qed.

Lemma fold_step_entry_names r segs kept :
  Forall entry_name segs →
  fold_left (Path.step r) segs kept = app (rev segs) kept.
Proof.
  intros H. revert kept. induction H as [|seg segs Hseg _ IH]; intros kept; [done|].
  cbn [fold_left rev]. by rewrite step_entry_name, IH, <- app_assoc.
Qed.

Lemma step_shape r kept seg : kept_shape r kept → kept_shape r (Path.step r kept seg).
Proof.
  intros (names & n & -> & Hnames & Hn). unfold Path.step.
  destruct (String.eqb seg "") eqn:E1; [by exists names, n|].
  destruct (String.eqb seg ".") eqn:E2; [by exists names, n|].
  cbn [orb].
  destruct (String.eqb seg "..") eqn:E3.
  - destruct names as [|top names]; cbn [app].
    + destruct n as [|n]; cbn [repeat].
      * destruct r; [by exists [], 1%nat|by exists [], O].
      * cbn. destruct r; [by exists [], (S (S n))|by exists [], (S n)].
    + apply Forall_cons in Hnames as [(_ & _ & Htop) Hnames].
      apply String.eqb_neq in Htop. rewrite Htop. by exists names, n.
  - exists (seg :: names), n. split; [done|]. split; [|done].
    constructor; [|done]. by apply String.eqb_neq in E1, E2, E3.
Qed.

Lemma fold_step_shape r segs kept :
  kept_shape r kept → kept_shape r (fold_left (Path.step r) segs kept).
Proof. apply fold_left_invariant. intros a b. apply step_shape. Qed.

Lemma fold_step_dots n : fold_left (Path.step true) (repeat ".." n) [] = repeat ".." n.
Proof.
  assert (∀ k, fold_left (Path.step true) (repeat ".." n) (repeat ".." k)
               = repeat ".." (n + k)) as H.
  { induction n as [|n IH]; intros k; [done|].
    cbn [repeat fold_left]. replace (Path.step true (repeat ".." k) "..")
      with (repeat ".." (S k)) by (by destruct k).
    rewrite IH. f_equal. lia. }
  transitivity (repeat ".." (n + 0)); [exact (H O)|f_equal; lia].
Qed.

Lemma rev_repeat {A} (x : A) n : rev (repeat x n) = repeat x n.
Proof.
  induction n as [|n IH]; [done|]. cbn [repeat rev]. rewrite IH.
  clear IH. induction n as [|n IH]; [done|]. cbn. by rewrite IH.
Qed.

(** Normalising normalised segments changes nothing. *)
Lemma normalize_segments_idempotent r segs :
  Path.normalize_segments r (Path.normalize_segments r segs)
  = Path.normalize_segments r segs.
Proof.
  unfold Path.normalize_segments.
  destruct (fold_step_shape r segs [])
    as (names & n & -> & Hnames & Hn); [by exists [], O|].
  f_equal. rewrite rev_app_distr, rev_repeat, fold_left_app.
  assert (fold_left (Path.step r) (repeat ".." n) [] = repeat ".." n) as ->.
  { destruct r; [apply fold_step_dots|]. by rewrite Hn. }
  rewrite fold_step_entry_names by (by apply Forall_rev).
  by rewrite rev_involutive.
Qed.

Lemma step_slash_free r kept seg :
  Forall (fun s => slash_free s = true) kept → slash_free seg = true →
  Forall (fun s => slash_free s = true) (Path.step r kept seg).
Proof.
  intros Hk Hs. unfold Path.step.
  destruct (_ || _); [done|].
  destruct (String.eqb seg "..").
  - destruct kept as [|top below].
    + destruct r; by repeat constructor.
    + destruct (String.eqb top ".."); [destruct r; [by constructor|done]|].
      by apply Forall_cons in Hk as [_ ?].
  - by constructor.
Qed.

Lemma normalize_segments_slash_free r segs :
  Forall (fun s => slash_free s = true) segs →
  Forall (fun s => slash_free s = true) (Path.normalize_segments r segs).
Proof.
  intros H. unfold Path.normalize_segments. apply Forall_rev.
  assert (Forall (fun s => slash_free s = true) (@nil string)) as Hnil by constructor.
  revert Hnil. generalize (@nil string).
  induction H as [|seg segs Hseg _ IH]; intros kept Hk; [done|].
  cbn [fold_left]. apply IH. by apply step_slash_free.
Qed.

Lemma normalize_segments_nonempty r segs :
  Forall (fun s => s ≠ "") (Path.normalize_segments r segs).
Proof.
  unfold Path.normalize_segments. apply Forall_rev.
  destruct (fold_step_shape r segs [])
    as (names & n & -> & Hnames & _); [by exists [], O|].
  apply Forall_app. split.
  - eapply Forall_impl; [exact Hnames|]. by intros s (? & _).
  - clear. induction n; by constructor.
Qed.

Lemma normalize_segments_snoc r segs name :
  entry_name name →
  Path.normalize_segments r (app segs [name])
  = app (Path.normalize_segments r segs) [name].
Proof.
  intros Hn. unfold Path.normalize_segments.
  rewrite fold_left_app. cbn [fold_left]. by rewrite step_entry_name.
Qed.

Lemma normalize_segments_skip r segs :
  Path.normalize_segments r ("" :: segs) = Path.normalize_segments r segs.
Proof. done. Qed.

Lemma split_join_with segs :
  segs ≠ [] → Forall (fun s => slash_free s = true) segs →
  Path.split (join_with "/" segs) = segs.
Proof.
  intros Hne H. induction H as [|seg segs Hseg Hsegs IH]; [done|].
  destruct segs as [|seg' segs]; [by apply split_slash_free|].
  change (join_with "/" (seg :: seg' :: segs))
    with (seg ++ "/" ++ join_with "/" (seg' :: segs)).
  rewrite split_app_slash, IH by done. by rewrite split_slash_free.
Qed.

Lemma is_absolute_join_with segs :
  Forall (fun s => slash_free s = true) segs → Forall (fun s => s ≠ "") segs →
  Path.is_absolute (join_with "/" segs) = false.
Proof.
  intros Hs Hn. destruct segs as [|seg segs]; [done|].
  apply Forall_cons in Hs as [Hs _]. apply Forall_cons in Hn as [Hn _].
  destruct seg as [|c seg]; [done|].
  cbn [slash_free] in Hs. apply andb_true_iff in Hs as [Hc%negb_true_iff _].
  by destruct segs.
Qed.

Lemma split_ends_in_slash s :
  Path.ends_in_slash s = true →
  ∃ segs, Path.split s = app segs [""] ∧ segs ≠ [].
Proof.
  induction s as [|a s IH]; [done|]. cbn [Path.ends_in_slash Path.split].
  destruct s as [|b s].
  - intros ->. by exists [""].
  - intros (segs & Hsegs & Hne)%IH. rewrite Hsegs.
    destruct (Ascii.eqb a Path.slash); [by exists ("" :: segs)|].
    destruct segs as [|seg segs]; [done|].
    by exists (String a seg :: segs).
Qed.

(** [path.normalize] does not move a path whose last segment names an
    entry: the normalised string resolves to the same location. *)
Lemma resolve_normalize p segs name :
  Path.split p = app segs [name] → entry_name name →
  Fs.resolve (Path.normalize p) = Fs.resolve p.
Proof.
  intros Hsplit Hname.
  assert (p ≠ "") as Hp.
  { intros ->. cbn in Hsplit. destruct Hname as [Hne _].
    destruct segs as [|? [|? ?]]; cbn in Hsplit; congruence. }
  assert (Path.ends_in_slash p = false) as Hend.
  { destruct (Path.ends_in_slash p) eqn:E; [|done].
    apply split_ends_in_slash in E as (segs' & E & _). rewrite E in Hsplit.
    apply app_inj_tail in Hsplit as [_ <-]. by destruct Hname. }
  unfold Fs.resolve at 2. unfold Path.normalize.
  apply String.eqb_neq in Hp. rewrite Hp, Hend.
  set (abs := Path.is_absolute p).
  set (normal := Path.normalize_segments (negb abs) (Path.split p)).
  assert (Forall (fun s => slash_free s = true) normal) as Hfree
    by apply normalize_segments_slash_free, split_segments_slash_free.
  pose proof (normalize_segments_nonempty (negb abs) (Path.split p)) as Hnon.
  fold normal in Hnon.
  assert (normal ≠ []) as Hne.
  { unfold normal. rewrite Hsplit, normalize_segments_snoc by done.
    by destruct (Path.normalize_segments _ segs). }
  assert (Path.split (join_with "/" normal) = normal) as Hback
    by by apply split_join_with.
  assert (String.eqb (join_with "/" normal) "" = false) as ->.
  { apply String.eqb_neq. intros E. rewrite E in Hback. cbn in Hback.
    rewrite <- Hback in Hnon. by apply Forall_cons in Hnon as [? _]. }
  unfold Fs.resolve. destruct abs.
  - change (Path.is_absolute ("/" ++ join_with "/" normal)) with true.
    change (Path.split ("/" ++ join_with "/" normal))
      with ("" :: Path.split (join_with "/" normal)).
    rewrite Hback, normalize_segments_skip. unfold normal.
    by rewrite normalize_segments_idempotent.
  - rewrite is_absolute_join_with, Hback by done. unfold normal.
    by rewrite normalize_segments_idempotent.
Qed.

Lemma is_absolute_slash_free s : slash_free s = true → Path.is_absolute s = false.
Proof.
  destruct s as [|a s]; [done|]. cbn.
  by intros [Ha%negb_true_iff _]%andb_true_iff.
Qed.

(** [path.join(d, name)] is the entry [name] of the directory [d], for every
    [name] without separator that names an entry. *)
Lemma resolve_join d name :
  slash_free name = true → entry_name name →
  Fs.resolve (Path.join d name) = child d name.
Proof.
  intros Hfree Hname. unfold Path.join, child.
  pose proof Hname as (Hne%String.eqb_neq & _).
  rewrite Hne. destruct (String.eqb d "") eqn:Hd.
  - apply String.eqb_eq in Hd. subst d.
    rewrite (resolve_normalize name [] name) by (by rewrite ?split_slash_free).
    unfold Fs.resolve. rewrite (is_absolute_slash_free name Hfree).
    rewrite split_slash_free by done.
    by rewrite (normalize_segments_snoc _ [] name).
  - rewrite (resolve_normalize (d ++ "/" ++ name) (Path.split d) name)
      by (by rewrite ?split_app_slash, ?(split_slash_free name)).
    unfold Fs.resolve.
    replace (Path.is_absolute (d ++ "/" ++ name)) with (Path.is_absolute d)
      by (by destruct d).
    rewrite split_app_slash, (split_slash_free name) by done.
    by rewrite normalize_segments_snoc.
Qed.

Lemma json_file_name contextId ext :
  slash_free contextId = true →
  ext = ".json" ∨ ext = ".meta.json" →
  slash_free (contextId ++ ext) = true ∧ entry_name (contextId ++ ext).
Proof.
  intros Hfree Hext. split.
  - apply slash_free_app; [done|]. by destruct Hext as [-> | ->].
  - destruct Hext as [-> | ->];
      (destruct contextId as [|a [|b [|c contextId]]]; repeat split;
       cbv [append]; congruence).
Qed.

(** Identifiers without a separator are stored in the data directory itself. *)
Lemma context_paths_in_data_dir baseDir contextId :
  Path.includes "/" contextId = false →
  Fs.resolve (getContextPath baseDir contextId) = child baseDir (contextId ++ ".json")
  ∧ Fs.resolve (getMetadataPath baseDir contextId)
    = child baseDir (contextId ++ ".meta.json").
Proof.
  intros Hfree%includes_slash_free. unfold getContextPath, getMetadataPath.
  destruct (json_file_name contextId ".json" Hfree) as [? ?]; [by left|].
  destruct (json_file_name contextId ".meta.json" Hfree) as [? ?]; [by right|].
  by rewrite !resolve_join.
Qed.

(** ** Which files an operation touches *)

Lemma writeFile_frame p txt fs fs' k :
  Fs.writeFile p txt fs = inr fs' → k ≠ Fs.resolve p →
  Fs.entries fs' !! k = Fs.entries fs !! k.
Proof.
  unfold Fs.writeFile. destruct (Fs.guard fs p); [done|].
  intros H Hk.
  assert (fs' = Fs.mk (<[Fs.resolve p := Fs.File txt]> (Fs.entries fs)) (Fs.broken fs))
    as ->.
  { destruct (Fs.entries fs !! Fs.resolve p) as [[t|]|]; try done;
      destruct (Fs.dir_exists fs _); congruence. }
  cbn. by rewrite lookup_insert_ne.
Qed.

Lemma unlink_frame p fs fs' k :
  Fs.unlink p fs = inr fs' → k ≠ Fs.resolve p →
  Fs.entries fs' !! k = Fs.entries fs !! k.
Proof.
  intros [-> _]%unlink_success Hk. by rewrite lookup_delete_ne.
Qed.

Lemma saveContext_frame baseDir contextId context metadata st k :
  k ≠ Fs.resolve (getContextPath baseDir contextId) →
  k ≠ Fs.resolve (getMetadataPath baseDir contextId) →
  Fs.entries (disk (snd (saveContext baseDir contextId context metadata st))) !! k
  = Fs.entries (disk st) !! k.
Proof.
  intros Hc Hm. unfold saveContext. cbn [read_clock].
  destruct (updated_metadata _ _ _) as [u|]; [|done]. cbn [disk].
  destruct (Fs.writeFile (getContextPath _ _) _ _) as [e|d1] eqn:W1; [done|].
  cbn [set_disk disk].
  destruct (Fs.writeFile (getMetadataPath _ _) _ _) as [e|d2] eqn:W2; cbn.
  - by apply (writeFile_frame _ _ _ _ k) in W1.
  - apply (writeFile_frame _ _ _ _ k) in W1, W2; congruence.
Qed.

Lemma deleteContext_frame baseDir contextId st k :
  k ≠ Fs.resolve (getContextPath baseDir contextId) →
  k ≠ Fs.resolve (getMetadataPath baseDir contextId) →
  Fs.entries (disk (snd (deleteContext baseDir contextId st))) !! k
  = Fs.entries (disk st) !! k.
Proof.
  intros Hc Hm. unfold deleteContext.
  destruct (Fs.unlink (getContextPath _ _) _) as [e|d1] eqn:U1; [done|].
  cbn [set_disk disk].
  destruct (Fs.unlink (getMetadataPath _ _) _) as [e|d2] eqn:U2; cbn.
  - by apply (unlink_frame _ _ _ k) in U1.
  - apply (unlink_frame _ _ _ k) in U1, U2; congruence.
Qed.

Lemma getContext_disk baseDir contextId st :
  disk (snd (getContext baseDir contextId st)) = disk st.
Proof.
  unfold getContext. destruct (contextCache st !! contextId); [done|].
  by destruct (read_json _ _).
Qed.

Lemma getMetadata_disk baseDir contextId st :
  disk (snd (getMetadata baseDir contextId st)) = disk st.
Proof.
  unfold getMetadata. destruct (metadataCache st !! contextId); [done|].
  by destruct (read_json _ _).
Qed.

Lemma put_context_route_frame net ts cfg contextId reqBody st k :
  k ≠ Fs.resolve (getContextPath (dataDir cfg) contextId) →
  k ≠ Fs.resolve (getMetadataPath (dataDir cfg) contextId) →
  Fs.entries (disk (snd (put_context_route net ts cfg contextId reqBody st))) !! k
  = Fs.entries (disk st) !! k.
Proof.
  intros Hc Hm.
  destruct (put_context_route_local net ts cfg contextId reqBody st)
    as (_ & (-> & _) & _).
  unfold put_context_route. rewrite no_tailscale_no_fan_out.
  destruct (obj_get "context" reqBody) as [v|]; [|done].
  destruct (truthy v); [|done].
  pose proof (saveContext_frame (dataDir cfg) contextId v
                (Some (default (JObj []) (obj_get "metadata" reqBody))) st k Hc Hm) as H.
  by destruct (saveContext _ _ _ _ _) as [[e|u] st1].
Qed.

Lemma delete_context_route_frame net ts cfg contextId st k :
  k ≠ Fs.resolve (getContextPath (dataDir cfg) contextId) →
  k ≠ Fs.resolve (getMetadataPath (dataDir cfg) contextId) →
  Fs.entries (disk (snd (delete_context_route net ts cfg contextId st))) !! k
  = Fs.entries (disk st) !! k.
Proof.
  intros Hc Hm.
  destruct (delete_context_route_local net ts cfg contextId st)
    as (_ & (-> & _) & _).
  unfold delete_context_route. rewrite no_tailscale_no_fan_out.
  pose proof (deleteContext_frame (dataDir cfg) contextId st k Hc Hm) as H.
  by destruct (deleteContext _ _ _) as [[|] st1].
Qed.

Lemma get_context_route_disk cfg contextId st :
  disk (snd (get_context_route cfg contextId st)) = disk st.
Proof.
  unfold get_context_route.
  pose proof (getContext_disk (dataDir cfg) contextId st) as H.
  destruct (getContext _ _ _) as [c st1].
  destruct (negb (truthy c)); [destruct (_ || _)|]; done.
Qed.

Lemma get_metadata_route_disk cfg contextId st :
  disk (snd (get_metadata_route cfg contextId st)) = disk st.
Proof.
  unfold get_metadata_route.
  pose proof (getMetadata_disk (dataDir cfg) contextId st) as H.
  destruct (getMetadata _ _ _) as [c st1].
  by destruct (negb (truthy c)).
Qed.

Lemma delete_context_route_status net ts cfg contextId st :
  status (fst (delete_context_route net ts cfg contextId st)) = 200
  ∨ status (fst (delete_context_route net ts cfg contextId st)) = 500.
Proof.
  destruct (delete_context_route_local net ts cfg contextId st) as (-> & _).
  unfold delete_context_route. rewrite no_tailscale_no_fan_out.
  destruct (deleteContext _ _ _) as [[|] st1]; cbn; auto.
Qed.

(** What a read of the payload answers depends on the disk only through the
    one location of the payload file. *)
Lemma get_context_route_reads_one_file cfg contextId st st' :
  contextCache st = contextCache st' →
  Fs.entries (disk st) !! Fs.resolve (getContextPath (dataDir cfg) contextId)
  = Fs.entries (disk st') !! Fs.resolve (getContextPath (dataDir cfg) contextId) →
  (Fs.resolve (getContextPath (dataDir cfg) contextId) ∈ Fs.broken (disk st)
   ↔ Fs.resolve (getContextPath (dataDir cfg) contextId) ∈ Fs.broken (disk st')) →
  fst (get_context_route cfg contextId st) = fst (get_context_route cfg contextId st').
Proof.
  intros Hc He Hb. unfold get_context_route, getContext. rewrite <- Hc.
  destruct (contextCache st !! contextId) as [c|];
    [destruct (truthy c); cbn; [done|by destruct (_ || _)]|].
  assert (read_json (getContextPath (dataDir cfg) contextId) st
          = read_json (getContextPath (dataDir cfg) contextId) st') as <-.
  { unfold read_json, Fs.readFile, Fs.guard. rewrite <- He.
    by rewrite (bool_decide_ext _ _ Hb). }
  destruct (read_json _ _) as [e|c]; [cbn; by destruct (_ || _)|].
  destruct (truthy c); cbn; [done|by destruct (_ || _)].
Qed.

(** ** The router *)

(** An identifier made of unreserved characters travels through the URL and
    the router unchanged. *)
Lemma unreserved_not_slash a : unreserved a = true → Ascii.eqb a Path.slash = false.
Proof.
  intros H. destruct (Ascii.eqb a Path.slash) eqn:E; [|done].
  apply Ascii.eqb_eq in E. subst a. discriminate H.
Qed.

Lemma all_unreserved_slash_free s : all_unreserved s = true → slash_free s = true.
Proof.
  induction s as [|a s IH]; [done|]. cbn [all_unreserved slash_free].
  intros [Ha Hs]%andb_true_iff. by rewrite (unreserved_not_slash a Ha), (IH Hs).
Qed.

Lemma all_unreserved_no_percent s :
  all_unreserved s = true → Path.includes "%" s = false.
Proof.
  induction s as [|a s IH]; [done|]. cbn [all_unreserved Path.includes].
  intros [Ha Hs]%andb_true_iff. rewrite (IH Hs), orb_false_r.
  cbn [String.prefix]. destruct (ascii_dec "%" a) as [<-|]; [discriminate Ha|done].
Qed.

Lemma url_safe_parts contextId :
  url_safe contextId = true →
  plain_segment contextId = true ∧ contextId ≠ ""
  ∧ slash_free contextId = true ∧ decode_param contextId = Some contextId.
Proof.
  unfold url_safe. intros [Hp Hne]%andb_true_iff. split; [done|].
  split; [intros ->; discriminate Hne|].
  unfold plain_segment in Hp.
  apply andb_true_iff in Hp as [[Hu _]%andb_true_iff _].
  split; [by apply all_unreserved_slash_free|].
  unfold decode_param. by rewrite all_unreserved_no_percent.
Qed.

Lemma split_contexts_id contextId :
  slash_free contextId = true →
  Path.split ("/contexts/" ++ contextId) = [""; "contexts"; contextId].
Proof.
  intros Hs. change ("/contexts/" ++ contextId) with ("/contexts" ++ "/" ++ contextId).
  by rewrite split_app_slash, (split_slash_free _ Hs).
Qed.

Lemma request_target_safe contextId :
  url_safe contextId = true →
  request_target ("/contexts/" ++ contextId) = Some ("/contexts/" ++ contextId).
Proof.
  intros H. destruct (url_safe_parts _ H) as (Hp & _ & Hs & _).
  unfold request_target. rewrite (split_contexts_id _ Hs).
  cbn [forallb]. rewrite Hp. reflexivity.
Qed.

Lemma dispatch_safe m contextId :
  url_safe contextId = true →
  dispatch m ("/contexts/" ++ contextId) = Some (handler_of m, [contextId]).
Proof.
  intros H. destruct (url_safe_parts _ H) as (_ & Hne & Hs & _).
  unfold dispatch, segments. rewrite (split_contexts_id _ Hs).
  destruct contextId as [|a rest]; [done|].
  by destruct m.
Qed.

Lemma match_pieces_nonempty pieces segs params :
  match_pieces pieces segs = Some params → Forall (fun raw => raw ≠ "") params.
Proof.
  revert segs params. induction pieces as [|[word|] pieces IH]; intros [|seg segs] params;
    cbn; try done.
  - intros [= <-]. constructor.
  - destruct (String.eqb (lowercase seg) word); [apply IH|done].
  - destruct (String.eqb seg "") eqn:E; [done|].
    destruct (match_pieces pieces segs) as [ps|] eqn:Hm; [|done].
    intros [= <-]. constructor; [|by eapply IH].
    intros ->. discriminate E.
Qed.

Lemma first_match_handles m segs rs h params :
  first_match (handles m segs) rs = Some (h, params) →
  ∃ pieces, (m, pieces, h) ∈ rs ∧ match_pieces pieces segs = Some params.
Proof.
  induction rs as [|[[m' pieces] h'] rs IH]; [done|]. cbn [first_match].
  destruct (handles m segs (m', pieces, h')) as [[h0 ps]|] eqn:E.
  - intros [= <- <-]. unfold handles in E.
    destruct (method_eqb m m') eqn:Hm; [|done].
    destruct (match_pieces pieces segs) as [ps'|] eqn:Hp; [|done].
    injection E as <- <-. exists pieces. split; [|done].
    destruct m, m'; try done; apply list_elem_of_here.
  - intros H. destruct (IH H) as (ps & Hin & Hp). exists ps.
    split; [by apply list_elem_of_further|done].
Qed.

Lemma dispatch_params_nonempty m pathname h params :
  dispatch m pathname = Some (h, params) → Forall (fun raw => raw ≠ "") params.
Proof.
  unfold dispatch. destruct (segments pathname) as [segs|]; [|done].
  intros (pieces & _ & Hp)%first_match_handles. by eapply match_pieces_nonempty.
Qed.

Lemma dispatch_never_all_stream m pathname params :
  dispatch m pathname ≠ Some (AllStream, params).
Proof.
  unfold dispatch. destruct (segments pathname) as [segs|]; [|done].
  destruct m; destruct segs as [|a [|b [|c [|d segs]]]]; cbn; try done;
    repeat (match goal with
            | |- context [String.eqb ?x ?y] =>
                lazymatch x with
                | lowercase _ => destruct (String.eqb x y) eqn:?
                | _ => lazymatch y with EmptyString => destruct (String.eqb x y) eqn:? end
                end
            end; cbn; try done).
  all: match goal with
       | H : String.eqb ?b EmptyString = true |- _ =>
           apply String.eqb_eq in H; subst b
       end; discriminate.
Qed.

Lemma dispatch_put_shape pathname h params :
  dispatch PUT pathname = Some (h, params) →
  ∃ raw, h = PutContext ∧ params = [raw]
         ∧ dispatch GET pathname = Some (GetContext, [raw]).
Proof.
  unfold dispatch. destruct (segments pathname) as [segs|]; [|done].
  destruct segs as [|a [|b [|c [|d segs]]]]; cbn; try done;
    destruct (String.eqb (lowercase a) "contexts") eqn:Ha; cbn; try done;
    destruct (String.eqb b "") eqn:Hb; cbn; try done.
  intros [= <- <-]. exists b. repeat split.
  by destruct (String.eqb (lowercase a) "health").
Qed.

Lemma http_get_safe cfg contextId st :
  url_safe contextId = true →
  http_get cfg ("/contexts/" ++ contextId) st
  = Some (Json (fst (get_context_route cfg contextId st)),
          snd (get_context_route cfg contextId st)).
Proof.
  intros H. unfold http_get.
  rewrite (request_target_safe _ H), (dispatch_safe GET _ H).
  destruct (url_safe_parts _ H) as (_ & _ & _ & ->). cbn [handler_of].
  by destruct (get_context_route cfg contextId st).
Qed.

Lemma http_put_safe net ts cfg contextId fields st :
  url_safe contextId = true →
  http_put net ts cfg ("/contexts/" ++ contextId) (Some (JObj fields)) st
  = Some (Json (fst (put_context_route net ts cfg contextId fields st)),
          snd (put_context_route net ts cfg contextId fields st)).
Proof.
  intros H. unfold http_put.
  rewrite (request_target_safe _ H), (dispatch_safe PUT _ H).
  destruct (url_safe_parts _ H) as (_ & _ & _ & ->). cbn [handler_of body_fields].
  by destruct (put_context_route net ts cfg contextId fields st).
Qed.

Lemma http_delete_safe net ts cfg contextId st :
  url_safe contextId = true →
  http_delete net ts cfg ("/contexts/" ++ contextId) st
  = Some (Json (fst (delete_context_route net ts cfg contextId st)),
          snd (delete_context_route net ts cfg contextId st)).
Proof.
  intros H. unfold http_delete.
  rewrite (request_target_safe _ H), (dispatch_safe DELETE _ H).
  destruct (url_safe_parts _ H) as (_ & _ & _ & ->). cbn [handler_of].
  by destruct (delete_context_route net ts cfg contextId st).
Qed.

(** C7 (as amended).  No identifier is rejected with 400.  The router hands
    no empty identifier to a handler: [PUT] and [DELETE] of [/contexts/] match
    no route and [GET /contexts/] is the listing.  For every identifier that
    is not empty: [PUT] answers 400 exactly when the payload is missing or
    falsy, and [GET] and [DELETE] never answer 400.  [PUT] and [DELETE]
    change no file other than the two files of the identifier,
    [path.join(dataDir, id + ".json")] and
    [path.join(dataDir, id + ".meta.json")], and the reads change none.
    When the identifier holds no path separator, these two files are entries
    of the data directory itself. *)
Theorem C7_no_identifier_is_rejected net ts cfg contextId reqBody st :
  contextId ≠ "" →
  (status (fst (put_context_route net ts cfg contextId reqBody st)) = 400
   ↔ truthy_opt (obj_get "context" reqBody) = false)
  ∧ status (fst (get_context_route cfg contextId st)) ≠ 400
  ∧ status (fst (delete_context_route net ts cfg contextId st)) ≠ 400
  ∧ (∀ k,
       k ≠ Fs.resolve (getContextPath (dataDir cfg) contextId) →
       k ≠ Fs.resolve (getMetadataPath (dataDir cfg) contextId) →
       Fs.entries (disk (snd (put_context_route net ts cfg contextId reqBody st))) !! k
       = Fs.entries (disk st) !! k
       ∧ Fs.entries (disk (snd (delete_context_route net ts cfg contextId st))) !! k
         = Fs.entries (disk st) !! k)
  ∧ disk (snd (get_context_route cfg contextId st)) = disk st
  ∧ disk (snd (get_metadata_route cfg contextId st)) = disk st
  ∧ (Path.includes "/" contextId = false →
     Fs.resolve (getContextPath (dataDir cfg) contextId)
     = child (dataDir cfg) (contextId ++ ".json")
     ∧ Fs.resolve (getMetadataPath (dataDir cfg) contextId)
       = child (dataDir cfg) (contextId ++ ".meta.json"))
  ∧ (∀ m pathname h params,
       dispatch m pathname = Some (h, params) →
       Forall (fun raw => raw ≠ "") params)
  ∧ dispatch PUT "/contexts/" = None
  ∧ dispatch DELETE "/contexts/" = None
  ∧ dispatch GET "/contexts/" = Some (ListContexts, []).
Proof.
  intros _.
  split; [apply put_context_route_400|].
  split; [by destruct (get_context_route_status cfg contextId st) as [-> | ->]|].
  split; [by destruct (delete_context_route_status net ts cfg contextId st)
            as [-> | ->]|].
  split; [intros k Hc Hm; split;
          [by apply put_context_route_frame|by apply delete_context_route_frame]|].
  split; [apply get_context_route_disk|].
  split; [apply get_metadata_route_disk|].
  split; [apply context_paths_in_data_dir|].
  split; [apply dispatch_params_nonempty|].
  repeat split.
Qed.

Lemma C7_no_identifier_is_rejected_witness :
  "c1" ≠ ""
  ∧ Path.includes "/" "c1" = false
  ∧ Fs.resolve (getContextPath "./data" "c1") = (false, ["data"; "c1.json"])
  ∧ Fs.resolve (getMetadataPath "./data" "c1") = (false, ["data"; "c1.meta.json"]).
Proof.
  assert ("c1" ≠ "") as Hne by discriminate.
  split; [exact Hne|]. split; [reflexivity|].
  destruct (C7_no_identifier_is_rejected silent None central_config "c1" []
              fresh_node Hne)
    as (_ & _ & _ & _ & _ & _ & Hin & _).
  exact (Hin eq_refl).
Defined.

(** C7, counterexample.  The identifier ["../x"] (sent as [..%2Fx]) is not
    rejected: [PUT] answers 200 and writes [x.json] and [x.meta.json] next to
    the data directory [data], not inside it.  An identifier with a NUL is
    answered 500, not 400. *)
Lemma C7_identifier_escapes_the_data_directory :
  status (fst s7_escaped) = 200
  ∧ Fs.resolve "./data" = (false, ["data"])
  ∧ Fs.entries (disk (snd s7_escaped)) !! (false, ["x.json"])
    = Some (Fs.File (Fs.JsonText (JObj [("x", JNum 1)])))
  ∧ is_Some (Fs.entries (disk (snd s7_escaped)) !! (false, ["x.meta.json"]))
  ∧ Fs.entries (disk fresh_node) !! (false, ["x.json"]) = None
  ∧ status (fst s7_nul) = 500.
Proof.
  vm_compute. repeat split; try reflexivity. by eexists.
Qed.

(** * Further properties of the server, its client and the integration *)

(** ** More on [saveContext] *)

(** X1.  The metadata a successful [saveContext] stores is an object whose
    [lastModified] is the reading of the clock and whose [size] is the length
    of the serialised payload, whatever the caller sent under these names;
    every other member the caller sent (except [version]) is stored as sent. *)
Theorem saveContext_metadata_fields baseDir contextId context metadata st updated st' :
  saveContext baseDir contextId context metadata st = (inr updated, st') →
  ∃ fields,
    updated = JObj fields
    ∧ obj_get "lastModified" fields = Some (JStr (clock st (ticks st)))
    ∧ obj_get "size" fields
      = Some (JNum (Z.of_nat (String.length (stringify context))))
    ∧ ∀ k, k ≠ "lastModified" → k ≠ "size" → k ≠ "version" →
        obj_get k fields = obj_get k (spread (default (JObj []) metadata)).
Proof.
  intros (Hu & _)%saveContext_success. unfold updated_metadata in Hu.
  destruct (get_prop _ "version") as [v|]; [|done].
  injection Hu as <-. eexists. split; [reflexivity|].
  split; [|split].
  - rewrite !obj_get_set_ne by done. apply obj_get_set_eq.
  - rewrite obj_get_set_ne by done. apply obj_get_set_eq.
  - intros k H1 H2 H3. by rewrite !obj_get_set_ne.
Qed.

Lemma saveContext_metadata_fields_witness :
  ∃ fields,
    fst (saveContext "./data" "c1" sample_payload
           (Some (JObj [("agentId", JStr "a1"); ("size", JNum 999)])) fresh_node)
    = inr (JObj fields)
    ∧ obj_get "size" fields = Some (JNum 7)
    ∧ obj_get "agentId" fields = Some (JStr "a1").
Proof.
  set (r := saveContext "./data" "c1" sample_payload
              (Some (JObj [("agentId", JStr "a1"); ("size", JNum 999)])) fresh_node).
  assert (fst r = inr (JObj [("agentId", JStr "a1"); ("size", JNum 7);
                             ("lastModified", JStr "2024-01-01T00:00:0Z");
                             ("version", JNum 1)])) as Hr
    by (vm_compute; reflexivity).
  destruct (saveContext_metadata_fields "./data" "c1" sample_payload
              (Some (JObj [("agentId", JStr "a1"); ("size", JNum 999)])) fresh_node
              _ (snd r)
              (eq_trans (surjective_pairing r) (f_equal (fun x => (x, snd r)) Hr)))
    as (fields & Hf & _ & Hsize & Hrest).
  exists fields. rewrite Hr, Hf. split; [reflexivity|]. split; [exact Hsize|].
  rewrite (Hrest "agentId") by discriminate. reflexivity.
Defined.

Lemma writeFile_success p txt fs fs' :
  Fs.writeFile p txt fs = inr fs' →
  Fs.guard fs p = None
  ∧ fs' = Fs.mk (<[Fs.resolve p := Fs.File txt]> (Fs.entries fs)) (Fs.broken fs).
Proof.
  unfold Fs.writeFile. destruct (Fs.guard fs p); [done|].
  destruct (Fs.entries fs !! Fs.resolve p) as [[t|]|]; try done;
    destruct (Fs.dir_exists fs _); intros [= <-]; done.
Qed.



(** ** More on [deleteContext] *)

(** X3.  [DELETE] of a context whose payload file does not exist answers 500
    and leaves the store as it was, on every server and whatever the peers. *)
Theorem delete_of_absent_context_answers_500 net ts cfg contextId st :
  Fs.entries (disk st) !! Fs.resolve (getContextPath (dataDir cfg) contextId) = None →
  fst (delete_context_route net ts cfg contextId st)
  = Response 500 (error_body "Failed to delete context")
  ∧ same_store (snd (delete_context_route net ts cfg contextId st)) st.
Proof.
  intros Habs. unfold delete_context_route, deleteContext, Fs.unlink.
  destruct (Fs.guard (disk st) _); [by cbn|].
  rewrite Habs. by cbn.
Qed.

Lemma delete_of_absent_context_answers_500_witness :
  fst (delete_context_route silent None central_config "nothing" fresh_node)
  = Response 500 (error_body "Failed to delete context").
Proof.
  apply (delete_of_absent_context_answers_500 silent None central_config
           "nothing" fresh_node).
  vm_compute. reflexivity.
Defined.

(** X4.  A [deleteContext] that fails emits nothing and evicts nothing from
    the caches, and never removes the metadata file: the only file it may have
    removed is the payload file. *)
Theorem failed_delete_keeps_caches baseDir contextId st st' :
  deleteContext baseDir contextId st = (false, st') →
  contextCache st' = contextCache st
  ∧ metadataCache st' = metadataCache st
  ∧ emitted st' = emitted st
  ∧ ∀ k, k ≠ Fs.resolve (getContextPath baseDir contextId) →
      Fs.entries (disk st') !! k = Fs.entries (disk st) !! k.
Proof.
  unfold deleteContext.
  destruct (Fs.unlink (getContextPath _ _) _) as [e1|d1] eqn:U1;
    [by intros [= <-]|].
  cbn [set_disk disk].
  destruct (Fs.unlink (getMetadataPath _ _) _) as [e2|d2] eqn:U2; [|done].
  intros [= <-]. cbn. repeat split.
  intros k Hk. by apply (unlink_frame _ _ _ k) in U1.
Qed.

Lemma failed_delete_keeps_caches_witness :
  fst (deleteContext "./data" "nothing" fresh_node) = false
  ∧ emitted (snd (deleteContext "./data" "nothing" fresh_node)) = [].
Proof.
  set (r := deleteContext "./data" "nothing" fresh_node).
  assert (fst r = false) as Hr by (vm_compute; reflexivity).
  split; [exact Hr|].
  destruct (failed_delete_keeps_caches "./data" "nothing" fresh_node (snd r)
              (eq_trans (surjective_pairing r) (f_equal (fun x => (x, snd r)) Hr)))
    as (_ & _ & He & _).
  exact He.
Defined.

(** ** [exists] *)

Lemma saveContext_payload_file baseDir contextId context metadata st updated st' :
  saveContext baseDir contextId context metadata st = (inr updated, st') →
  Fs.guard (disk st') (getContextPath baseDir contextId) = None
  ∧ ∃ txt, Fs.entries (disk st') !! Fs.resolve (getContextPath baseDir contextId)
           = Some (Fs.File txt).
Proof.
  intros (_ & _ & _ & _ & _ & d1 & W1 & W2)%saveContext_success.
  apply writeFile_success in W1 as [G1 ->]. apply writeFile_success in W2 as [_ ->].
  split; [exact G1|]. cbn.
  destruct (decide (Fs.resolve (getMetadataPath baseDir contextId)
                    = Fs.resolve (getContextPath baseDir contextId))) as [->|Hne].
  - rewrite lookup_insert_eq. by eexists.
  - rewrite lookup_insert_ne, lookup_insert_eq by done. by eexists.
Qed.

(** X5.  [exists] follows the disk: it is true after a successful
    [saveContext] and false after a successful [deleteContext] of the same
    identifier. *)
Theorem exists_after_save_and_delete baseDir contextId context metadata st updated st1 st2 :
  saveContext baseDir contextId context metadata st = (inr updated, st1) →
  deleteContext baseDir contextId st1 = (true, st2) →
  exists_ baseDir contextId st1 = true ∧ exists_ baseDir contextId st2 = false.
Proof.
  intros Hs Hd. split.
  - apply saveContext_payload_file in Hs as (Hg & txt & He).
    unfold exists_, Fs.readFile. by rewrite Hg, He.
  - apply deleteContext_success in Hd as (He & _).
    unfold exists_. by destruct (readFile_absent _ _ He) as [e ->].
Qed.

Lemma exists_after_save_and_delete_witness :
  exists_ "./data" "c1" (snd s_saved) = true
  ∧ exists_ "./data" "c1" (snd (deleteContext "./data" "c1" (snd s_saved))) = false.
Proof.
  set (d := deleteContext "./data" "c1" (snd s_saved)).
  assert (fst s_saved
          = inr (JObj [("lastModified", JStr "2024-01-01T00:00:0Z");
                       ("size", JNum 7); ("version", JNum 1)])) as Hr
    by (vm_compute; reflexivity).
  assert (fst d = true) as Hd by (vm_compute; reflexivity).
  exact (exists_after_save_and_delete "./data" "c1" sample_payload None fresh_node
           _ (snd s_saved) (snd d)
           (eq_trans (surjective_pairing s_saved)
                     (f_equal (fun x => (x, snd s_saved)) Hr))
           (eq_trans (surjective_pairing d) (f_equal (fun x => (x, snd d)) Hd))).
Defined.

(** ** Listing, continued *)

Lemma length_append s t : String.length (s ++ t) = (String.length s + String.length t)%nat.
Proof.
  induction s as [|a s IH]; [done|].
  change (String a s ++ t) with (String a (s ++ t)). cbn [String.length].
  by rewrite IH.
Qed.

Lemma append_eq_right s ext : s ++ ext = ext → s = "".
Proof.
  intros H%(f_equal String.length). rewrite length_append in H.
  destruct s; [done|cbn in H; lia].
Qed.

Lemma append_assoc_string a b c : (a ++ b) ++ c = a ++ (b ++ c).
Proof.
  induction a as [|x a IH]; [done|].
  change ((String x a ++ b) ++ c) with (String x ((a ++ b) ++ c)).
  by rewrite IH.
Qed.

Lemma append_inj_right s a b : s ++ a = s ++ b → a = b.
Proof.
  induction s as [|x s IH]; [done|].
  change (String x s ++ a) with (String x (s ++ a)).
  change (String x s ++ b) with (String x (s ++ b)).
  intros [= H]. by apply IH.
Qed.

Lemma basename_append contextId ext : Path.basename (contextId ++ ext) ext = contextId.
Proof.
  induction contextId as [|a contextId IH].
  - change ("" ++ ext) with ext.
    destruct ext; cbn [Path.basename]; by rewrite String.eqb_refl.
  - change (String a contextId ++ ext) with (String a (contextId ++ ext)).
    cbn [Path.basename].
    destruct (String.eqb (String a (contextId ++ ext)) ext) eqn:E.
    + apply String.eqb_eq in E.
      by apply (append_eq_right (String a contextId)) in E.
    + by rewrite IH.
Qed.

Lemma ends_with_append contextId ext : Path.ends_with ext (contextId ++ ext) = true.
Proof.
  induction contextId as [|a contextId IH].
  - change ("" ++ ext) with ext.
    destruct ext; cbn [Path.ends_with]; by rewrite String.eqb_refl.
  - change (String a contextId ++ ext) with (String a (contextId ++ ext)).
    cbn [Path.ends_with]. rewrite IH. apply orb_true_r.
Qed.

Lemma listContexts_contains baseDir contextId st files :
  Fs.readdir baseDir (disk st) = inr files →
  (contextId ++ ".json") ∈ files →
  Path.includes ".meta." (contextId ++ ".json") = false →
  contextId ∈ fst (listContexts baseDir st).
Proof.
  intros Hdir Hin Hno. unfold listContexts. rewrite Hdir. cbn [fst].
  apply list_elem_of_In, in_map_iff.
  exists (contextId ++ ".json"). split; [apply basename_append|].
  apply filter_In. split; [by apply list_elem_of_In|].
  by rewrite Hno, ends_with_append.
Qed.

(** X6.  When the data directory can be read, [listContexts] lists exactly
    the identifiers [id] for which the directory has an entry [id.json] whose
    name does not contain [".meta."]. *)
Theorem listContexts_lists_json_entries baseDir contextId st files :
  Fs.readdir baseDir (disk st) = inr files →
  contextId ∈ fst (listContexts baseDir st)
  ↔ (contextId ++ ".json") ∈ files
    ∧ Path.includes ".meta." (contextId ++ ".json") = false.
Proof.
  intros Hdir. split; [|intros [Hin Hno]; by eapply listContexts_contains].
  unfold listContexts. rewrite Hdir. cbn [fst].
  intros Hin%list_elem_of_In. apply in_map_iff in Hin as (file & Hb & Hf).
  apply filter_In in Hf as [Hf [Hno He]%andb_true_iff].
  apply ends_with_basename in He. rewrite Hb in He. subst file.
  split; [by apply list_elem_of_In|by apply negb_true_iff].
Qed.

Lemma listContexts_lists_json_entries_witness :
  Fs.readdir "./data" (disk (snd s_saved)) = inr ["c1.meta.json"; "c1.json"]
  ∧ "c1" ∈ fst (listContexts "./data" (snd s_saved)).
Proof.
  assert (Fs.readdir "./data" (disk (snd s_saved)) = inr ["c1.meta.json"; "c1.json"])
    as Hdir by (vm_compute; reflexivity).
  split; [exact Hdir|].
  apply (listContexts_lists_json_entries "./data" "c1" (snd s_saved) _ Hdir).
  split; [|reflexivity]. apply elem_of_cons. right. apply elem_of_cons. by left.
Defined.

Lemma child_name_child d name :
  Fs.child_name (Fs.resolve d) (child d name) = Some name.
Proof.
  unfold Fs.child_name, child. cbn [fst snd].
  rewrite bool_decide_eq_true_2; [apply last_snoc|].
  split; [done|]. split; [by destruct (snd (Fs.resolve d))|apply removelast_last].
Qed.

Lemma readdir_lists_entries baseDir fs files name e :
  Fs.readdir baseDir fs = inr files →
  Fs.entries fs !! child baseDir name = Some e →
  name ∈ files.
Proof.
  unfold Fs.readdir. destruct (Fs.guard fs baseDir); [done|].
  destruct (Fs.dir_exists fs _); [|done]. intros [= <-] He.
  apply list_elem_of_omap. exists (child baseDir name, e). split.
  - by apply elem_of_map_to_list.
  - apply child_name_child.
Qed.

(** X7.  Save, then list: an identifier without path separator whose file
    name [id.json] does not contain [".meta."] is listed after a successful
    [saveContext], whenever the data directory can be read. *)
Theorem saved_context_is_listed baseDir contextId context metadata st updated st' files :
  Path.includes "/" contextId = false →
  Path.includes ".meta." (contextId ++ ".json") = false →
  saveContext baseDir contextId context metadata st = (inr updated, st') →
  Fs.readdir baseDir (disk st') = inr files →
  contextId ∈ fst (listContexts baseDir st').
Proof.
  intros Hfree Hmeta Hs Hdir.
  apply (listContexts_contains _ _ _ _ Hdir); [|done].
  apply saveContext_payload_file in Hs as (_ & txt & He).
  destruct (context_paths_in_data_dir baseDir contextId Hfree) as [Hc _].
  rewrite Hc in He. by eapply readdir_lists_entries.
Qed.

Lemma saved_context_is_listed_witness :
  "c1" ∈ fst (listContexts "./data" (snd s_saved)).
Proof.
  assert (fst s_saved
          = inr (JObj [("lastModified", JStr "2024-01-01T00:00:0Z");
                       ("size", JNum 7); ("version", JNum 1)])) as Hr
    by (vm_compute; reflexivity).
  assert (Fs.readdir "./data" (disk (snd s_saved)) = inr ["c1.meta.json"; "c1.json"])
    as Hdir by (vm_compute; reflexivity).
  exact (saved_context_is_listed "./data" "c1" sample_payload None fresh_node _
           (snd s_saved) _ eq_refl eq_refl
           (eq_trans (surjective_pairing s_saved)
                     (f_equal (fun x => (x, snd s_saved)) Hr))
           Hdir).
Defined.

(** ** Two identifiers, one file *)

Lemma slash_free_includes s : slash_free s = true → Path.includes "/" s = false.
Proof.
  induction s as [|a s IH]; [done|]. cbn [slash_free Path.includes].
  intros [Ha%negb_true_iff Hs]%andb_true_iff. rewrite (IH Hs), orb_false_r.
  cbn [String.prefix]. destruct (ascii_dec "/" a) as [<-|]; [|done].
  by rewrite Ascii.eqb_refl in Ha.
Qed.

(** X8.  The payload file of the identifier [id.meta] is the metadata file of
    [id].  So after a successful save under [id.meta] (an identifier without
    path separator), a server that does not hold the metadata of [id] in its
    cache reads the payload of [id.meta] as the metadata of [id]. *)
Theorem meta_suffix_shares_the_metadata_file
    baseDir contextId context metadata st updated st' :
  Path.includes "/" contextId = false →
  saveContext baseDir (contextId ++ ".meta") context metadata st = (inr updated, st') →
  metadataCache st' !! contextId = None →
  getContextPath baseDir (contextId ++ ".meta") = getMetadataPath baseDir contextId
  ∧ fst (getMetadata baseDir contextId st') = context.
Proof.
  intros Hfree Hs Hcache.
  assert (getContextPath baseDir (contextId ++ ".meta")
          = getMetadataPath baseDir contextId) as Hpath.
  { unfold getContextPath, getMetadataPath. by rewrite append_assoc_string. }
  split; [exact Hpath|].
  assert (Path.includes "/" (contextId ++ ".meta") = false) as Hfree'.
  { apply slash_free_includes, slash_free_app; [by apply includes_slash_free|done]. }
  destruct (context_paths_in_data_dir baseDir _ Hfree') as [Hc Hm].
  apply saveContext_success in Hs as (_ & _ & _ & _ & _ & d1 & W1 & W2).
  apply writeFile_success in W1 as [G1 ->]. apply writeFile_success in W2 as [_ E2].
  unfold getMetadata, read_json, Fs.readFile. rewrite Hcache, <- Hpath.
  unfold Fs.guard in *. rewrite E2. cbn [Fs.broken Fs.entries] in *.
  rewrite G1. rewrite lookup_insert_ne, lookup_insert_eq; [done|].
  rewrite Hc, Hm. unfold child. intros [= H%app_inj_tail].
  destruct H as [_ H]. rewrite !append_assoc_string in H.
  by apply append_inj_right, append_inj_right in H.
Qed.

Lemma meta_suffix_shares_the_metadata_file_witness :
  fst (getMetadata "./data" "c1"
         (snd (saveContext "./data" "c1.meta" sample_payload None fresh_node)))
  = sample_payload.
Proof.
  set (r := saveContext "./data" "c1.meta" sample_payload None fresh_node).
  assert (fst r = inr (JObj [("lastModified", JStr "2024-01-01T00:00:0Z");
                             ("size", JNum 7); ("version", JNum 1)])) as Hr
    by (vm_compute; reflexivity).
  assert (metadataCache (snd r) !! "c1" = None) as Hc by (vm_compute; reflexivity).
  exact (proj2 (meta_suffix_shares_the_metadata_file "./data" "c1" sample_payload None
                  fresh_node _ (snd r) eq_refl
                  (eq_trans (surjective_pairing r) (f_equal (fun x => (x, snd r)) Hr))
                  Hc)).
Defined.

(** ** Catch-up, one entry *)

(** X9.  The guard of the catch-up loop: an entry whose version on the
    central server is a number not above the (numeric) version the replica
    holds in its metadata cache is left alone.  The replica only writes the
    line "is up to date" and sends no request to the central server. *)
Theorem sync_entry_skips_up_to_date
    cfg ccfg local central fields contextId centralMetadata localMetadata m n :
  obj_get "id" fields = Some (JStr contextId) →
  obj_get "metadata" fields = Some centralMetadata →
  metadataCache local !! contextId = Some localMetadata →
  version_field localMetadata = Some (JNum m) →
  version_field centralMetadata = Some (JNum n) →
  n ≤ m →
  sync_entry cfg ccfg (Completed, (local, central)) (JObj fields)
  = (Completed,
     (console_log ("Context " ++ contextId ++ " is up to date (version: "
                   ++ pretty m ++ ")") [] local,
      central)).
Proof.
  intros Hid Hmd Hcache Hl Hc Hle. unfold sync_entry.
  rewrite Hid, Hmd. unfold getMetadata. rewrite Hcache.
  unfold version_field in Hl, Hc.
  destruct localMetadata as [| | | | |lf]; try done.
  destruct centralMetadata as [| | | | |cf]; try done.
  cbn in Hl, Hc. unfold version_of, needs_sync. cbn [get_prop truthy negb default].
  rewrite Hl, Hc. unfold id. cbn [lt to_prim show to_string].
  by rewrite (proj2 (Z.ltb_ge m n) Hle).
Qed.

Lemma sync_entry_skips_up_to_date_witness :
  metadataCache s3_regional !! "c1"
  = Some (JObj [("version", JNum 6);
                ("lastModified", JStr "2024-01-01T00:00:0Z"); ("size", JNum 7)])
  ∧ sync_entry regional_config central_config (Completed, (s3_regional, s3_central))
      (JObj [("id", JStr "c1"); ("metadata", JObj [("version", JNum 6)])])
    = (Completed,
       (console_log ("Context " ++ "c1" ++ " is up to date (version: "
                     ++ pretty 6 ++ ")") [] s3_regional,
        s3_central)).
Proof.
  assert (metadataCache s3_regional !! "c1"
          = Some (JObj [("version", JNum 6);
                        ("lastModified", JStr "2024-01-01T00:00:0Z");
                        ("size", JNum 7)])) as Hcache
    by (vm_compute; reflexivity).
  split; [exact Hcache|].
  apply (sync_entry_skips_up_to_date regional_config central_config
           s3_regional s3_central
           [("id", JStr "c1"); ("metadata", JObj [("version", JNum 6)])]
           "c1" (JObj [("version", JNum 6)]) _ 6 6 eq_refl eq_refl Hcache eq_refl eq_refl).
  lia.
Defined.

(** ** Peer discovery and the requests of the fan-out *)

Lemma discoverRegionalServers_result ts st :
  fst (discoverRegionalServers ts st) = regional_servers ts.
Proof.
  unfold discoverRegionalServers, regional_servers.
  destruct ts as [t|]; [|done]. destruct (isRunning t); [|done].
  by destruct (getPeers t).
Qed.

(** X10.  [discoverRegionalServers] yields exactly the peers that
    [getPeers] reports as online and tagged [tag:regional] or
    [type:regional], and only when the integration is running; it yields
    nothing when there is no integration, when it is not running, or when
    [getPeers] fails. *)
Theorem discovered_servers_are_online_regionals ts st p :
  p ∈ fst (discoverRegionalServers ts st)
  ↔ ∃ t peers,
      ts = Some t ∧ isRunning t = true ∧ getPeers t = inr peers
      ∧ p ∈ peers ∧ online p = true
      ∧ (has_tag "tag:regional" p = true ∨ has_tag "type:regional" p = true).
Proof.
  rewrite discoverRegionalServers_result. unfold regional_servers. split.
  - destruct ts as [t|]; [|by intros ?%elem_of_nil].
    destruct (isRunning t) eqn:Hr; [|by intros ?%elem_of_nil].
    destruct (getPeers t) as [m|peers] eqn:Hp; [by intros ?%elem_of_nil|].
    intros Hin%list_elem_of_In. apply filter_In in Hin as [Hin [Ho Ht]%andb_true_iff].
    exists t, peers. repeat split; try done; [by apply list_elem_of_In|].
    by apply orb_true_iff.
  - intros (t & peers & -> & -> & -> & Hin & Ho & Ht).
    apply list_elem_of_In, filter_In. split; [by apply list_elem_of_In|].
    rewrite Ho. by apply orb_true_iff.
Qed.

Lemma propagate_loop_requests net cfg contextId context metadata servers results st :
  sent (snd (fold_left (propagate_one net cfg contextId context metadata) servers
                       (results, st)))
  = app (sent st) (List.map (put_request cfg contextId context metadata) servers)
  ∧ length (fst (fold_left (propagate_one net cfg contextId context metadata) servers
                           (results, st)))
    = (length results + length servers)%nat.
Proof.
  revert results st. induction servers as [|server servers IH]; intros results st.
  - cbn. by rewrite app_nil_r, Nat.add_0_r.
  - cbn [fold_left List.map length].
    destruct (propagate_one net cfg contextId context metadata (results, st) server)
      as [results' st'] eqn:E.
    destruct (IH results' st') as [-> ->].
    unfold propagate_one in E. fold (put_request cfg contextId context metadata server) in E.
    destruct (net _) as [m|[code data]]; injection E as <- <-;
      cbn; rewrite <- app_assoc, length_app; cbn; split; [done|lia|done|lia].
Qed.

(** X11.  [propagateToRegionals] sends exactly one [PUT] to each online
    regional server, in the order of the peer list, to
    [http://<ip>:<own port>/contexts/<id>], with the payload and the metadata
    as its body and a timeout of 10000 ms; it reports one result per
    server. *)
Theorem propagateToRegionals_requests net ts cfg contextId context metadata st :
  sent (snd (propagateToRegionals net ts cfg contextId context metadata st))
  = app (sent st)
        (List.map (put_request cfg contextId context metadata) (regional_servers ts))
  ∧ length (fst (propagateToRegionals net ts cfg contextId context metadata st))
    = length (regional_servers ts).
Proof.
  unfold propagateToRegionals.
  pose proof (discoverRegionalServers_result ts st) as Hd.
  pose proof (discoverRegionalServers_effect net ts st) as [_ (reqs & lines & Hs & _)].
  assert (sent (snd (discoverRegionalServers ts st)) = sent st) as Hsent.
  { unfold discoverRegionalServers.
    destruct ts as [t|]; [destruct (isRunning t); [destruct (getPeers t)|]|]; done. }
  destruct (discoverRegionalServers ts st) as [servers st1]. cbn [fst snd] in *.
  subst servers.
  destruct (propagate_loop_requests net cfg contextId context metadata
              (regional_servers ts) [] st1) as [-> ->].
  by rewrite Hsent.
Qed.

Lemma propagate_deletion_loop_requests net cfg contextId servers results st :
  sent (snd (fold_left (propagate_deletion_one net cfg contextId) servers (results, st)))
  = app (sent st) (List.map (delete_request cfg contextId) servers)
  ∧ length (fst (fold_left (propagate_deletion_one net cfg contextId) servers
                           (results, st)))
    = (length results + length servers)%nat.
Proof.
  revert results st. induction servers as [|server servers IH]; intros results st.
  - cbn. by rewrite app_nil_r, Nat.add_0_r.
  - cbn [fold_left List.map length].
    destruct (propagate_deletion_one net cfg contextId (results, st) server)
      as [results' st'] eqn:E.
    destruct (IH results' st') as [-> ->].
    unfold propagate_deletion_one in E. fold (delete_request cfg contextId server) in E.
    destruct (net _) as [m|[code data]]; injection E as <- <-;
      cbn; rewrite <- app_assoc, length_app; cbn; split; [done|lia|done|lia].
Qed.

(** X12.  [propagateDeletionToRegionals] sends exactly one [DELETE], without
    body, to each online regional server, in the order of the peer list, and
    reports one result per server. *)
Theorem propagateDeletionToRegionals_requests net ts cfg contextId st :
  sent (snd (propagateDeletionToRegionals net ts cfg contextId st))
  = app (sent st) (List.map (delete_request cfg contextId) (regional_servers ts))
  ∧ length (fst (propagateDeletionToRegionals net ts cfg contextId st))
    = length (regional_servers ts).
Proof.
  unfold propagateDeletionToRegionals.
  pose proof (discoverRegionalServers_result ts st) as Hd.
  assert (sent (snd (discoverRegionalServers ts st)) = sent st) as Hsent.
  { unfold discoverRegionalServers.
    destruct ts as [t|]; [destruct (isRunning t); [destruct (getPeers t)|]|]; done. }
  destruct (discoverRegionalServers ts st) as [servers st1]. cbn [fst snd] in *.
  subst servers.
  destruct (propagate_deletion_loop_requests net cfg contextId
              (regional_servers ts) [] st1) as [-> ->].
  by rewrite Hsent.
Qed.

(** ** The order of events in [PUT] and [DELETE] *)

Lemma saveContext_sent baseDir contextId context metadata st :
  sent (snd (saveContext baseDir contextId context metadata st)) = sent st.
Proof.
  unfold saveContext. cbn [read_clock].
  destruct (updated_metadata _ _ _) as [u|]; [|done]. cbn [disk].
  destruct (Fs.writeFile (getContextPath _ _) _ _) as [e|d1]; [done|].
  cbn [set_disk disk].
  by destruct (Fs.writeFile (getMetadataPath _ _) _ _) as [e|d2].
Qed.

Lemma deleteContext_sent baseDir contextId st :
  sent (snd (deleteContext baseDir contextId st)) = sent st.
Proof.
  unfold deleteContext.
  destruct (Fs.unlink (getContextPath _ _) _) as [e|d1]; [done|].
  by destruct (Fs.unlink (getMetadataPath _ _) _) as [e|d2].
Qed.

Lemma discoverRegionalServers_sent ts st :
  sent (snd (discoverRegionalServers ts st)) = sent st.
Proof.
  unfold discoverRegionalServers.
  destruct ts as [t|]; [destruct (isRunning t); [destruct (getPeers t)|]|]; done.
Qed.

Lemma propagateToRegionals_sent net ts cfg contextId context metadata st :
  sent (snd (propagateToRegionals net ts cfg contextId context metadata st))
  = app (sent st)
        (List.map (put_request cfg contextId context metadata) (regional_servers ts)).
Proof.
  unfold propagateToRegionals.
  pose proof (discoverRegionalServers_result ts st) as Hd.
  pose proof (discoverRegionalServers_sent ts st) as Hs.
  destruct (discoverRegionalServers ts st) as [servers st1]. cbn [fst snd] in *.
  subst servers.
  destruct (propagate_loop_requests net cfg contextId context metadata
              (regional_servers ts) [] st1) as [-> _].
  by rewrite Hs.
Qed.

Lemma propagateDeletionToRegionals_sent net ts cfg contextId st :
  sent (snd (propagateDeletionToRegionals net ts cfg contextId st))
  = app (sent st) (List.map (delete_request cfg contextId) (regional_servers ts)).
Proof.
  unfold propagateDeletionToRegionals.
  pose proof (discoverRegionalServers_result ts st) as Hd.
  pose proof (discoverRegionalServers_sent ts st) as Hs.
  destruct (discoverRegionalServers ts st) as [servers st1]. cbn [fst snd] in *.
  subst servers.
  destruct (propagate_deletion_loop_requests net cfg contextId
              (regional_servers ts) [] st1) as [-> _].
  by rewrite Hs.
Qed.

Lemma discoverRegionalServers_run_afterwards ts :
  afterwards (discoverRegionalServers_run ts) = [].
Proof. destruct ts as [t|]; [|done]. cbn. by destruct (isRunning t). Qed.

(** The moments of a [PUT] are those of its handler: one answer, the
    handler's, followed by the requests the handler sends; what comes before
    the answer is the call of the fan-out, made when the save succeeded on a
    central server that has a Tailscale instance. *)
Lemma put_context_moments_agree net ts cfg contextId reqBody st :
  ∃ reqs,
    put_context_moments ts cfg contextId reqBody st
    = app (if (status (fst (put_context_route net ts cfg contextId reqBody st)) =? 200)
              && String.eqb (serverType cfg) "central" && bool_decide (is_Some ts)
           then at_once (discoverRegionalServers_run ts) else [])
          (Answer (fst (put_context_route net ts cfg contextId reqBody st))
           :: List.map Http reqs)
    ∧ sent (snd (put_context_route net ts cfg contextId reqBody st))
      = app (sent st) reqs.
Proof.
  unfold put_context_moments, put_context_route.
  destruct (obj_get "context" reqBody) as [v|];
    [|exists []; cbn; by rewrite app_nil_r].
  destruct (truthy v); [|exists []; cbn; by rewrite app_nil_r].
  pose proof (saveContext_sent (dataDir cfg) contextId v
                (Some (default (JObj []) (obj_get "metadata" reqBody))) st) as Hs.
  destruct (saveContext _ _ _ _ _) as [[e|u] st1]; cbn [snd] in Hs;
    [exists []; cbn; by rewrite Hs, app_nil_r|].
  destruct (String.eqb (serverType cfg) "central" && bool_decide (is_Some ts)) eqn:Hc.
  - pose proof (propagateToRegionals_sent net ts cfg contextId v u st1) as Hp.
    destruct (propagateToRegionals _ _ _ _ _ _ _) as [results st2].
    cbn [snd] in Hp. cbn [fst snd status Z.eqb Pos.eqb andb].
    rewrite Hc.
    exists (List.map (put_request cfg contextId v u) (regional_servers ts)).
    unfold call_then_answer, propagateToRegionals_run, await_then.
    cbn [at_once afterwards].
    rewrite discoverRegionalServers_run_afterwards, List.map_map.
    split; [done|]. cbn. by rewrite Hp, Hs.
  - cbn [fst snd status Z.eqb Pos.eqb andb]. rewrite Hc.
    exists []. cbn. by rewrite Hs, app_nil_r.
Qed.

Lemma delete_context_moments_agree net ts cfg contextId st :
  ∃ reqs,
    delete_context_moments ts cfg contextId st
    = app (if (status (fst (delete_context_route net ts cfg contextId st)) =? 200)
              && String.eqb (serverType cfg) "central" && bool_decide (is_Some ts)
           then at_once (discoverRegionalServers_run ts) else [])
          (Answer (fst (delete_context_route net ts cfg contextId st))
           :: List.map Http reqs)
    ∧ sent (snd (delete_context_route net ts cfg contextId st))
      = app (sent st) reqs.
Proof.
  unfold delete_context_moments, delete_context_route.
  pose proof (deleteContext_sent (dataDir cfg) contextId st) as Hs.
  destruct (deleteContext _ _ _) as [[|] st1]; cbn [snd negb] in *;
    [|exists []; cbn; by rewrite Hs, app_nil_r].
  destruct (String.eqb (serverType cfg) "central" && bool_decide (is_Some ts)) eqn:Hc.
  - pose proof (propagateDeletionToRegionals_sent net ts cfg contextId st1) as Hp.
    destruct (propagateDeletionToRegionals _ _ _ _ _) as [results st2].
    cbn [snd] in Hp. cbn [fst snd status Z.eqb Pos.eqb andb].
    rewrite Hc.
    exists (List.map (delete_request cfg contextId) (regional_servers ts)).
    unfold call_then_answer, propagateDeletionToRegionals_run, await_then.
    cbn [at_once afterwards].
    rewrite discoverRegionalServers_run_afterwards, List.map_map.
    split; [done|]. cbn. by rewrite Hp, Hs.
  - cbn [fst snd status Z.eqb Pos.eqb andb]. rewrite Hc.
    exists []. cbn. by rewrite Hs, app_nil_r.
Qed.

(** On a central server whose integration runs, every [PUT] and every
    [DELETE] that succeeds runs [tailscale status --json] before it answers;
    on any other server, and when the operation fails, nothing comes before
    the answer. *)
Lemma running_integration_blocks_the_answer net t cfg contextId reqBody st :
  serverType cfg = "central" →
  isRunning t = true →
  (status (fst (put_context_route net (Some t) cfg contextId reqBody st)) = 200 →
   ∃ reqs,
     put_context_moments (Some t) cfg contextId reqBody st
     = Exec "tailscale status --json"
       :: Answer (fst (put_context_route net (Some t) cfg contextId reqBody st))
       :: List.map Http reqs)
  ∧ (status (fst (delete_context_route net (Some t) cfg contextId st)) = 200 →
     ∃ reqs,
       delete_context_moments (Some t) cfg contextId st
       = Exec "tailscale status --json"
         :: Answer (fst (delete_context_route net (Some t) cfg contextId st))
         :: List.map Http reqs).
Proof.
  intros Hc Hr. split; intros Hok.
  - destruct (put_context_moments_agree net (Some t) cfg contextId reqBody st)
      as (reqs & -> & _).
    exists reqs. rewrite Hok, Hc. cbn. by rewrite Hr.
  - destruct (delete_context_moments_agree net (Some t) cfg contextId st)
      as (reqs & -> & _).
    exists reqs. rewrite Hok, Hc. cbn. by rewrite Hr.
Qed.

(** ** The stream routes *)

Lemma context_stream_step_closed contextId xs s :
  listening s = false → fold_left (context_stream_step contextId) xs s = s.
Proof.
  intros Hs. induction xs as [|[what now] xs IH]; [done|].
  cbn [fold_left]. unfold context_stream_step at 2. by rewrite Hs.
Qed.

Lemma all_stream_step_closed q1 q2 xs s :
  listening s = false → fold_left (all_stream_step q1 q2) xs s = s.
Proof.
  intros Hs. induction xs as [|[what now] xs IH]; [done|].
  cbn [fold_left]. unfold all_stream_step at 2. by rewrite Hs.
Qed.



(** X14.  The per-context stream ends with the deletion of its context: the
    [delete] frame is the last frame, [res.end()] is called, and nothing that
    happens afterwards is written. *)
Theorem context_stream_ends_on_delete contextId now xs t ys :
  listening (context_stream contextId now xs) = true →
  context_stream contextId now (app xs ((Emitted (contextDeleted contextId), t) :: ys))
  = Stream (app (written (context_stream contextId now xs)) [delete_frame contextId t])
           false true
           (stream_console (context_stream contextId now xs)).
Proof.
  intros Hl. unfold context_stream in *. rewrite fold_left_app. cbn [fold_left].
  set (s := fold_left _ xs _) in *.
  rewrite context_stream_step_closed.
  - unfold context_stream_step. by rewrite Hl, String.eqb_refl.
  - unfold context_stream_step. by rewrite Hl, String.eqb_refl.
Qed.

Lemma context_stream_ends_on_delete_witness :
  written (context_stream "c1" "t0"
             [(Emitted (contextDeleted "c1"), "t1");
              (Emitted (contextUpdated "c1" JNull), "t2"); (PingTimer, "t3")])
  = [JObj [("event", JStr "connected"); ("contextId", JStr "c1");
           ("timestamp", JStr "t0")];
     delete_frame "c1" "t1"].
Proof.
  exact (f_equal written
           (context_stream_ends_on_delete "c1" "t0" [] "t1"
              [(Emitted (contextUpdated "c1" JNull), "t2"); (PingTimer, "t3")]
              eq_refl)).
Defined.

(** X15.  No request reaches the handler of [GET /contexts/stream]: the
    route [/contexts/:contextId], registered before it, matches every
    pathname that [/contexts/stream] matches.  [GET /contexts/stream] is
    answered as a read of the context named [stream]. *)
Theorem all_contexts_stream_is_shadowed cfg st :
  (∀ m pathname params, dispatch m pathname ≠ Some (AllStream, params))
  ∧ dispatch GET "/contexts/stream" = Some (GetContext, ["stream"])
  ∧ http_get cfg "/contexts/stream" st
    = Some (Json (fst (get_context_route cfg "stream" st)),
            snd (get_context_route cfg "stream" st)).
Proof.
  split; [apply dispatch_never_all_stream|]. split; [reflexivity|].
  apply (http_get_safe cfg "stream" st). reflexivity.
Qed.

(** X16.  Once the client has closed the connection, neither stream writes
    anything more, whatever is emitted afterwards. *)
Theorem closed_streams_are_silent cfg contextId q1 q2 now xs t ys :
  written (context_stream contextId now (app xs ((ClientClosed, t) :: ys)))
  = written (context_stream contextId now xs)
  ∧ written (all_stream cfg q1 q2 now (app xs ((ClientClosed, t) :: ys)))
    = written (all_stream cfg q1 q2 now xs).
Proof.
  unfold context_stream, all_stream. rewrite !fold_left_app. cbn [fold_left]. split.
  - set (s := fold_left _ xs _). rewrite context_stream_step_closed.
    + unfold context_stream_step. by destruct (listening s).
    + unfold context_stream_step. by destruct (listening s) eqn:E.
  - set (s := fold_left _ xs _). rewrite all_stream_step_closed.
    + unfold all_stream_step. by destruct (listening s).
    + unfold all_stream_step. by destruct (listening s) eqn:E.
Qed.

(** ** The client's cache *)

Lemma obj_set_keys k v m :
  List.map fst (obj_set k v m)
  = if map_has k m then List.map fst m else app (List.map fst m) [k].
Proof.
  unfold map_has. induction m as [|[k' v'] m IH]; [done|].
  cbn [obj_set obj_get]. destruct (String.eqb k' k) eqn:E.
  - apply String.eqb_eq in E. by subst k'.
  - cbn [List.map fst]. rewrite IH. by destruct (obj_get k m).
Qed.

Lemma map_has_keys k m : map_has k m = true ↔ k ∈ List.map fst m.
Proof.
  unfold map_has. induction m as [|[k' v'] m IH]; cbn [obj_get List.map fst].
  - split; [done|by intros ?%elem_of_nil].
  - destruct (String.eqb k' k) eqn:E.
    + apply String.eqb_eq in E. subst k'. split; [intros _; by left|done].
    + apply String.eqb_neq in E. rewrite IH. split; [by right|].
      by intros [?|?]%elem_of_cons.
Qed.

Lemma map_delete_keys k m :
  List.map fst (map_delete k m)
  = List.filter (fun k' => negb (String.eqb k' k)) (List.map fst m).
Proof.
  unfold map_delete. induction m as [|[k' v'] m IH]; [done|].
  cbn [List.filter List.map fst]. destruct (negb (String.eqb k' k)); cbn; by rewrite IH.
Qed.

Lemma map_delete_oldest k v m :
  k ∉ List.map fst m → map_delete k ((k, v) :: m) = m.
Proof.
  intros Hk. unfold map_delete. cbn [List.filter fst]. rewrite String.eqb_refl.
  cbn [negb]. induction m as [|[k' v'] m IH]; [done|].
  cbn [List.filter fst]. cbn [List.map fst] in Hk.
  apply not_elem_of_cons in Hk as [Hne Hk]. apply not_eq_sym, String.eqb_neq in Hne.
  rewrite Hne. cbn [negb]. by rewrite IH.
Qed.

Lemma NoDup_list_filter {A} (f : A → bool) (l : list A) :
  NoDup l → NoDup (List.filter f l).
Proof.
  induction 1 as [|x l Hx Hl IH]; cbn [List.filter]; [constructor|].
  destruct (f x); [|done]. apply NoDup_cons. split; [|done].
  intros Hin%list_elem_of_In. apply filter_In in Hin as [Hin _].
  by apply Hx, list_elem_of_In.
Qed.

Lemma obj_set_length k v m : (length (obj_set k v m) ≤ S (length m))%nat.
Proof.
  induction m as [|[k' v'] m IH]; cbn [obj_set length]; [lia|].
  destruct (String.eqb k' k); cbn [length]; lia.
Qed.

Lemma NoDup_keys_set k v m : NoDup (List.map fst m) → NoDup (List.map fst (obj_set k v m)).
Proof.
  intros Hm. rewrite obj_set_keys. destruct (map_has k m) eqn:E; [done|].
  apply NoDup_app. split; [done|]. split; [|apply NoDup_singleton].
  intros x Hx ->%list_elem_of_singleton.
  apply map_has_keys in Hx. congruence.
Qed.

(** X17.  [updateCache] keeps the cache a map of at most [cacheMaxSize]
    entries (for a positive [cacheMaxSize]), and the entry just written can
    always be read back, also when it was the one evicted. *)
Theorem updateCache_keeps_the_bound contextId context m max :
  1 ≤ max →
  NoDup (List.map fst m) →
  Z.of_nat (length m) ≤ max →
  NoDup (List.map fst (updateCache contextId context m max))
  ∧ Z.of_nat (length (updateCache contextId context m max)) ≤ max
  ∧ obj_get contextId (updateCache contextId context m max) = Some context.
Proof.
  intros Hmax Hm Hlen. unfold updateCache.
  split; [|split; [|apply obj_get_set_eq]].
  - apply NoDup_keys_set.
    destruct (Z.of_nat (length m) >=? max); [|done].
    destruct m as [|[k v] m]; [done|].
    rewrite map_delete_keys. by apply NoDup_list_filter.
  - destruct (Z.of_nat (length m) >=? max) eqn:E.
    + destruct m as [|[k v] m]; [cbn in *; lia|].
      cbn [List.map fst] in Hm. apply NoDup_cons in Hm as [Hk _].
      rewrite map_delete_oldest by done.
      pose proof (obj_set_length contextId context m). cbn [length] in Hlen. lia.
    + pose proof (obj_set_length contextId context m). lia.
Qed.

Lemma updateCache_keeps_the_bound_witness :
  length (updateCache "c" JNull [("a", JNum 1); ("b", JNum 2)] 2) = 2%nat
  ∧ obj_get "c" (updateCache "c" JNull [("a", JNum 1); ("b", JNum 2)] 2) = Some JNull.
Proof.
  split; [reflexivity|].
  refine (proj2 (proj2 (updateCache_keeps_the_bound "c" JNull
                          [("a", JNum 1); ("b", JNum 2)] 2 _ _ _))).
  - lia.
  - repeat constructor; cbn; intros H; repeat (apply elem_of_cons in H as [H|H];
      [discriminate H|]); by apply elem_of_nil in H.
  - cbn. lia.
Defined.

(** X18.  The cache is first-in first-out, not least-recently-used: reading
    the oldest entry through [getContext] is a hit that sends no request and
    leaves the order alone, and writing a new identifier into a full cache
    evicts exactly that oldest entry and keeps all the others. *)
Theorem client_cache_is_first_in_first_out
    cfg c server oldest value rest contextId context :
  enableCache c = true →
  cache c = (oldest, value) :: rest →
  NoDup (List.map fst (cache c)) →
  cacheMaxSize c ≤ Z.of_nat (length (cache c)) →
  contextId ∉ List.map fst (cache c) →
  client_getContext cfg oldest false c server = Some (inr value, (c, server))
  ∧ updateCache contextId context (cache c) (cacheMaxSize c)
    = app rest [(contextId, context)].
Proof.
  intros He Hc Hnd Hfull Hnew. split.
  - unfold client_getContext. rewrite He, Hc. cbn. by rewrite String.eqb_refl.
  - unfold updateCache. rewrite (proj2 (Z.geb_le _ _) Hfull), Hc.
    rewrite Hc in Hnd, Hnew. cbn [List.map fst] in Hnd, Hnew.
    apply NoDup_cons in Hnd as [Hk _]. rewrite map_delete_oldest by done.
    apply not_elem_of_cons in Hnew as [_ Hnew]. clear -Hnew.
    induction rest as [|[k v] rest IH]; [done|].
    cbn [List.map fst] in Hnew. apply not_elem_of_cons in Hnew as [Hne Hnew].
    cbn [obj_set]. apply not_eq_sym, String.eqb_neq in Hne. rewrite Hne.
    cbn. by rewrite IH.
Qed.

Lemma client_cache_is_first_in_first_out_witness :
  updateCache "c" JNull [("a", JNum 1); ("b", JNum 2)] 2
  = [("b", JNum 2); ("c", JNull)].
Proof.
  refine (proj2 (client_cache_is_first_in_first_out central_config
                   (Client true 2 [("a", JNum 1); ("b", JNum 2)]) fresh_node
                   "a" (JNum 1) [("b", JNum 2)] "c" JNull eq_refl eq_refl _ _ _)).
  - repeat constructor; cbn; intros H; repeat (apply elem_of_cons in H as [H|H];
      [discriminate H|]); by apply elem_of_nil in H.
  - cbn. lia.
  - cbn. intros H. repeat (apply elem_of_cons in H as [H|H]; [discriminate H|]).
    by apply elem_of_nil in H.
Defined.

(** ** The client against the server *)

(** After a [PUT] that answered 200, the payload and the stored metadata are
    in the server's caches. *)
Lemma put_success_caches net ts cfg contextId reqBody st :
  status (fst (put_context_route net ts cfg contextId reqBody st)) = 200 →
  ∃ context updated,
    obj_get "context" reqBody = Some context
    ∧ truthy context = true
    ∧ contextCache (snd (put_context_route net ts cfg contextId reqBody st))
        !! contextId = Some context
    ∧ metadataCache (snd (put_context_route net ts cfg contextId reqBody st))
        !! contextId = Some updated
    ∧ body (fst (put_context_route net ts cfg contextId reqBody st))
      = JObj [("success", JBool true); ("contextId", JStr contextId);
              ("metadata", updated)]
    ∧ ∃ fields, updated = JObj fields.
Proof.
  destruct (put_context_route_local net ts cfg contextId reqBody st)
    as (-> & (_ & -> & -> & _) & _).
  unfold put_context_route. rewrite no_tailscale_no_fan_out.
  destruct (obj_get "context" reqBody) as [v|]; [|done].
  destruct (truthy v) eqn:Ht; [|done].
  destruct (saveContext _ _ _ _ _) as [[e|u] st1] eqn:Hs; [done|].
  intros _. cbn [fst snd body]. exists v, u.
  apply saveContext_success in Hs as (Hu & -> & -> & _).
  rewrite !lookup_insert_eq. repeat split; try done.
  unfold updated_metadata in Hu. destruct (get_prop _ _); [|done].
  injection Hu as <-. by eexists.
Qed.

(** X19.  Save, then read, through the client: after a [saveContext] of the
    client that succeeded, its [getContext] for the same identifier returns
    the payload that was saved, with or without the client cache and with or
    without [forceRefresh].  The identifier is any one whose request the
    development covers: the [PUT] and the [GET] are routed from the same
    path. *)
Theorem client_reads_back_what_it_saved
    net ts cfg contextId context metadata forceRefresh c server answer c' server' :
  client_saveContext net ts cfg contextId context metadata c server
  = Some (inr answer, (c', server')) →
  fst <$> client_getContext cfg contextId forceRefresh c' server'
  = Some (inr context).
Proof.
  unfold client_saveContext, http_put.
  destruct (request_target ("/contexts/" ++ contextId)) as [pathname|] eqn:Ht; [|done].
  destruct (dispatch PUT pathname) as [[h params]|] eqn:Hd; [|done].
  destruct (dispatch_put_shape _ _ _ Hd) as (raw & -> & -> & Hget).
  destruct (decode_param raw) as [id|] eqn:Hraw; [|done].
  cbn [body_fields].
  pose proof (put_success_caches net ts cfg id
                [("context", context); ("metadata", default (JObj []) metadata)]
                server) as Hput.
  destruct (put_context_route _ _ _ _ _ _) as [resp st1]. cbn [fst snd] in Hput.
  destruct (status resp =? 200) eqn:Hok; [|done].
  apply Z.eqb_eq in Hok. destruct (Hput Hok) as (v & u & Hv & Htr & Hc & _).
  cbn in Hv. injection Hv as <-.
  intros [= _ <- <-]. unfold client_getContext, http_get.
  rewrite Ht, Hget, Hraw, (get_context_route_cached cfg id st1 context Hc Htr).
  cbn [status Z.eqb Pos.eqb].
  destruct (enableCache c) eqn:He; cbn [enableCache cache set_cache andb];
    rewrite ?He; cbn [andb].
  - destruct (negb forceRefresh); [|done].
    unfold updateCache at 1. by rewrite obj_get_set_eq.
  - done.
Qed.

Lemma client_reads_back_what_it_saved_witness :
  fst <$> client_saveContext silent None central_config "c1" sample_payload None
            small_client fresh_node
  = Some (inr (JObj [("success", JBool true); ("contextId", JStr "c1");
                     ("metadata",
                      JObj [("lastModified", JStr "2024-01-01T00:00:0Z");
                            ("size", JNum 7); ("version", JNum 1)])]))
  ∧ ∃ c' server',
      snd <$> client_saveContext silent None central_config "c1" sample_payload None
                small_client fresh_node
      = Some (c', server')
      ∧ fst <$> client_getContext central_config "c1" true c' server'
        = Some (inr sample_payload).
Proof.
  remember (client_saveContext silent None central_config "c1" sample_payload None
              small_client fresh_node) as r eqn:Hr.
  assert (fst <$> r
          = Some (inr (JObj [("success", JBool true); ("contextId", JStr "c1");
                             ("metadata",
                              JObj [("lastModified", JStr "2024-01-01T00:00:0Z");
                                    ("size", JNum 7); ("version", JNum 1)])])))
    as Hfst by (rewrite Hr; vm_compute; reflexivity).
  split; [exact Hfst|].
  destruct r as [[[m|answer] [c' server']]|]; [discriminate Hfst| |discriminate Hfst].
  exists c', server'. split; [reflexivity|].
  exact (client_reads_back_what_it_saved silent None central_config "c1"
           sample_payload None true small_client fresh_node answer c' server'
           (eq_sym Hr)).
Defined.

(** X20.  A read through the client of a context the server cannot read
    (absent, or a failing disk) and that neither cache holds throws
    ["Context '<id>' not found"], and the client's cache stays as it was.  The
    identifier is one that the URL carries unchanged. *)
Theorem client_reports_not_found cfg contextId forceRefresh c server e :
  url_safe contextId = true →
  obj_get contextId (cache c) = None →
  contextCache server !! contextId = None →
  Fs.readFile (getContextPath (dataDir cfg) contextId) (disk server) = inl e →
  fst <$> client_getContext cfg contextId forceRefresh c server
  = Some (inl ("Context '" ++ contextId ++ "' not found"))
  ∧ fst ∘ snd <$> client_getContext cfg contextId forceRefresh c server = Some c.
Proof.
  intros Hsafe Hc Hs Hr. unfold client_getContext. rewrite Hc.
  assert ((if enableCache c && negb forceRefresh then None else None)
          = @None json) as -> by by destruct (_ && _).
  rewrite (http_get_safe cfg contextId server Hsafe).
  unfold get_context_route, getContext, read_json. rewrite Hs, Hr.
  cbn [negb truthy]. by destruct (_ || _).
Qed.

Lemma client_reports_not_found_witness :
  url_safe "zz" = true
  ∧ fst <$> client_getContext central_config "zz" false small_client fresh_node
    = Some (inl "Context 'zz' not found").
Proof.
  split; [reflexivity|].
  refine (proj1 (client_reports_not_found central_config "zz" false small_client
                   fresh_node Fs.ENOENT eq_refl eq_refl _ _)); vm_compute; reflexivity.
Defined.

(** X21.  A [saveContext] of the client with a falsy payload ([false], [0],
    [null], [""]), under an identifier that the URL carries unchanged, throws
    with the server's status 400; neither the client's cache nor the server
    changes. *)
Theorem client_save_of_falsy_payload_throws
    net ts cfg contextId context metadata c server :
  url_safe contextId = true →
  truthy context = false →
  client_saveContext net ts cfg contextId context metadata c server
  = Some (inl "Failed to save context: Request failed with status code 400",
          (c, server)).
Proof.
  intros Hsafe Ht. unfold client_saveContext.
  rewrite (http_put_safe net ts cfg contextId _ server Hsafe).
  rewrite put_context_route_falsy by (cbn; by rewrite Ht). reflexivity.
Qed.

Lemma client_save_of_falsy_payload_throws_witness :
  url_safe "c1" = true
  ∧ client_saveContext silent None central_config "c1" (JNum 0) None small_client
      fresh_node
    = Some (inl "Failed to save context: Request failed with status code 400",
            (small_client, fresh_node)).
Proof.
  split; [reflexivity|].
  exact (client_save_of_falsy_payload_throws silent None central_config "c1" (JNum 0)
           None small_client fresh_node eq_refl eq_refl).
Defined.

(** X22.  Metadata round trip on the server: after a [PUT] that answered 200,
    [GET /contexts/:contextId/metadata] answers 200 with exactly the metadata
    object the [PUT] answered. *)
Theorem metadata_route_returns_what_put_answered net ts cfg contextId reqBody st :
  status (fst (put_context_route net ts cfg contextId reqBody st)) = 200 →
  ∃ updated,
    answered_metadata (fst (put_context_route net ts cfg contextId reqBody st))
    = Some updated
    ∧ fst (get_metadata_route cfg contextId
             (snd (put_context_route net ts cfg contextId reqBody st)))
      = Response 200 updated.
Proof.
  intros Hok.
  destruct (put_success_caches _ _ _ _ _ _ Hok)
    as (v & u & _ & _ & _ & Hm & Hb & fields & ->).
  exists (JObj fields). split.
  - unfold answered_metadata. by rewrite Hb.
  - unfold get_metadata_route, getMetadata. by rewrite Hm.
Qed.

Lemma metadata_route_returns_what_put_answered_witness :
  fst (get_metadata_route central_config "c1" (snd s1_first))
  = Response 200 (JObj [("lastModified", JStr "2024-01-01T00:00:0Z");
                        ("size", JNum 7); ("version", JNum 1)]).
Proof.
  assert (status (fst s1_first) = 200) as Hok by (vm_compute; reflexivity).
  assert (answered_metadata (fst s1_first)
          = Some (JObj [("lastModified", JStr "2024-01-01T00:00:0Z");
                        ("size", JNum 7); ("version", JNum 1)])) as Ha
    by (vm_compute; reflexivity).
  destruct (metadata_route_returns_what_put_answered silent None central_config "c1"
              [("context", JObj [("x", JNum 1)])] fresh_node Hok) as (u & Hu & Hg).
  fold s1_first in Hu, Hg. rewrite Ha in Hu. injection Hu as <-. exact Hg.
Defined.

(** X23.  Listing never fails: when the data directory cannot be read,
    [GET /contexts] still answers 200, with an empty array, with or without
    metadata, and the failure is only written to the console. *)
Theorem listing_of_unreadable_directory_is_empty cfg includeMetadata st e :
  Fs.readdir (dataDir cfg) (disk st) = inl e →
  list_contexts_route cfg includeMetadata st
  = (Response 200 (JArr []),
     console_error ("Failed to list contexts: " ++ Fs.message e) [] st).
Proof.
  intros Hdir. unfold list_contexts_route, listContexts. rewrite Hdir.
  by destruct includeMetadata.
Qed.

Lemma listing_of_unreadable_directory_is_empty_witness :
  fst (list_contexts_route central_config true s_no_directory)
  = Response 200 (JArr []).
Proof.
  rewrite (listing_of_unreadable_directory_is_empty central_config true
             s_no_directory Fs.ENOENT); [reflexivity|].
  vm_compute. reflexivity.
Defined.

(** ** Finding the central server *)

Lemma advertised_tags_never_central serverTypeEnv regionIdEnv :
  existsb (String.eqb "central") (advertised_tags serverTypeEnv regionIdEnv) = false.
Proof. reflexivity. Qed.

(** X24.  The auto-discovery of [start()] looks for a peer whose host name or
    tag is exactly ["central"].  The tags a server of this repository
    advertises are ["context-server"], ["type:<type>"] and ["region:<id>"],
    so among peers that carry such tags and are not named ["central"] it
    finds none, and the configured central authority is kept. *)
Theorem auto_discovery_misses_advertised_tags cfg centralAuthorityEnv peers :
  Forall (fun p => name p ≠ Some "central"
                   ∧ ∃ serverTypeEnv regionIdEnv,
                       tags p = advertised_tags serverTypeEnv regionIdEnv) peers →
  findPeer "central" peers = None
  ∧ discovered_authority cfg centralAuthorityEnv peers = centralAuthority cfg.
Proof.
  intros Hpeers.
  assert (findPeer "central" peers = None) as Hnone.
  { unfold findPeer. induction Hpeers as [|p peers (Hname & sT & rI & Htags) _ IH];
      [done|].
    cbn [List.find]. unfold peer_matches at 1.
    rewrite Htags, advertised_tags_never_central, orb_false_r.
    destruct (name p) as [n|]; [|done].
    destruct (String.eqb n "central") eqn:E; [|done].
    apply String.eqb_eq in E. by subst n. }
  split; [exact Hnone|]. unfold discovered_authority. rewrite Hnone.
  by destruct (_ && _).
Qed.

Lemma auto_discovery_misses_advertised_tags_witness :
  findPeer "central"
    [Peer (Some "context-central-42") (Some "100.64.0.1") true
          (advertised_tags "central" "default")]
  = None.
Proof.
  refine (proj1 (auto_discovery_misses_advertised_tags regional_config None
                   [Peer (Some "context-central-42") (Some "100.64.0.1") true
                         (advertised_tags "central" "default")] _)).
  repeat constructor; [discriminate|]. by exists "central", "default".
Defined.

(** X25.  [setupSyncWithCentral] does recognise such a peer: when the
    integration runs and an online peer carries the tags advertised by a
    central server, the central URL is built from the address of the first
    online peer tagged [tag:central] or [type:central] and from the
    replica's own port; the configured authority is not used. *)
Theorem sync_finds_the_central_server_by_tag t cfg peers p regionIdEnv :
  isRunning t = true →
  getPeers t = inr peers →
  p ∈ peers →
  online p = true →
  tags p = advertised_tags "central" regionIdEnv →
  ∃ centralServer,
    List.find is_central peers = Some centralServer
    ∧ centralServer ∈ peers
    ∧ central_url (Some t) cfg
      = inr ("http://" ++ to_string (ip_value centralServer) ++ ":"
             ++ pretty (port cfg)).
Proof.
  intros Hrun Hpeers Hin Honline Htags.
  assert (is_central p = true) as Hp.
  { unfold is_central, has_tag. by rewrite Honline, Htags. }
  destruct (List.find is_central peers) as [q|] eqn:Hfind.
  - exists q. split; [done|]. split.
    + apply find_some in Hfind as [Hq _]. by apply list_elem_of_In.
    + unfold central_url. by rewrite Hrun, Hpeers, Hfind.
  - apply list_elem_of_In in Hin.
    pose proof (find_none _ _ Hfind p Hin). congruence.
Qed.

Lemma sync_finds_the_central_server_by_tag_witness :
  central_url
    (Some (Tailscale true
             (inr [Peer (Some "context-central-42") (Some "100.64.0.1") true
                        (advertised_tags "central" "default")])))
    regional_config
  = inr "http://100.64.0.1:3000".
Proof.
  destruct (sync_finds_the_central_server_by_tag
              (Tailscale true
                 (inr [Peer (Some "context-central-42") (Some "100.64.0.1") true
                            (advertised_tags "central" "default")]))
              regional_config
              [Peer (Some "context-central-42") (Some "100.64.0.1") true
                    (advertised_tags "central" "default")]
              (Peer (Some "context-central-42") (Some "100.64.0.1") true
                    (advertised_tags "central" "default"))
              "default" eq_refl eq_refl (list_elem_of_here _ _) eq_refl eq_refl)
    as (q & Hq & _ & Hurl).
  injection Hq as <-. exact Hurl.
Defined.

(** X26.  A [deleteContext] of the client for a context whose payload file
    the server does not have, under an identifier that the URL carries
    unchanged, throws with the server's status 500, and the entry the client
    may hold in its cache stays there. *)
Theorem client_delete_of_absent_context_throws net ts cfg contextId c server :
  url_safe contextId = true →
  Fs.entries (disk server) !! Fs.resolve (getContextPath (dataDir cfg) contextId)
  = None →
  fst <$> client_deleteContext net ts cfg contextId c server
  = Some (inl "Failed to delete context: Request failed with status code 500")
  ∧ fst ∘ snd <$> client_deleteContext net ts cfg contextId c server = Some c.
Proof.
  intros Hsafe Habs. unfold client_deleteContext.
  rewrite (http_delete_safe net ts cfg contextId server Hsafe).
  unfold delete_context_route, deleteContext, Fs.unlink.
  destruct (Fs.guard (disk server) _); [by cbn|].
  rewrite Habs. by cbn.
Qed.

Lemma client_delete_of_absent_context_throws_witness :
  url_safe "zz" = true
  ∧ fst <$> client_deleteContext silent None central_config "zz"
              (Client true 2 [("zz", JNum 1)]) fresh_node
    = Some (inl "Failed to delete context: Request failed with status code 500")
  ∧ cache ∘ fst ∘ snd <$> client_deleteContext silent None central_config "zz"
                            (Client true 2 [("zz", JNum 1)]) fresh_node
    = Some [("zz", JNum 1)].
Proof.
  split; [reflexivity|].
  destruct (client_delete_of_absent_context_throws silent None central_config "zz"
              (Client true 2 [("zz", JNum 1)]) fresh_node eq_refl) as [H1 H2].
  - vm_compute. reflexivity.
  - split; [exact H1|].
    destruct (client_deleteContext silent None central_config "zz"
                (Client true 2 [("zz", JNum 1)]) fresh_node) as [[r [c' s']]|];
      [|discriminate H2].
    cbn in H2 |- *. by injection H2 as ->.
Defined.
